(** * k6 performance-test runner: request pipeline, validators and options builder

    A shallow embedding of [main.js], [validators.js], [config.js] and
    [endpoints.js].  JavaScript values are an inductive type, objects are
    association lists of their own properties in insertion order, module-level
    variables ([storedData], [slowRequests]) and the effects of the k6 host
    (metrics, console, HTTP, [check], [sleep]) are threaded through an explicit
    state, and exceptions are completions.

    Modelling conventions, fixed once here:
    - a string is a [string] of code units below 256;
    - a number is an integer [JNum z] or [JNaN]; literals with a fraction or an
      exponent are outside the embedding and the JSON reader reports them as
      [Unmodelled];
    - properties inherited from [Object.prototype] are outside the embedding:
      property lookup sees own properties only, and so is the rule that lists
      integer-like keys of an object first. *)

From Stdlib Require Import ZArith Ascii String List Lia.
From Stdlib Require Import DecimalString DecimalN DecimalFacts.
From stdpp Require Import base option list gmap strings.

Local Open Scope Z_scope.
Set Warnings "-register-all,-clear-no-such-hyp".

(** ** Completions *)

Inductive exn :=
| Error (message : string)
| TypeError (message : string)
| SyntaxError (message : string)
| HostError (message : string)
| Unmodelled (what : string).

Definition message (e : exn) : string :=
  match e with
  | Error m | TypeError m | SyntaxError m | HostError m | Unmodelled m => m
  end.

Inductive completion (A : Type) :=
| Normal (a : A)
| Throw (e : exn).
Arguments Normal {A} a.
Arguments Throw {A} e.

Global Instance completion_ret : MRet completion := fun A a => Normal a.
Global Instance completion_bind : MBind completion := fun A B k c =>
  match c with
  | Normal a => k a
  | Throw e => Throw e
  end.

(** ** JavaScript values *)

Inductive value :=
| JUndefined
| JNull
| JBool (b : bool)
| JNum (z : Z)
| JNaN
| JStr (s : string)
| JArr (items : list value)
| JObj (props : list (string * value)).

(** Induction over values that reaches into arrays and objects. *)
Section value_induction.
Variable P : value -> Prop.
Hypothesis Hundef : P JUndefined.
Hypothesis Hnull : P JNull.
Hypothesis Hbool : forall b, P (JBool b).
Hypothesis Hnum : forall z, P (JNum z).
Hypothesis Hnan : P JNaN.
Hypothesis Hstr : forall s, P (JStr s).
Hypothesis Harr : forall items, Forall P items -> P (JArr items).
Hypothesis Hobj : forall props, Forall (fun kv => P (snd kv)) props -> P (JObj props).

Fixpoint value_rect' (v : value) : P v :=
  match v with
  | JUndefined => Hundef
  | JNull => Hnull
  | JBool b => Hbool b
  | JNum z => Hnum z
  | JNaN => Hnan
  | JStr s => Hstr s
  | JArr items =>
      Harr items
        ((fix go (l : list value) : Forall P l :=
            match l with
            | [] => Forall_nil_2 P
            | x :: l' => Forall_cons_2 P x l' (value_rect' x) (go l')
            end) items)
  | JObj props =>
      Hobj props
        ((fix go (l : list (string * value)) : Forall (fun kv => P (snd kv)) l :=
            match l with
            | [] => Forall_nil_2 _
            | kv :: l' =>
                Forall_cons_2 (fun kv => P (snd kv)) kv l' (value_rect' (snd kv)) (go l')
            end) props)
  end.
End value_induction.

(** ** Characters *)

Definition quote : ascii := "034"%char.
Definition backslash : ascii := "092"%char.

Definition ascii_eqb (a b : ascii) : bool := Ascii.eqb a b.

Definition is_digit (c : ascii) : bool :=
  let n := N_of_ascii c in ((48 <=? n) && (n <=? 57))%N.

(** ** ToString *)

Definition Number_toString (z : Z) : string :=
  NilZero.string_of_int (Z.to_int z).

Fixpoint join (sep : string) (l : list string) : string :=
  match l with
  | [] => ""
  | [x] => x
  | x :: l' => x +:+ sep +:+ join sep l'
  end.

(** [String(v)]; an array joins its elements with a comma and renders
    [null] and [undefined] elements as the empty string. *)
Fixpoint ToString (v : value) : string :=
  match v with
  | JUndefined => "undefined"
  | JNull => "null"
  | JBool true => "true"
  | JBool false => "false"
  | JNum z => Number_toString z
  | JNaN => "NaN"
  | JStr s => s
  | JArr items =>
      join ","
        (map (fun x => match x with
                       | JUndefined | JNull => ""
                       | _ => ToString x
                       end) items)
  | JObj _ => "[object Object]"
  end.

(** Truthiness, as used by [!x], [x || y] and [Boolean(x)]. *)
Definition truthy (v : value) : bool :=
  match v with
  | JUndefined | JNull | JNaN => false
  | JBool b => b
  | JNum z => negb (z =? 0)
  | JStr s => negb (String.eqb s "")
  | JArr _ | JObj _ => true
  end.

(** ** JSON.stringify *)

Definition hex_digit (n : N) : ascii :=
  if (n <? 10)%N then ascii_of_N (48 + n) else ascii_of_N (87 + n).

(** The escape of one code unit inside a JSON string literal. *)
Definition quote_char (c : ascii) : string :=
  let n := N_of_ascii c in
  if (n =? 8)%N then String backslash "b"
  else if (n =? 9)%N then String backslash "t"
  else if (n =? 10)%N then String backslash "n"
  else if (n =? 12)%N then String backslash "f"
  else if (n =? 13)%N then String backslash "r"
  else if (n =? 34)%N then String backslash (String quote "")
  else if (n =? 92)%N then String backslash (String backslash "")
  else if (n <? 32)%N then
    String backslash
      (String "u" (String "0" (String "0"
         (String (hex_digit (n / 16)) (String (hex_digit (n mod 16)) "")))))
  else String c "".

Fixpoint quote_body (s : string) : string :=
  match s with
  | "" => ""
  | String c s' => quote_char c +:+ quote_body s'
  end.

Definition QuoteJSONString (s : string) : string :=
  String quote (quote_body s +:+ String quote "").

(** [SerializeJSONProperty]: [None] is the [undefined] result. *)
Fixpoint JSON_serialize (v : value) : option string :=
  match v with
  | JUndefined => None
  | JNull => Some "null"
  | JBool true => Some "true"
  | JBool false => Some "false"
  | JNum z => Some (Number_toString z)
  | JNaN => Some "null"
  | JStr s => Some (QuoteJSONString s)
  | JArr items =>
      Some ("[" +:+ join "," (map (fun x => default "null" (JSON_serialize x)) items) +:+ "]")
  | JObj props =>
      Some ("{" +:+
        join ","
          (omap (fun kv => (fun t => QuoteJSONString (fst kv) +:+ ":" +:+ t)
                             <$> JSON_serialize (snd kv)) props) +:+ "}")
  end.

Definition JSON_stringify (v : value) : option string := JSON_serialize v.

(** ** JSON.parse *)

Definition is_ws (c : ascii) : bool :=
  let n := N_of_ascii c in
  ((n =? 32) || (n =? 9) || (n =? 10) || (n =? 13))%N.

Fixpoint skip_ws (s : string) : string :=
  match s with
  | String c s' => if is_ws c then skip_ws s' else s
  | "" => ""
  end.

Definition hex_value (c : ascii) : option N :=
  let n := N_of_ascii c in
  if ((48 <=? n) && (n <=? 57))%N then Some (n - 48)%N
  else if ((97 <=? n) && (n <=? 102))%N then Some (n - 87)%N
  else if ((65 <=? n) && (n <=? 70))%N then Some (n - 55)%N
  else None.

Definition hex4 (a b c d : ascii) : option N :=
  match hex_value a, hex_value b, hex_value c, hex_value d with
  | Some x, Some y, Some z, Some w => Some (((x * 16 + y) * 16 + z) * 16 + w)%N
  | _, _, _, _ => None
  end.

(** The character a one-letter escape stands for. *)
Definition unescape (e : ascii) : option ascii :=
  let n := N_of_ascii e in
  if (n =? 34)%N then Some quote
  else if (n =? 92)%N then Some backslash
  else if (n =? 47)%N then Some "/"%char
  else if (n =? 98)%N then Some "008"%char
  else if (n =? 102)%N then Some "012"%char
  else if (n =? 110)%N then Some "010"%char
  else if (n =? 114)%N then Some "013"%char
  else if (n =? 116)%N then Some "009"%char
  else None.

Definition bad_string : exn := SyntaxError "Bad string in JSON".
Definition unexpected_token : exn := SyntaxError "Unexpected token in JSON".
Definition unexpected_end : exn := SyntaxError "Unexpected end of JSON input".

(** Reads a string literal after its opening quote, up to and including the
    closing quote. *)
Fixpoint parse_string_body (s : string) : completion (string * string) :=
  match s with
  | "" => Throw unexpected_end
  | String c r =>
      if ascii_eqb c quote then Normal ("", r)
      else if ascii_eqb c backslash then
        match r with
        | "" => Throw unexpected_end
        | String e r' =>
            match unescape e with
            | Some ch =>
                match parse_string_body r' with
                | Normal (str, rest) => Normal (String ch str, rest)
                | Throw x => Throw x
                end
            | None =>
                if ascii_eqb e "u" then
                  match r' with
                  | String h1 (String h2 (String h3 (String h4 r''))) =>
                      match hex4 h1 h2 h3 h4 with
                      | Some code =>
                          if (code <? 256)%N then
                            match parse_string_body r'' with
                            | Normal (str, rest) => Normal (String (ascii_of_N code) str, rest)
                            | Throw x => Throw x
                            end
                          else Throw (Unmodelled "code unit above 255")
                      | None => Throw bad_string
                      end
                  | _ => Throw bad_string
                  end
                else Throw bad_string
            end
        end
      else if (N_of_ascii c <? 32)%N then Throw bad_string
      else
        match parse_string_body r with
        | Normal (str, rest) => Normal (String c str, rest)
        | Throw x => Throw x
        end
  end.

(** The longest prefix of decimal digits. *)
Fixpoint lex_digits (s : string) : Decimal.uint * string :=
  match s with
  | "" => (Decimal.Nil, "")
  | String c r =>
      if is_digit c then
        let '(u, rest) := lex_digits r in
        (match (N_of_ascii c - 48)%N with
         | 0 => Decimal.D0 u | 1 => Decimal.D1 u | 2 => Decimal.D2 u | 3 => Decimal.D3 u
         | 4 => Decimal.D4 u | 5 => Decimal.D5 u | 6 => Decimal.D6 u | 7 => Decimal.D7 u
         | 8 => Decimal.D8 u | _ => Decimal.D9 u
         end%N, rest)
      else (Decimal.Nil, s)
  end.

(** What may not follow the integer part of a number in this embedding. *)
Definition continues_number (s : string) : bool :=
  match s with
  | String c _ => ascii_eqb c "." || ascii_eqb c "e" || ascii_eqb c "E"
  | "" => false
  end.

(** An integer literal without its sign: no leading zero, no fraction. *)
Definition parse_digits (s : string) : completion (N * string) :=
  let '(u, rest) := lex_digits s in
  if Decimal.uint_eq_dec (Decimal.unorm u) u then
    if continues_number rest then Throw (Unmodelled "fraction or exponent")
    else Normal (N.of_uint u, rest)
  else Throw unexpected_token.

Fixpoint expect (word : string) (s : string) : option string :=
  match word, s with
  | "", _ => Some s
  | String w word', String c s' => if ascii_eqb w c then expect word' s' else None
  | String _ _, "" => None
  end.

Definition set_prop (props : list (string * value)) (k : string) (v : value)
  : list (string * value) :=
  if existsb (fun kv => String.eqb (fst kv) k) props
  then map (fun kv => if String.eqb (fst kv) k then (k, v) else kv) props
  else props ++ [(k, v)].

Definition out_of_fuel : exn := Unmodelled "fuel".

(** The text after the character [c], when the text starts with it. *)
Definition starts_with (c : ascii) (s : string) : option string :=
  match s with
  | String c' r => if ascii_eqb c c' then Some r else None
  | "" => None
  end.

Definition unexpected (s : string) : exn :=
  match s with
  | "" => unexpected_end
  | _ => unexpected_token
  end.

Fixpoint parse_value (fuel : nat) (s : string) {struct fuel}
  : completion (value * string) :=
  match fuel with
  | O => Throw out_of_fuel
  | S fuel' =>
      match skip_ws s with
      | "" => Throw unexpected_end
      | String c r =>
          if ascii_eqb c "{" then
            match starts_with "}" (skip_ws r) with
            | Some r' => Normal (JObj [], r')
            | None =>
                '(ms, rest) ← parse_members fuel' r;
                Normal (JObj (fold_left (fun o kv => set_prop o (fst kv) (snd kv)) ms []), rest)
            end
          else if ascii_eqb c "[" then
            match starts_with "]" (skip_ws r) with
            | Some r' => Normal (JArr [], r')
            | None => '(vs, rest) ← parse_elements fuel' r; Normal (JArr vs, rest)
            end
          else if ascii_eqb c quote then
            '(str, rest) ← parse_string_body r; Normal (JStr str, rest)
          else if ascii_eqb c "-" then
            '(n, rest) ← parse_digits r; Normal (JNum (- Z.of_N n), rest)
          else if is_digit c then
            '(n, rest) ← parse_digits (String c r); Normal (JNum (Z.of_N n), rest)
          else
            match expect "true" (String c r), expect "false" (String c r),
                  expect "null" (String c r) with
            | Some rest, _, _ => Normal (JBool true, rest)
            | _, Some rest, _ => Normal (JBool false, rest)
            | _, _, Some rest => Normal (JNull, rest)
            | _, _, _ => Throw unexpected_token
            end
      end
  end
with parse_elements (fuel : nat) (s : string) {struct fuel}
  : completion (list value * string) :=
  match fuel with
  | O => Throw out_of_fuel
  | S fuel' =>
      '(v, r) ← parse_value fuel' s;
      match starts_with "," (skip_ws r), starts_with "]" (skip_ws r) with
      | Some r', _ => '(vs, rest) ← parse_elements fuel' r'; Normal (v :: vs, rest)
      | None, Some r' => Normal ([v], r')
      | None, None => Throw (unexpected (skip_ws r))
      end
  end
with parse_members (fuel : nat) (s : string) {struct fuel}
  : completion (list (string * value) * string) :=
  match fuel with
  | O => Throw out_of_fuel
  | S fuel' =>
      match starts_with quote (skip_ws s) with
      | None => Throw (unexpected (skip_ws s))
      | Some r =>
          '(k, r1) ← parse_string_body r;
          match starts_with ":" (skip_ws r1) with
          | None => Throw (unexpected (skip_ws r1))
          | Some r2 =>
              '(v, r3) ← parse_value fuel' r2;
              match starts_with "," (skip_ws r3), starts_with "}" (skip_ws r3) with
              | Some r4, _ => '(ms, rest) ← parse_members fuel' r4; Normal ((k, v) :: ms, rest)
              | None, Some r4 => Normal ([(k, v)], r4)
              | None, None => Throw (unexpected (skip_ws r3))
              end
          end
      end
  end.

(** [JSON.parse(text)]: one value, then nothing but white space.  The fuel
    is never used up, see [JSON_parse_fuel]. *)
Definition JSON_parse (text : string) : completion value :=
  '(v, rest) ← parse_value (S (2 * String.length text)%nat) text;
  match skip_ws rest with
  | "" => Normal v
  | _ => Throw unexpected_token
  end.

(** A text that does not go on with a digit, a fraction or an exponent. *)
Definition ends_number (rest : string) : bool :=
  match rest with
  | "" => true
  | String c _ => negb (is_digit c) && negb (continues_number rest)
  end.

(** The values [JSON.stringify] writes and [JSON.parse] reads back: no
    [undefined], no [NaN], numbers in the safe-integer range (the ones the
    embedding carries exactly), and objects whose keys are distinct. *)
Fixpoint serializable (v : value) : bool :=
  match v with
  | JUndefined | JNaN => false
  | JNull | JBool _ | JStr _ => true
  | JNum z => (- 2 ^ 53 <? z) && (z <? 2 ^ 53)
  | JArr items => forallb serializable items
  | JObj props =>
      forallb (fun kv => serializable (snd kv)) props
      && bool_decide (NoDup (map fst props))
  end.

(** Fuel that reading a value back takes. *)
Fixpoint parse_cost (v : value) : nat :=
  match v with
  | JArr items => S (sum_list (map (fun x => S (parse_cost x)) items))
  | JObj props => S (sum_list (map (fun kv => S (parse_cost (snd kv))) props))
  | _ => 1
  end.

(** What follows a value inside an array or an object, or the end of text. *)
Definition delim (rest : string) : bool :=
  match rest with
  | "" => true
  | String c _ => ascii_eqb c "," || ascii_eqb c "]" || ascii_eqb c "}"
  end.

(** The first character of a serialized value starts a value. *)
Definition value_head (t : string) : bool :=
  match t with
  | "" => false
  | String c _ => negb (is_ws c) && negb (ascii_eqb "]" c) && negb (ascii_eqb "}" c)
  end.

(** A serializable value is read back from its own text, whatever delimiter
    follows, with fuel for its size. *)
Definition reads_back (x : value) : Prop :=
  serializable x = true ->
  forall (fuel : nat) (rest t : string),
    (parse_cost x <= fuel)%nat -> delim rest = true -> JSON_serialize x = Some t ->
    value_head t = true /\ parse_value fuel (t +:+ rest) = Normal (x, rest).

Definition member_text (kv : string * value) : option string :=
  (fun t => QuoteJSONString (fst kv) +:+ ":" +:+ t) <$> JSON_serialize (snd kv).

(** ** The placeholder pattern [/\${stored\.(.*?)}/g] *)

(** [.] matches any code unit but a line terminator. *)
Definition line_terminator (c : ascii) : bool :=
  let n := N_of_ascii c in ((n =? 10) || (n =? 13))%N.

(** [(.*?)}] at the head of [s]: the shortest run of [.] up to the first
    closing brace, and the text after that brace. *)
Fixpoint lazy_until_brace (s : string) : option (string * string) :=
  match s with
  | "" => None
  | String c r =>
      if ascii_eqb c "}" then Some ("", r)
      else if line_terminator c then None
      else match lazy_until_brace r with
           | Some (key, rest) => Some (String c key, rest)
           | None => None
           end
  end.

(** One match attempt at the head of [s]: the captured key and the text
    after the match. *)
Definition match_here (s : string) : option (string * string) :=
  match expect "${stored." s with
  | Some r => lazy_until_brace r
  | None => None
  end.

Inductive segment :=
| Lit (c : ascii)
| Placeholder (key : string).

(** All matches, leftmost first, each search resuming after the previous
    match; what lies between matches is kept as literal characters. *)
Fixpoint scan (fuel : nat) (s : string) : list segment :=
  match fuel with
  | O => []
  | S fuel' =>
      match s with
      | "" => []
      | String c r =>
          match match_here s with
          | Some (key, rest) => Placeholder key :: scan fuel' rest
          | None => Lit c :: scan fuel' r
          end
      end
  end.

Definition segments (text : string) : list segment := scan (String.length text) text.

(** The text a list of segments stands for. *)
Fixpoint spell (segs : list segment) : string :=
  match segs with
  | [] => ""
  | Lit c :: segs' => String c (spell segs')
  | Placeholder key :: segs' => "${stored." +:+ key +:+ String "}" (spell segs')
  end.

(** The keys the pattern captures in [text], in order. *)
Definition placeholder_keys (text : string) : list string :=
  omap (fun seg => match seg with Placeholder key => Some key | Lit _ => None end)
       (segments text).

(** [text.replace(pattern, replacer)]: the replacer runs once per match,
    left to right, and its result is spliced in as a string. *)
Fixpoint replace_segments (replacer : string -> completion value) (segs : list segment)
  : completion string :=
  match segs with
  | [] => Normal ""
  | Lit c :: segs' => out ← replace_segments replacer segs'; Normal (String c out)
  | Placeholder key :: segs' =>
      r ← replacer key;
      out ← replace_segments replacer segs';
      Normal (ToString r +:+ out)
  end.

Definition String_replace_stored (text : string) (replacer : string -> completion value)
  : completion string :=
  replace_segments replacer (segments text).

(** The replacer of [prepareRequestBody], lines 99-104. *)
Definition stored_replacer (storedData : gmap string value) (key : string)
  : completion value :=
  match storedData !! key with
  | None => Throw (Error ("Stored value '" +:+ key +:+ "' not found"))
  | Some v => Normal v
  end.

(** Lines 98-105: serialize, replace, parse. *)
Definition substitute (content : value) (storedData : gmap string value)
  : completion value :=
  match JSON_stringify content with
  | None => Throw (TypeError "Cannot read property 'replace' of undefined")
  | Some text =>
      replaced ← String_replace_stored text (stored_replacer storedData);
      JSON_parse replaced
  end.

(** The placeholders of a content structure are the matches of the pattern in
    its serialized text. *)
Definition content_placeholders (content : value) : list string :=
  match JSON_stringify content with
  | Some text => placeholder_keys text
  | None => []
  end.



(** ** Contents without a dollar sign *)

Fixpoint mentions (c : ascii) (s : string) : bool :=
  match s with
  | "" => false
  | String c' s' => ascii_eqb c c' || mentions c s'
  end.

(** No string value and no key of the structure has a dollar sign. *)
Fixpoint dollar_free (v : value) : bool :=
  match v with
  | JStr s => negb (mentions "$" s)
  | JArr items => forallb dollar_free items
  | JObj props =>
      forallb (fun kv => negb (mentions "$" (fst kv)) && dollar_free (snd kv)) props
  | _ => true
  end.

(** ** Property access *)

(** The array index a property key names, when it is below [n]. *)
Definition own_index (k : string) (n : nat) : option nat :=
  fst <$> list_find (fun i : nat => Number_toString (Z.of_nat i) = k) (seq 0 n).

(** [o[k]] over own properties. *)
Definition get_prop (o : value) (k : string) : completion value :=
  match o with
  | JUndefined | JNull =>
      Throw (TypeError ("Cannot read property '" +:+ k +:+ "' of " +:+ ToString o))
  | JObj props =>
      Normal (default JUndefined (snd <$> find (fun kv => String.eqb (fst kv) k) props))
  | JArr items =>
      if String.eqb k "length" then Normal (JNum (Z.of_nat (length items)))
      else Normal (default JUndefined (i ← own_index k (length items); items !! i))
  | JStr s =>
      if String.eqb k "length" then Normal (JNum (Z.of_nat (String.length s)))
      else Normal (default JUndefined
                     (i ← own_index k (String.length s);
                      c ← String.get i s;
                      Some (JStr (String c ""))))
  | JBool _ | JNum _ | JNaN => Normal JUndefined
  end.

Definition Object_entries (v : value) : completion (list (string * value)) :=
  match v with
  | JUndefined | JNull => Throw (TypeError "Cannot convert undefined or null to object")
  | JObj props => Normal props
  | JArr items => Normal (imap (fun i x => (Number_toString (Z.of_nat i), x)) items)
  | JStr s =>
      Normal (imap (fun i c => (Number_toString (Z.of_nat i), JStr (String c "")))
                   (list_ascii_of_string s))
  | JBool _ | JNum _ | JNaN => Normal []
  end.

Definition typeof (v : value) : string :=
  match v with
  | JUndefined => "undefined"
  | JNull | JArr _ | JObj _ => "object"
  | JBool _ => "boolean"
  | JNum _ | JNaN => "number"
  | JStr _ => "string"
  end.

(** [SameValueZero], the comparison of [Array.prototype.includes].  Arrays and
    objects compare by identity; a value read from a response is never the
    same object as one written in the configuration. *)
Definition same_value_zero (a b : value) : bool :=
  match a, b with
  | JUndefined, JUndefined | JNull, JNull | JNaN, JNaN => true
  | JBool x, JBool y => Bool.eqb x y
  | JNum x, JNum y => x =? y
  | JStr x, JStr y => String.eqb x y
  | _, _ => false
  end.

(** An argument that may also be a function, as the options of a validator. *)
Inductive jsarg :=
| Val (v : value)
| Fun (source : string) (call : value -> completion value).

(** ** Configuration ([config.js]) *)

Record TestConfig := {
  d_vus : Z;
  d_duration : string;
  d_responseTime : Z;
  d_thresholds : list (string * list string)
}.

Record ContentTypes := {
  ct_json : string;
  ct_formData : string;
  ct_urlEncoded : string;
  ct_text : string
}.

Record GlobalConfig := {
  g_baseURL : string;
  g_headers : list (string * string);
  defaultTestConfig : TestConfig;
  slowRequestThreshold : Z;
  contentTypes : ContentTypes
}.

Definition globalConfig : GlobalConfig := {|
  g_baseURL := "https://uat.openfinance.adcb.com";
  g_headers := [("Accept", "application/json")];
  defaultTestConfig := {|
    d_vus := 1;
    d_duration := "30s";
    d_responseTime := 1000;
    d_thresholds := [("http_req_failed", ["rate<0.01"]);
                     ("http_req_duration", ["p(95)<1000"])]
  |};
  slowRequestThreshold := 1000;
  contentTypes := {|
    ct_json := "application/json";
    ct_formData := "multipart/form-data";
    ct_urlEncoded := "application/x-www-form-urlencoded";
    ct_text := "text/plain"
  |}
|}.

(** ** Endpoint descriptors ([endpoints.js]) *)

Record FieldDescriptor := {
  type : string;
  values : jsarg;
  pattern : jsarg;
  validator : jsarg;
  minLength : jsarg;
  maxLength : jsarg;
  fmin : jsarg;
  fmax : jsarg
}.

Definition absent : jsarg := Val JUndefined.

(** [{ type: t }] with every option left out. *)
Definition field (t : string) : FieldDescriptor := {|
  type := t; values := absent; pattern := absent; validator := absent;
  minLength := absent; maxLength := absent; fmin := absent; fmax := absent
|}.

Record ScenarioConfig := {
  vus : option Z;
  duration : option string;
  target : option Z;
  responseTime : option Z;
  thresholds : option (list (string * list string))
}.

Record BodyConfig := {
  body_type : string;
  content : value;
  contentType : option string
}.

Record EndpointConfig := {
  baseURL : option string;
  path : string;
  method : string;
  tags : list string;
  config : option ScenarioConfig;
  headers : list (string * string);
  body : option BodyConfig;
  expectedStatus : option Z;
  expectedContent : option (list (string * FieldDescriptor));
  storeResponse : option (list (string * string))
}.

(** [x || d] for an optional number and an optional string: zero and the
    empty string are falsy, like a missing property. *)
Definition or_number (x : option Z) (d : Z) : Z :=
  match x with
  | Some z => if z =? 0 then d else z
  | None => d
  end.

Definition or_string (x : option string) (d : string) : string :=
  match x with
  | Some s => if String.eqb s "" then d else s
  | None => d
  end.

(** The one endpoint of [endpoints.js]; [auth_token] is [__ENV.AUTH_TOKEN]. *)
Definition getToken (auth_token : value) : EndpointConfig := {|
  baseURL := Some "https://test.api.auth.adcb.com";
  path := "/oauth2/token";
  method := "POST";
  tags := ["token"; "auth"];
  config := Some {| vus := Some 2; duration := Some "1m"; target := Some 50;
                    responseTime := None; thresholds := None |};
  headers := [("Authorization", "Basic " +:+ ToString auth_token)];
  body := Some {| body_type := "x-www-form-urlencoded";
                  content := JObj [("grant_type", JStr "client_credentials")];
                  contentType := None |};
  expectedStatus := Some 200;
  expectedContent := Some [
    ("access_token", field "text");
    ("expires_in", field "number");
    ("token_type",
     {| type := "enum";
        values := Val (JArr [JStr "Basic"; JStr "Bearer"; JStr "JWT"]);
        pattern := absent; validator := absent; minLength := absent;
        maxLength := absent; fmin := absent; fmax := absent |})];
  storeResponse := Some [("accessToken", "access_token")]
|}.

(** The registry, in the order of [Object.entries]. *)
Definition endpoints (auth_token : value) : list (string * EndpointConfig) :=
  [("getToken", getToken auth_token)].

(** ** The k6 host and the run-time state *)

Record Response := {
  status : Z;
  r_body : value;                 (* [response.body]: a string or [null] *)
  json : completion value         (* what [response.json()] returns or throws *)
}.

Record Params := {
  p_headers : gmap string string;
  p_tags : gmap string string
}.

Inductive RequestBody :=
| BodyNull
| BodyUndefined
| BodyText (text : string)
| BodyForm (parts : list (string * value)).

Inductive HttpCall :=
| HttpGet (url : string) (params : Params)
| HttpRequest (method url : string) (body : RequestBody) (params : Params).

Inductive effect :=
| MetricAdd (metric : string) (sample : value) (tags : list (string * value))
| ConsoleWarn (text : string)
| ConsoleError (text : string)
| Http (call : HttpCall)
| Check (checks : gmap string value)
| Sleep (seconds : Z).

Record SlowRequest := {
  sr_endpoint : string;
  sr_duration : Z;
  sr_timestamp : string;
  sr_method : string;
  sr_url : string;
  sr_status : Z;
  sr_threshold : Z
}.

(** The module variables [storedData] and [slowRequests] of [main.js], the
    effects on the host in the order they happen, and the clock. *)
Record Runtime := {
  storedData : gmap string value;
  slowRequests : list SlowRequest;
  effects : list effect;
  now : Z
}.

(** What the code takes from its host. *)
Record Host := {
  RegExp_test : string -> string -> string -> completion bool;
  Date_parse : string -> option Z;
  URL_parses : string -> bool;
  encodeURIComponent : string -> string;
  Date_toISOString : Z -> string;
  open : value -> completion value;
  (* the response to a call sent at a time, and the milliseconds it takes *)
  transport : Z -> HttpCall -> Response * Z
}.

Definition M (A : Type) : Type := Runtime -> completion A * Runtime.

Global Instance M_ret : MRet M := fun A a rt => (Normal a, rt).
Global Instance M_bind : MBind M := fun A B k m rt =>
  match m rt with
  | (Normal a, rt') => k a rt'
  | (Throw e, rt') => (Throw e, rt')
  end.

Definition throw {A} (e : exn) : M A := fun rt => (Throw e, rt).

Definition lift {A} (c : completion A) : M A := fun rt => (c, rt).

Definition try_catch {A} (m : M A) (handler : exn -> M A) : M A := fun rt =>
  match m rt with
  | (Throw e, rt') => handler e rt'
  | done => done
  end.

Definition emit (e : effect) : M unit := fun rt =>
  (Normal tt,
   {| storedData := storedData rt; slowRequests := slowRequests rt;
      effects := effects rt ++ [e]; now := now rt |}).

Definition get_storedData : M (gmap string value) := fun rt => (Normal (storedData rt), rt).

Definition set_stored (key : string) (v : value) : M unit := fun rt =>
  (Normal tt,
   {| storedData := <[key := v]> (storedData rt); slowRequests := slowRequests rt;
      effects := effects rt; now := now rt |}).

Definition push_slowRequest (r : SlowRequest) : M unit := fun rt =>
  (Normal tt,
   {| storedData := storedData rt; slowRequests := slowRequests rt ++ [r];
      effects := effects rt; now := now rt |}).

(** [new Date()]. *)
Definition new_Date : M Z := fun rt => (Normal (now rt), rt).

(** The metrics of lines 47-53, by their k6 names. *)
Definition failureRate : string := "failed_requests".
Definition slowRequests_rate : string := "slow_requests".
Definition responseTime_trend : string := "response_time".
Definition slowRequestDetails : string := "slow_request_details".
Definition validationFailures : string := "validation_failures".

Definition metric_add (metric : string) (sample : value) (tags : list (string * value))
  : M unit :=
  emit (MetricAdd metric sample tags).

Section Pipeline.
Context (host : Host).

Definition http (call : HttpCall) : M Response := fun rt =>
  let '(response, dt) := transport host (now rt) call in
  (Normal response,
   {| storedData := storedData rt; slowRequests := slowRequests rt;
      effects := effects rt ++ [Http call]; now := now rt + dt |}).

(** ** The validator table ([validators.js]) *)

Definition Validator : Type := value -> jsarg -> completion value.

Definition regexp_test (source flags : string) (v : value) : completion value :=
  b ← RegExp_test host source flags (ToString v); Normal (JBool b).

Definition validators_text : Validator := fun value _ =>
  Normal (JBool (String.eqb (typeof value) "string")).

Definition validators_email : Validator := fun value _ =>
  regexp_test "^[^\s@]+@[^\s@]+\.[^\s@]+$" "" value.

Definition validators_number : Validator := fun value _ =>
  Normal (JBool (String.eqb (typeof value) "number"
                 && negb (match value with JNaN => true | _ => false end))).

Definition validators_boolean : Validator := fun value _ =>
  Normal (JBool (String.eqb (typeof value) "boolean")).

Definition validators_date : Validator := fun value _ =>
  Normal (JBool (bool_decide (is_Some (Date_parse host (ToString value))))).

Definition validators_url : Validator := fun value _ =>
  Normal (JBool (URL_parses host (ToString value))).

Definition validators_array : Validator := fun value _ =>
  Normal (JBool (match value with JArr _ => true | _ => false end)).

Definition validators_object : Validator := fun value _ =>
  Normal (JBool (match value with JObj _ => true | _ => false end)).

Definition validators_phone : Validator := fun value _ =>
  regexp_test "^\+?[\d\s\(\)\-]{8,}$" "" value.

Definition validators_uuid : Validator := fun value _ =>
  regexp_test
    "^[0-9a-f]{8}-[0-9a-f]{4}-4[0-9a-f]{3}-[89ab][0-9a-f]{3}-[0-9a-f]{12}$" "i" value.

(** [allowedValues.includes(value)]: membership in an array, a substring
    test on a string, a [TypeError] on anything else. *)
Definition validators_enum : Validator := fun value allowedValues =>
  match allowedValues with
  | Val (JArr items) => Normal (JBool (existsb (same_value_zero value) items))
  | Val (JStr s) => Normal (JBool (bool_decide (is_Some (String.index 0 (ToString value) s))))
  | Val JUndefined => Throw (TypeError "Cannot read property 'includes' of undefined")
  | Val JNull => Throw (TypeError "Cannot read property 'includes' of null")
  | Val _ | Fun _ _ => Throw (TypeError "allowedValues.includes is not a function")
  end.

(** [new RegExp(pattern).test(value)]; [new RegExp(undefined)] has the empty
    pattern. *)
Definition validators_regex : Validator := fun value pattern =>
  regexp_test
    match pattern with
    | Val JUndefined => "(?:)"
    | Val p => ToString p
    | Fun source _ => source
    end "" value.

Definition validators_custom : Validator := fun value validatorFn =>
  match validatorFn with
  | Fun _ call => call value
  | Val _ => Throw (TypeError "validatorFn is not a function")
  end.

Definition validators : gmap string Validator :=
  list_to_map [
    ("text", validators_text);
    ("email", validators_email);
    ("number", validators_number);
    ("boolean", validators_boolean);
    ("date", validators_date);
    ("url", validators_url);
    ("array", validators_array);
    ("object", validators_object);
    ("phone", validators_phone);
    ("uuid", validators_uuid);
    ("enum", validators_enum);
    ("regex", validators_regex);
    ("custom", validators_custom)].

(** ** [main.js] *)

(** Lines 92-135. *)
Fixpoint form_parts (entries : list (string * value)) : completion (list (string * value)) :=
  match entries with
  | [] => Normal []
  | (key, value) :: rest =>
      let is_file :=
        match value with
        | JUndefined | JNull => false
        | _ => match get_prop value "type" with
               | Normal (JStr t) => String.eqb t "file"
               | _ => false
               end
        end in
      part ← (if is_file then p ← get_prop value "path"; open host p else Normal value);
      parts ← form_parts rest;
      Normal ((key, part) :: parts)
  end.

Definition prepareRequestBody (bodyConfig : option BodyConfig)
    (storedData : gmap string value) : M RequestBody :=
  match bodyConfig with
  | None => mret BodyNull
  | Some bodyConfig =>
      try_catch
        (lift (
           processedContent ← substitute (content bodyConfig) storedData;
           if String.eqb (body_type bodyConfig) "form-data" then
             entries ← Object_entries processedContent;
             parts ← form_parts entries;
             Normal (BodyForm parts)
           else if String.eqb (body_type bodyConfig) "x-www-form-urlencoded" then
             entries ← Object_entries processedContent;
             Normal (BodyText
               (join "&" (map (fun kv => fst kv +:+ "=" +:+
                                 encodeURIComponent host (ToString (snd kv))) entries)))
           else if String.eqb (body_type bodyConfig) "raw" then
             Normal (match JSON_stringify processedContent with
                     | Some text => BodyText text
                     | None => BodyUndefined
                     end)
           else Throw (Error ("Unsupported body type: " +:+ body_type bodyConfig))))
        (fun error =>
           emit (ConsoleError ("Error preparing request body: " +:+ message error));;
           throw error)
  end.

(** Lines 138-147.  [endpointConfig] is [None] when the caller passes no
    second argument. *)
Definition parseResponse (response : Response) (endpointConfig : option EndpointConfig)
  : M value :=
  if negb (truthy (r_body response)) then mret JNull
  else
    try_catch (lift (json response))
      (fun error =>
         match endpointConfig with
         | None => throw (TypeError "Cannot read property 'path' of undefined")
         | Some endpointConfig =>
             emit (ConsoleWarn ("Failed to parse response as JSON for endpoint "
                                +:+ path endpointConfig +:+ ": " +:+ message error));;
             mret JNull
         end).

(** Lines 158-174, the loop over the declared fields. *)
Fixpoint validate_fields (responseBody : value)
    (expected : list (string * FieldDescriptor)) (validationResults : gmap string value)
  : M (gmap string value) :=
  match expected with
  | [] => mret validationResults
  | (field, validation) :: rest =>
      value ← lift (get_prop responseBody field);
      match validators !! type validation with
      | None =>
          emit (ConsoleError ("Unknown validator type: " +:+ type validation));;
          validate_fields responseBody rest
            (<[field +:+ " validation" := JBool false]> validationResults)
      | Some validator =>
          isValid ← lift (validator value (values validation));
          (if truthy isValid then mret tt
           else metric_add validationFailures (JNum 1)
                  [("field", JStr field); ("type", JStr (type validation))]);;
          validate_fields responseBody rest
            (<[field +:+ " is valid" := isValid]> validationResults)
      end
  end.

(** Lines 150-177. *)
Definition validateResponseContent (response : Response)
    (expectedContent : list (string * FieldDescriptor)) : M (gmap string value) :=
  responseBody ← parseResponse response None;
  if negb (truthy responseBody) then mret {[ "response parsing" := JBool false ]}
  else validate_fields responseBody expectedContent ∅.

Fixpoint store_fields (responseBody : value) (pairs : list (string * string)) : M unit :=
  match pairs with
  | [] => mret tt
  | (key, path) :: rest =>
      v ← lift (get_prop responseBody path);
      set_stored key v;;
      store_fields responseBody rest
  end.

(** [duration > (endpointConfig.config?.responseTime || globalConfig.slowRequestThreshold)],
    line 220. *)
Definition slow_threshold (endpointConfig : EndpointConfig) : Z :=
  or_number (c ← config endpointConfig; responseTime c) (slowRequestThreshold globalConfig).

Definition isSlowRequest (endpointConfig : EndpointConfig) (duration : Z) : bool :=
  slow_threshold endpointConfig <? duration.

(** Lines 184-200: the headers and tags every call is sent with. *)
Definition request_headers (endpointConfig : EndpointConfig) : gmap string string :=
  let headers : gmap string string :=
    list_to_map (headers endpointConfig) ∪ list_to_map (g_headers globalConfig) in
  match body endpointConfig with
  | Some b =>
      if String.eqb (body_type b) "raw" then
        <["Content-Type" := or_string (contentType b) (ct_json (contentTypes globalConfig))]>
          headers
      else if String.eqb (body_type b) "x-www-form-urlencoded" then
        <["Content-Type" := ct_urlEncoded (contentTypes globalConfig)]> headers
      else headers
  | None => headers
  end.

Definition request_params (endpoint : string) (endpointConfig : EndpointConfig) : Params := {|
  p_headers := request_headers endpointConfig;
  p_tags :=
    list_to_map (imap (fun i t => (Number_toString (Z.of_nat i), t)) (tags endpointConfig))
    ∪ {[ "endpoint" := endpoint ]}
|}.

(** Lines 181-182 and 214: the URL and the call. *)
Definition request_url (endpointConfig : EndpointConfig) : string :=
  or_string (baseURL endpointConfig) (g_baseURL globalConfig) +:+ path endpointConfig.

Definition request_call (endpoint : string) (endpointConfig : EndpointConfig)
    (body : RequestBody) : HttpCall :=
  if String.eqb (method endpointConfig) "GET"
  then HttpGet (request_url endpointConfig) (request_params endpoint endpointConfig)
  else HttpRequest (method endpointConfig) (request_url endpointConfig) body
         (request_params endpoint endpointConfig).

(** Lines 180-269. *)
Definition handleRequest (endpoint : string) (endpointConfig : EndpointConfig) : M unit :=
  let url := request_url endpointConfig in
  prepared ← try_catch
    (match body endpointConfig with
     | Some b =>
         stored ← get_storedData;
         prepared ← prepareRequestBody (Some b) stored;
         mret (Some prepared)
     | None => mret (Some BodyNull)
     end)
    (fun error =>
       emit (ConsoleError ("Failed to prepare request body for " +:+ endpoint +:+ ": "
                           +:+ message error));;
       metric_add failureRate (JNum 1) [];;
       mret None);
  match prepared with
  | None => mret tt
  | Some body =>
      startTime ← new_Date;
      response ← http (request_call endpoint endpointConfig body);
      endTime ← new_Date;
      let duration := endTime - startTime in
      metric_add responseTime_trend (JNum duration) [("endpoint", JStr endpoint)];;
      let slow := isSlowRequest endpointConfig duration in
      metric_add slowRequests_rate (JBool slow) [];;
      (if slow then
         metric_add slowRequestDetails (JNum duration)
           [("endpoint", JStr endpoint); ("method", JStr (method endpointConfig));
            ("url", JStr url); ("statusCode", JNum (status response));
            ("timestamp", JStr (Date_toISOString host startTime))];;
         push_slowRequest
           {| sr_endpoint := endpoint; sr_duration := duration;
              sr_timestamp := Date_toISOString host startTime;
              sr_method := method endpointConfig; sr_url := url;
              sr_status := status response;
              sr_threshold := slow_threshold endpointConfig |}
       else mret tt);;
      (match storeResponse endpointConfig with
       | Some pairs =>
           try_catch
             (responseBody ← parseResponse response (Some endpointConfig);
              if truthy responseBody then store_fields responseBody pairs else mret tt)
             (fun error =>
                emit (ConsoleError ("Failed to store response data for " +:+ endpoint
                                    +:+ ": " +:+ message error)))
       | None => mret tt
       end);;
      let checks : gmap string value :=
        {[ "status is as expected" :=
             JBool (status response =? or_number (expectedStatus endpointConfig) 200);
           "response time is within limits" := JBool (negb slow) ]} in
      checks ← match expectedContent endpointConfig with
               | Some expected =>
                   results ← validateResponseContent response expected;
                   mret (results ∪ checks)
               | None => mret checks
               end;
      emit (Check checks);;
      metric_add failureRate
        (JBool (negb (forallb truthy (map snd (map_to_list checks))))) [];;
      emit (Sleep 1)
  end.
End Pipeline.

(** ** The options builder (lines 60-89) *)

Record Scenario := {
  executor : string;
  sc_vus : Z;
  sc_duration : string;
  exec : string;
  env_SCENARIO : string
}.

Record Options := {
  scenarios : gmap string Scenario;
  opt_thresholds : gmap string (list string)
}.

(** The body of the [forEach] over the endpoints to run. *)
Definition add_endpoint (acc : Options) (entry : string * EndpointConfig) : Options :=
  let '(endpoint, endpointConfig) := entry in
  let scenario := {|
    executor := "constant-vus";
    sc_vus := or_number (c ← config endpointConfig; vus c)
                        (d_vus (defaultTestConfig globalConfig));
    sc_duration := or_string (c ← config endpointConfig; duration c)
                             (d_duration (defaultTestConfig globalConfig));
    exec := "default";
    env_SCENARIO := endpoint
  |} in
  let thresholds1 :=
    match c ← config endpointConfig; responseTime c with
    | Some t =>
        if t =? 0 then opt_thresholds acc
        else <["http_req_duration{endpoint:" +:+ endpoint +:+ "}"
               := ["p(95)<" +:+ Number_toString t]]> (opt_thresholds acc)
    | None => opt_thresholds acc
    end in
  let thresholds2 :=
    match c ← config endpointConfig; thresholds c with
    | Some custom =>
        fold_left (fun th mc => <[fst mc +:+ "{endpoint:" +:+ endpoint +:+ "}" := snd mc]> th)
                  custom thresholds1
    | None => thresholds1
    end in
  {| scenarios := <[endpoint := scenario]> (scenarios acc); opt_thresholds := thresholds2 |}.

(** Lines 61-64: no scenario yet, the default thresholds. *)
Definition initial_options : Options := {|
  scenarios := ∅;
  opt_thresholds := list_to_map (d_thresholds (defaultTestConfig globalConfig))
|}.

(** [targetEndpoints] is [None] for [null]; [registry] is the imported
    [endpoints] object, in the order of [Object.entries]. *)
Definition buildOptions (registry : list (string * EndpointConfig))
    (targetEndpoints : option (list string)) : Options :=
  let endpointsToRun :=
    match targetEndpoints with
    | Some targets => filter (fun entry => fst entry ∈ targets) registry
    | None => registry
    end in
  fold_left add_endpoint endpointsToRun initial_options.


(** ** Notions used in the statements *)

(** The run-time state after more effects. *)
Definition with_effects (rt : Runtime) (more : list effect) : Runtime :=
  {| storedData := storedData rt; slowRequests := slowRequests rt;
     effects := effects rt ++ more; now := now rt |}.

(** The parameters a call is made with. *)
Definition call_params (call : HttpCall) : Params :=
  match call with
  | HttpGet _ params | HttpRequest _ _ _ params => params
  end.

(** The calls sent so far and the samples added to a metric so far. *)
Definition sent_calls (rt : Runtime) : list HttpCall :=
  omap (fun e => match e with Http call => Some call | _ => None end) (effects rt).

Definition samples (metric : string) (rt : Runtime) : list value :=
  omap (fun e => match e with
                 | MetricAdd m sample _ => if String.eqb m metric then Some sample else None
                 | _ => None
                 end) (effects rt).

(** A computation that only ever appends to the effects. *)
Definition appends {A} (m : M A) : Prop :=
  forall rt : Runtime, exists more : list effect, effects (snd (m rt)) = effects rt ++ more.

(** A descriptor with every option but [type] and [values] removed. *)
Definition only_values (d : FieldDescriptor) : FieldDescriptor := {|
  type := type d; values := values d; pattern := absent; validator := absent;
  minLength := absent; maxLength := absent; fmin := absent; fmax := absent
|}.

(** The threshold in the words of the specification: the endpoint's response
    time when it declares one, the global slow-request threshold when it
    declares none. *)
Definition declared_threshold (endpointConfig : EndpointConfig) : Z :=
  match c ← config endpointConfig; responseTime c with
  | Some t => t
  | None => slowRequestThreshold globalConfig
  end.

(** ** Concrete hosts, states and endpoints *)

(** Every call is answered with [response] after [elapsed] milliseconds. *)
Definition scripted_host (response : Response) (elapsed : Z) : Host := {|
  RegExp_test := fun _ _ _ => Normal true;
  Date_parse := fun _ => None;
  URL_parses := fun _ => false;
  encodeURIComponent := fun s => s;
  Date_toISOString := Number_toString;
  open := fun _ => Throw (HostError "open() is only available in the init context");
  transport := fun _ _ => (response, elapsed)
|}.

(** The state at the start of a run, and one after a token was fetched. *)
Definition fresh_run : Runtime :=
  {| storedData := ∅; slowRequests := []; effects := []; now := 0 |}.

Definition seeded_run : Runtime := {|
  storedData := {[ "accessToken" := JStr "abc123" ]};
  slowRequests := [{| sr_endpoint := "getToken"; sr_duration := 1500; sr_timestamp := "0";
                      sr_method := "POST"; sr_url := "https://test.api.auth.adcb.com/oauth2/token";
                      sr_status := 200; sr_threshold := 1000 |}];
  effects := [MetricAdd failureRate (JBool false) []];
  now := 2000
|}.

Definition ok_response : Response :=
  {| status := 200; r_body := JStr "{}"; json := Normal (JObj []) |}.

(** A token response and an error response. *)
Definition token_response : Response := {|
  status := 200;
  r_body := JStr "{...}";
  json := Normal (JObj [("access_token", JStr "abc123"); ("expires_in", JNum 3600);
                        ("token_type", JStr "Bearer")])
|}.

Definition not_found_response : Response := {|
  status := 404;
  r_body := JStr "{...}";
  json := Normal (JObj [("error", JStr "not found")])
|}.

(** A gateway error page: a body that is not JSON. *)
Definition html_response : Response := {|
  status := 502;
  r_body := JStr "<html>Bad Gateway</html>";
  json := Throw (HostError "invalid character '<' looking for beginning of value")
|}.

Definition plain_content : value :=
  JObj [("grant_type", JStr "client_credentials"); ("retries", JNum 3);
        ("amount", JNum (-1250)); ("live", JBool true); ("note", JNull);
        ("scopes", JArr [JStr "read"; JStr "a $ sign {and} braces"; JArr []; JObj []])].

Definition order_body : BodyConfig := {|
  body_type := "raw";
  content := JObj [("token", JStr "${stored.accessToken}"); ("amount", JNum 10)];
  contentType := None
|}.

Definition order_endpoint : EndpointConfig := {|
  baseURL := None; path := "/orders"; method := "POST"; tags := [];
  config := None; headers := []; body := Some order_body;
  expectedStatus := Some 201; expectedContent := None; storeResponse := None
|}.

Definition xml_endpoint : EndpointConfig := {|
  baseURL := None; path := "/feed"; method := "PUT"; tags := [];
  config := None; headers := [];
  body := Some {| body_type := "xml"; content := JStr "<a/>"; contentType := None |};
  expectedStatus := None; expectedContent := None; storeResponse := None
|}.

(** The endpoint that [endpoints.js] keeps commented out. *)
Definition getAccountConsents : EndpointConfig := {|
  baseURL := None;
  path := "/accounts/d0ad73f0-1454-4916-8904-7ca824b5a4be/consents";
  method := "GET";
  tags := ["accounts"; "consents"];
  config := Some {| vus := Some 10; duration := Some "30s"; target := Some 100;
                    responseTime := None; thresholds := None |};
  headers := [("Authorization", "${stored.accessToken}");
              ("o3-consent-id", "MQ==");
              ("o3-psu-identifier", "eyJ1c2VySWQiOiIxMDAwOTYwOCJ9")];
  body := None;
  expectedStatus := Some 200;
  expectedContent := Some [("id", field "uuid")];
  storeResponse := None
|}.

(** The documented forms [{ type: 'regex', pattern: p }] and
    [{ type: 'custom', validator: f }]. *)
Definition regex_field (p : string) : FieldDescriptor := {|
  type := "regex"; values := absent; pattern := Val (JStr p); validator := absent;
  minLength := absent; maxLength := absent; fmin := absent; fmax := absent
|}.

Definition custom_field (source : string) (f : value -> completion value)
  : FieldDescriptor := {|
  type := "custom"; values := absent; pattern := absent; validator := Fun source f;
  minLength := absent; maxLength := absent; fmin := absent; fmax := absent
|}.

(** An endpoint that declares a response time of zero milliseconds. *)
Definition impatient_endpoint : EndpointConfig := {|
  baseURL := None; path := "/ping"; method := "GET"; tags := [];
  config := Some {| vus := None; duration := None; target := None;
                    responseTime := Some 0; thresholds := None |};
  headers := []; body := None; expectedStatus := None;
  expectedContent := None; storeResponse := None
|}.

Definition blank_endpoint (p : string) : EndpointConfig := {|
  baseURL := None; path := p; method := "GET"; tags := []; config := None;
  headers := []; body := None; expectedStatus := None;
  expectedContent := None; storeResponse := None
|}.

(** ** The exported options (lines 271-283) *)

(** [text.split(sep)] for a one-character separator. *)
Fixpoint split_on (sep : ascii) (text : string) : list string :=
  match text with
  | "" => [""]
  | String c rest =>
      if ascii_eqb c sep then "" :: split_on sep rest
      else match split_on sep rest with
           | first :: others => String c first :: others
           | [] => [String c ""]
           end
  end.

(** Line 272; [TARGET_ENDPOINTS] is [__ENV.TARGET_ENDPOINTS], [None] when the
    variable is not set. *)
Definition targetEndpoints (TARGET_ENDPOINTS : option string) : option (list string) :=
  match TARGET_ENDPOINTS with
  | Some text => if String.eqb text "" then None else Some (split_on "," text)
  | None => None
  end.

Record ExportedOptions := {
  o_scenarios : gmap string Scenario;
  o_thresholds : gmap string (list string);
  userAgent : string;
  noConnectionReuse : bool;
  insecureSkipTLSVerify : bool
}.

(** Lines 274-283. *)
Definition options (registry : list (string * EndpointConfig))
    (TARGET_ENDPOINTS : option string) : ExportedOptions :=
  let built := buildOptions registry (targetEndpoints TARGET_ENDPOINTS) in
  {| o_scenarios := scenarios built;
     o_thresholds := opt_thresholds built;
     userAgent := "k6-performance-test/1.0";
     noConnectionReuse := false;
     insecureSkipTLSVerify := true |}.

(** ** More notions used in the statements *)

(** A computation whose every run is related to its start by [R]. *)
Definition respects (R : Runtime -> Runtime -> Prop) {A} (m : M A) : Prop :=
  forall rt : Runtime, R rt (snd (m rt)).

(** A boolean [true] result. *)
Definition passes (c : completion value) : bool :=
  match c with
  | Normal (JBool true) => true
  | _ => false
  end.

(** A character that a JSON string literal holds as it is, and a text made of
    such characters. *)
Definition plain_char (c : ascii) : bool :=
  let n := N_of_ascii c in ((32 <=? n) && negb (n =? 34) && negb (n =? 92))%N.

Fixpoint plain (s : string) : bool :=
  match s with
  | "" => true
  | String c s' => plain_char c && plain s'
  end.

(** ** The two last steps of [handleRequest] on their own *)

(** Lines 243-254: the response fields kept for later requests. *)
Definition store_response (endpoint : string) (endpointConfig : EndpointConfig)
    (response : Response) : M unit :=
  match storeResponse endpointConfig with
  | Some pairs =>
      try_catch
        (responseBody ← parseResponse response (Some endpointConfig);
         if truthy responseBody then store_fields responseBody pairs else mret tt)
        (fun error =>
           emit (ConsoleError ("Failed to store response data for " +:+ endpoint
                               +:+ ": " +:+ message error)))
  | None => mret tt
  end.

(** Lines 256-268: the checks, the failure sample and the pause. *)
Definition check_response (host : Host) (endpointConfig : EndpointConfig)
    (response : Response) (slow : bool) : M unit :=
  let checks : gmap string value :=
    {[ "status is as expected" :=
         JBool (status response =? or_number (expectedStatus endpointConfig) 200);
       "response time is within limits" := JBool (negb slow) ]} in
  checks ← match expectedContent endpointConfig with
           | Some expected =>
               results ← validateResponseContent host response expected;
               mret (results ∪ checks)
           | None => mret checks
           end;
  emit (Check checks);;
  metric_add failureRate
    (JBool (negb (forallb truthy (map snd (map_to_list checks))))) [];;
  emit (Sleep 1).

(** The record of a slow request, lines 232-240. *)
Definition slow_record (host : Host) (endpoint : string) (endpointConfig : EndpointConfig)
    (startTime duration : Z) (response : Response) : SlowRequest :=
  {| sr_endpoint := endpoint; sr_duration := duration;
     sr_timestamp := Date_toISOString host startTime;
     sr_method := method endpointConfig; sr_url := request_url endpointConfig;
     sr_status := status response;
     sr_threshold := slow_threshold endpointConfig |}.

(** The state when the call has returned and the duration is recorded,
    lines 213-241. *)
Definition after_call (host : Host) (endpoint : string) (endpointConfig : EndpointConfig)
    (prepared : RequestBody) (rt : Runtime) : Runtime :=
  let call := request_call endpoint endpointConfig prepared in
  let response := fst (transport host (now rt) call) in
  let duration := snd (transport host (now rt) call) in
  let slow := isSlowRequest endpointConfig duration in
  {| storedData := storedData rt;
     slowRequests :=
       slowRequests rt ++
       (if slow then [slow_record host endpoint endpointConfig (now rt) duration response]
        else []);
     effects :=
       effects rt ++
       [Http call;
        MetricAdd responseTime_trend (JNum duration) [("endpoint", JStr endpoint)];
        MetricAdd slowRequests_rate (JBool slow) []] ++
       (if slow then
          [MetricAdd slowRequestDetails (JNum duration)
             [("endpoint", JStr endpoint); ("method", JStr (method endpointConfig));
              ("url", JStr (request_url endpointConfig));
              ("statusCode", JNum (status response));
              ("timestamp", JStr (Date_toISOString host (now rt)))]]
        else []);
     now := now rt + duration |}.

(** ** More concrete inputs *)

(** A response whose body is the JSON text [0]. *)
Definition falsy_response : Response :=
  {| status := 200; r_body := JStr "0"; json := Normal (JNum 0) |}.

(** The key under which the result for a declared field is reported, lines 164
    and 169. *)
Definition check_name (host : Host) (entry : string * FieldDescriptor) : string :=
  match validators host !! type (snd entry) with
  | Some _ => fst entry +:+ " is valid"
  | None => fst entry +:+ " validation"
  end.

(** An endpoint with a response-time budget of its own. *)
Definition budget_endpoint : EndpointConfig := {|
  baseURL := None; path := "/accounts"; method := "GET"; tags := ["accounts"];
  config := Some {| vus := Some 0; duration := None; target := None;
                    responseTime := Some 500; thresholds := None |};
  headers := []; body := None; expectedStatus := None;
  expectedContent := None; storeResponse := None
|}.

(** An endpoint that declares both a response time and thresholds of its own. *)
Definition tuned_endpoint : EndpointConfig := {|
  baseURL := None; path := "/payments"; method := "GET"; tags := [];
  config := Some {| vus := None; duration := None; target := None;
                    responseTime := Some 500;
                    thresholds := Some [("http_req_duration", ["p(99)<800"]);
                                        ("http_req_failed", ["rate<0.05"])] |};
  headers := []; body := None; expectedStatus := None;
  expectedContent := None; storeResponse := None
|}.

(** * Properties *)

(** ** Serializer and reader on examples *)

Example stringify_demo :
  JSON_stringify (JObj [("a", JArr [JNum 1; JUndefined; JBool true]); ("b", JUndefined);
                        ("c", JStr "x"); ("d", JNum (-42))])
  = Some (String "{" (String quote ("a" +:+ String quote (":[1,null,true]," +:+
      String quote ("c" +:+ String quote (":" +:+ String quote ("x" +:+ String quote
      (",") +:+ String quote ("d" +:+ String quote ":-42}")))))))).
Proof. vm_compute. reflexivity. Qed.

Example parse_demo :
  JSON_parse ("{ " +:+ QuoteJSONString "a" +:+ " : [1, null ,true], " +:+ QuoteJSONString "c"
              +:+ ":" +:+ String quote ("x" +:+ String backslash ("nA" +:+ String quote
              (", " +:+ QuoteJSONString "d" +:+ ":-42 , " +:+ QuoteJSONString "a" +:+ ":false} "))))
  = Normal (JObj [("a", JBool false); ("c", JStr (String "x" (String "010" "A")));
                  ("d", JNum (-42))]).
Proof. vm_compute. reflexivity. Qed.

(** ** Reading back what [JSON.stringify] wrote *)

Lemma app_cons (c : ascii) (s t : string) : String c s +:+ t = String c (s +:+ t).
Proof. reflexivity. Qed.

Lemma app_empty_l (t : string) : "" +:+ t = t.
Proof. reflexivity. Qed.

Lemma app_empty_r (s : string) : s +:+ "" = s.
Proof. induction s as [|c s IH]; [reflexivity | rewrite app_cons, IH; reflexivity]. Qed.

Lemma app_assoc_s (s t u : string) : (s +:+ t) +:+ u = s +:+ (t +:+ u).
Proof. induction s as [|c s IH]; [reflexivity | rewrite !app_cons, IH; reflexivity]. Qed.

Lemma length_app_s (s t : string) :
  String.length (s +:+ t) = (String.length s + String.length t)%nat.
Proof.
  induction s as [|c s IH]; [reflexivity|]. rewrite app_cons. simpl. rewrite IH. reflexivity.
Qed.

Ltac norm_app := repeat (rewrite ?app_assoc_s, ?app_cons, ?app_empty_l).

Lemma parse_string_body_quote_char (c : ascii) (t : string) :
  parse_string_body (quote_char c +:+ t) =
  match parse_string_body t with
  | Normal (str, rest) => Normal (String c str, rest)
  | Throw x => Throw x
  end.
Proof. destruct c as [[] [] [] [] [] [] [] []]; reflexivity. Qed.

Lemma parse_string_body_quote_body (s rest : string) :
  parse_string_body (quote_body s +:+ String quote rest) = Normal (s, rest).
Proof.
  induction s as [|c s IH]; [reflexivity|].
  cbn [quote_body]. rewrite app_assoc_s, parse_string_body_quote_char, IH. reflexivity.
Qed.

Lemma lex_digits_stop (rest : string) :
  ends_number rest = true -> lex_digits rest = (Decimal.Nil, rest).
Proof.
  destruct rest as [|c r]; [reflexivity|].
  unfold ends_number. intros [Hd _]%andb_prop. cbn [lex_digits].
  destruct (is_digit c); [discriminate | reflexivity].
Qed.

Lemma lex_digits_string_of_uint (u : Decimal.uint) (rest : string) :
  ends_number rest = true ->
  lex_digits (NilEmpty.string_of_uint u +:+ rest) = (u, rest).
Proof.
  intros Hrest.
  induction u as [|u IH|u IH|u IH|u IH|u IH|u IH|u IH|u IH|u IH|u IH];
    [exact (lex_digits_stop rest Hrest) | ..];
    cbn [NilEmpty.string_of_uint]; rewrite app_cons; cbn [lex_digits];
    rewrite IH; reflexivity.
Qed.

Lemma to_uint_normal (n : N) : Decimal.unorm (N.to_uint n) = N.to_uint n.
Proof. rewrite <- (Unsigned.of_to n) at 2. symmetry. apply Unsigned.to_of. Qed.

Lemma to_uint_not_nil (n : N) : N.to_uint n <> Decimal.Nil.
Proof.
  destruct n as [|p]; [discriminate|]. apply DecimalPos.Unsigned.to_uint_nonnil.
Qed.

Lemma string_of_uint_not_nil (u : Decimal.uint) :
  u <> Decimal.Nil -> NilZero.string_of_uint u = NilEmpty.string_of_uint u.
Proof. destruct u; [congruence | reflexivity ..]. Qed.

Lemma parse_digits_to_uint (n : N) (rest : string) :
  ends_number rest = true ->
  parse_digits (NilZero.string_of_uint (N.to_uint n) +:+ rest) = Normal (n, rest).
Proof.
  intros Hrest. unfold parse_digits.
  rewrite string_of_uint_not_nil by apply to_uint_not_nil.
  rewrite lex_digits_string_of_uint by exact Hrest.
  destruct (Decimal.uint_eq_dec _ _) as [_|Hne]; [|destruct Hne; apply to_uint_normal].
  assert (continues_number rest = false) as ->.
  { destruct rest as [|c r]; [reflexivity|].
    unfold ends_number in Hrest. apply andb_prop in Hrest as [_ H].
    now apply negb_true_iff in H. }
  rewrite Unsigned.of_to. reflexivity.
Qed.

(** A decimal rendering starts with a digit. *)
Lemma string_of_uint_head (u : Decimal.uint) :
  u <> Decimal.Nil ->
  exists c r, NilZero.string_of_uint u = String c r /\ is_digit c = true.
Proof.
  destruct u; [congruence | ..]; intros _; eexists _, _; split; reflexivity.
Qed.

Lemma delim_ends_number rest : delim rest = true -> ends_number rest = true.
Proof.
  destruct rest as [|c r]; [reflexivity|]. cbn [delim ends_number continues_number].
  unfold ascii_eqb. intros H.
  repeat (apply orb_prop in H as [H|H]); apply Ascii.eqb_eq in H; subst c; reflexivity.
Qed.

Lemma delim_skip_ws rest : delim rest = true -> skip_ws rest = rest.
Proof.
  destruct rest as [|c r]; [reflexivity|]. cbn [delim skip_ws].
  unfold ascii_eqb. intros H.
  repeat (apply orb_prop in H as [H|H]); apply Ascii.eqb_eq in H; subst c; reflexivity.
Qed.

Lemma value_head_skip_ws t rest : value_head t = true -> skip_ws (t +:+ rest) = t +:+ rest.
Proof.
  destruct t as [|c t]; [discriminate|]. rewrite app_cons. cbn [value_head skip_ws].
  destruct (is_ws c); [discriminate | reflexivity].
Qed.

Lemma value_head_not_close t rest (c : ascii) :
  value_head t = true -> (c = "]"%char \/ c = "}"%char) ->
  starts_with c (t +:+ rest) = None.
Proof.
  destruct t as [|c' t]; [discriminate|]. rewrite app_cons. cbn [value_head starts_with].
  intros H [-> | ->]; apply andb_prop in H as [[_ H1]%andb_prop H2];
    apply negb_true_iff in H1, H2; [rewrite H1 | rewrite H2]; reflexivity.
Qed.

Lemma digit_dispatch (c : ascii) :
  is_digit c = true ->
  is_ws c = false /\ ascii_eqb c "{" = false /\ ascii_eqb c "[" = false /\
  ascii_eqb c quote = false /\ ascii_eqb c "-" = false /\
  ascii_eqb "]" c = false /\ ascii_eqb "}" c = false.
Proof. destruct c as [[] [] [] [] [] [] [] []]; vm_compute; intros; try discriminate; tauto. Qed.

Lemma safe_integer_render (z : Z) :
  exists c r, Number_toString z = String c r
              /\ negb (is_ws c) && negb (ascii_eqb "]" c) && negb (ascii_eqb "}" c) = true.
Proof.
  unfold Number_toString. destruct z as [|p|p]; cbn [Z.to_int NilZero.string_of_int].
  - eexists _, _; split; reflexivity.
  - destruct (string_of_uint_head (Pos.to_uint p)) as (c & r & -> & Hd);
      [apply DecimalPos.Unsigned.to_uint_nonnil|].
    exists c, r. split; [reflexivity|].
    destruct (digit_dispatch c Hd) as (-> & _ & _ & _ & _ & -> & ->). reflexivity.
  - eexists _, _; split; reflexivity.
Qed.

Lemma parse_value_natural (n : N) (fuel : nat) (rest : string) :
  ends_number rest = true ->
  parse_value (S fuel) (NilZero.string_of_uint (N.to_uint n) +:+ rest)
  = Normal (JNum (Z.of_N n), rest).
Proof.
  intros Hrest. pose proof (parse_digits_to_uint n rest Hrest) as H.
  destruct (string_of_uint_head (N.to_uint n)) as (c & r & Heq & Hd);
    [apply to_uint_not_nil|].
  rewrite Heq in H |- *. rewrite app_cons in H |- *.
  destruct (digit_dispatch c Hd) as (Hws & H1 & H2 & H3 & H4 & _).
  cbn [parse_value skip_ws]. rewrite Hws, H1, H2, H3, H4, Hd, H. reflexivity.
Qed.

Lemma parse_value_number (z : Z) (fuel : nat) (rest : string) :
  ends_number rest = true ->
  parse_value (S fuel) (Number_toString z +:+ rest) = Normal (JNum z, rest).
Proof.
  intros Hrest. unfold Number_toString. destruct z as [|p|p].
  - exact (parse_value_natural 0 fuel rest Hrest).
  - exact (parse_value_natural (Npos p) fuel rest Hrest).
  - pose proof (parse_digits_to_uint (Npos p) rest Hrest) as H.
    change (N.to_uint (N.pos p)) with (Pos.to_uint p) in H.
    cbn [Z.to_int NilZero.string_of_int]. rewrite app_cons.
    cbn [parse_value skip_ws]. 
    change (is_ws "-") with false. change (ascii_eqb "-" "{") with false.
    change (ascii_eqb "-" "[") with false. change (ascii_eqb "-" quote) with false.
    change (ascii_eqb "-" "-") with true. cbv iota.
    rewrite H. reflexivity.
Qed.

Lemma join_cons2 (sep x y : string) (l : list string) :
  join sep (x :: y :: l) = x +:+ sep +:+ join sep (y :: l).
Proof. reflexivity. Qed.

Lemma serializable_serialized (v : value) :
  serializable v = true -> exists t, JSON_serialize v = Some t.
Proof. destruct v as [| |[]| | | | |]; try discriminate; intros _; eexists; reflexivity. Qed.

Lemma set_prop_fresh (props : list (string * value)) (k : string) (v : value) :
  k ∉ map fst props -> set_prop props k v = props ++ [(k, v)].
Proof.
  intros Hk. unfold set_prop.
  assert (existsb (fun kv => String.eqb (fst kv) k) props = false) as ->; [|reflexivity].
  induction props as [|[k' v'] props IH]; [reflexivity|].
  cbn [existsb fst]. cbn [map fst] in Hk. apply not_elem_of_cons in Hk as [Hne Hk].
  rewrite IH by exact Hk. apply orb_false_iff. split; [|reflexivity].
  apply String.eqb_neq. congruence.
Qed.

Lemma fold_set_prop_distinct (ms acc : list (string * value)) :
  NoDup (map fst (acc ++ ms)) ->
  fold_left (fun o kv => set_prop o (fst kv) (snd kv)) ms acc = acc ++ ms.
Proof.
  revert acc. induction ms as [|[k v] ms IH]; intros acc Hnd.
  - rewrite app_nil_r. reflexivity.
  - cbn [fold_left fst snd]. rewrite set_prop_fresh.
    + rewrite IH; rewrite <- app_assoc; [reflexivity | exact Hnd].
    + rewrite map_app in Hnd. apply NoDup_app in Hnd as (_ & Hdisj & _).
      intros Hin. apply (Hdisj k Hin). cbn [map fst]. apply list_elem_of_here.
Qed.

Lemma parse_elements_serialized (items : list value) :
  Forall reads_back items -> forallb serializable items = true -> items <> [] ->
  forall (fuel : nat) (rest : string),
    (sum_list (map (fun x => S (parse_cost x)) items) <= fuel)%nat ->
    value_head (join "," (map (fun x => default "null" (JSON_serialize x)) items)) = true /\
    parse_elements fuel
      (join "," (map (fun x => default "null" (JSON_serialize x)) items) +:+ String "]" rest)
    = Normal (items, rest).
Proof.
  induction 1 as [|x tl Hx Htl IH]; [congruence|].
  intros [Sx Stl]%andb_prop _ fuel rest Hfuel.
  destruct (serializable_serialized x Sx) as [tx Htx].
  simpl in Hfuel. destruct fuel as [|fuel]; [lia|].
  cbn [map]. rewrite Htx. change (default "null" (Some tx)) with tx.
  destruct tl as [|y tl'].
  - cbn [map join].
    destruct (Hx Sx fuel (String "]" rest) tx) as [Hh Hp]; [lia | reflexivity | exact Htx |].
    split; [exact Hh|]. cbn [parse_elements]. rewrite Hp. reflexivity.
  - destruct (IH Stl ltac:(discriminate) fuel rest) as [_ Hrec]; [lia|].
    cbn [map] in Hrec |- *. rewrite join_cons2.
    set (J := join "," (_ :: map _ tl')) in *.
    destruct (Hx Sx fuel (String "," (J +:+ String "]" rest)) tx) as [Hh Hp];
      [lia | reflexivity | exact Htx |].
    split.
    + destruct tx; [discriminate | exact Hh].
    + rewrite !app_assoc_s, app_cons, app_empty_l. cbn [parse_elements].
      rewrite Hp. cbn [mbind completion_bind].
      rewrite (delim_skip_ws (String "," _)) by reflexivity.
      cbn [starts_with]. change (ascii_eqb "," ",") with true. cbv iota.
      rewrite Hrec. reflexivity.
Qed.

Lemma skip_ws_cons (c : ascii) (r : string) :
  is_ws c = false -> skip_ws (String c r) = String c r.
Proof. intros H. cbn [skip_ws]. rewrite H. reflexivity. Qed.

Lemma member_text_app (k t rest : string) :
  (QuoteJSONString k +:+ ":" +:+ t) +:+ rest
  = String quote (quote_body k +:+ String quote (String ":" (t +:+ rest))).
Proof.
  unfold QuoteJSONString.
  repeat (rewrite ?app_assoc_s, ?app_cons, ?app_empty_l). reflexivity.
Qed.

Lemma parse_members_serialized (props : list (string * value)) :
  Forall (fun kv => reads_back (snd kv)) props ->
  forallb (fun kv => serializable (snd kv)) props = true -> props <> [] ->
  forall (fuel : nat) (rest : string),
    (sum_list (map (fun kv => S (parse_cost (snd kv))) props) <= fuel)%nat ->
    starts_with quote (join "," (omap member_text props) +:+ String "}" rest) <> None /\
    parse_members fuel (join "," (omap member_text props) +:+ String "}" rest)
    = Normal (props, rest).
Proof.
  induction 1 as [|[k x] tl Hx Htl IH]; [congruence|].
  intros [Sx Stl]%andb_prop _ fuel rest Hfuel. cbn [snd] in Hx, Sx.
  destruct (serializable_serialized x Sx) as [tx Htx].
  simpl in Hfuel. destruct fuel as [|fuel]; [lia|].
  assert (omap member_text ((k, x) :: tl)
          = (QuoteJSONString k +:+ ":" +:+ tx) :: omap member_text tl) as ->.
  { change (omap member_text ((k, x) :: tl))
      with (match member_text (k, x) with
            | Some y => y :: omap member_text tl
            | None => omap member_text tl
            end).
    unfold member_text at 1. cbn [fst snd]. rewrite Htx. reflexivity. }
  destruct tl as [|[k' y] tl'].
  - change (omap member_text []) with (@nil string). cbn [join].
    rewrite member_text_app.
    destruct (Hx Sx fuel (String "}" rest) tx) as [Hh Hp]; [lia | reflexivity | exact Htx |].
    split; [cbn [starts_with]; change (ascii_eqb quote quote) with true; discriminate|].
    cbn [parse_members].
    rewrite (skip_ws_cons quote) by reflexivity.
    cbn [starts_with]. change (ascii_eqb quote quote) with true. cbv iota.
    rewrite parse_string_body_quote_body. cbn [mbind completion_bind].
    rewrite (skip_ws_cons ":") by reflexivity.
    cbn [starts_with]. change (ascii_eqb ":" ":") with true. cbv iota.
    rewrite Hp. reflexivity.
  - destruct (IH Stl ltac:(discriminate) fuel rest) as [Hq Hrec]; [simpl; simpl in Hfuel; lia|].
    assert (exists m ms, omap member_text ((k', y) :: tl') = m :: ms) as (m & ms & HJ).
    { destruct (omap member_text ((k', y) :: tl')) as [|m ms] eqn:E; [|eauto].
      exfalso. apply Hq. reflexivity. }
    rewrite HJ, join_cons2, <- HJ.
    set (J := join "," (omap member_text ((k', y) :: tl'))) in *.
    replace (((QuoteJSONString k +:+ ":" +:+ tx) +:+ "," +:+ J) +:+ String "}" rest)
      with ((QuoteJSONString k +:+ ":" +:+ tx) +:+ String "," (J +:+ String "}" rest))
      by (repeat (rewrite ?app_assoc_s, ?app_cons, ?app_empty_l); reflexivity).
    rewrite member_text_app.
    destruct (Hx Sx fuel (String "," (J +:+ String "}" rest)) tx) as [Hh Hp];
      [lia | reflexivity | exact Htx |].
    split; [cbn [starts_with]; change (ascii_eqb quote quote) with true; discriminate|].
    cbn [parse_members].
    rewrite (skip_ws_cons quote) by reflexivity.
    cbn [starts_with]. change (ascii_eqb quote quote) with true. cbv iota.
    rewrite parse_string_body_quote_body. cbn [mbind completion_bind].
    rewrite (skip_ws_cons ":") by reflexivity.
    cbn [starts_with]. change (ascii_eqb ":" ":") with true. cbv iota.
    rewrite Hp. cbn [mbind completion_bind].
    rewrite (delim_skip_ws (String "," _)) by reflexivity.
    cbn [starts_with]. change (ascii_eqb "," ",") with true. cbv iota.
    rewrite Hrec. reflexivity.
Qed.

Lemma starts_with_quote_inv (s : string) :
  starts_with quote s <> None -> exists r, s = String quote r.
Proof.
  destruct s as [|c r]; [intros H; destruct H; reflexivity|]. cbn [starts_with].
  unfold ascii_eqb. destruct (Ascii.eqb quote c) eqn:E; [|intros H; destruct H; reflexivity].
  apply Ascii.eqb_eq in E. subst c. eauto.
Qed.

Lemma every_value_reads_back (v : value) : reads_back v.
Proof.
  induction v as [| | b | z | | s | items IH | props IH] using value_rect';
    intros Hser fuel rest t Hfuel Hrest Ht;
    try discriminate Hser;
    (destruct fuel as [|fuel]; [cbn in Hfuel; lia|]).
  - injection Ht as <-. split; reflexivity.
  - destruct b; injection Ht as <-; split; reflexivity.
  - injection Ht as <-. split.
    + destruct (safe_integer_render z) as (c & r & -> & H). exact H.
    + apply parse_value_number, delim_ends_number, Hrest.
  - injection Ht as <-. split; [reflexivity|].
    unfold QuoteJSONString. norm_app.
    cbn [parse_value]. rewrite (skip_ws_cons quote) by reflexivity.
    change (ascii_eqb quote "{") with false. change (ascii_eqb quote "[") with false.
    change (ascii_eqb quote quote) with true. cbv iota.
    rewrite parse_string_body_quote_body. reflexivity.
  - cbn [serializable] in Hser. cbn [JSON_serialize] in Ht. injection Ht as <-.
    split; [reflexivity|].
    destruct items as [|x tl]; [reflexivity|].
    destruct (parse_elements_serialized (x :: tl) IH Hser ltac:(discriminate) fuel rest)
      as [Hh Hp]; [cbn [parse_cost] in Hfuel; lia|].
    set (J := join "," _) in *.
    norm_app.
    cbn [parse_value]. rewrite (skip_ws_cons "[") by reflexivity.
    change (ascii_eqb "[" "{") with false. change (ascii_eqb "[" "[") with true. cbv iota.
    rewrite (value_head_skip_ws J) by exact Hh.
    rewrite (value_head_not_close J) by (exact Hh || (left; reflexivity)).
    rewrite Hp. reflexivity.
  - cbn [serializable] in Hser. apply andb_prop in Hser as [Hser Hnd].
    apply bool_decide_eq_true in Hnd.
    cbn [JSON_serialize] in Ht. injection Ht as <-.
    split; [reflexivity|].
    destruct props as [|kv tl]; [reflexivity|].
    destruct (parse_members_serialized (kv :: tl) IH Hser ltac:(discriminate) fuel rest)
      as [Hq Hp]; [cbn [parse_cost] in Hfuel; lia|].
    fold member_text.
    set (J := join "," _) in *.
    norm_app.
    destruct (starts_with_quote_inv _ Hq) as [r Hr].
    cbn [parse_value]. rewrite (skip_ws_cons "{") by reflexivity.
    change (ascii_eqb "{" "{") with true. cbv iota.
    rewrite Hp. rewrite Hr. rewrite (skip_ws_cons quote) by reflexivity.
    cbn [starts_with]. change (ascii_eqb "}" quote) with false. cbv iota.
    cbn [mbind completion_bind].
    rewrite (fold_set_prop_distinct (kv :: tl) []) by exact Hnd. reflexivity.
Qed.

(** [JSON.parse(JSON.stringify(v))] is [v] for every serializable [v]. *)
Lemma serialize_cost (v : value) (t : string) :
  serializable v = true -> JSON_serialize v = Some t -> (parse_cost v <= String.length t)%nat.
Proof.
  revert t.
  induction v as [| | b | z | | s | items IH | props IH] using value_rect';
    intros t Hser Ht; try discriminate Hser; cbn [JSON_serialize] in Ht.
  - injection Ht as <-. cbn. lia.
  - destruct b; injection Ht as <-; cbn; lia.
  - injection Ht as <-. destruct (safe_integer_render z) as (c & r & -> & _). cbn. lia.
  - injection Ht as <-. cbn. lia.
  - injection Ht as <-. cbn [serializable] in Hser. cbn [parse_cost].
    norm_app. cbn [String.length]. rewrite length_app_s. cbn [String.length].
    enough (items <> [] ->
            sum_list (map (fun x => S (parse_cost x)) items)
            <= S (String.length
                    (join "," (map (fun x => default "null" (JSON_serialize x)) items))))%nat
      as H.
    { destruct items as [|x tl]; [cbn; lia|]. specialize (H ltac:(discriminate)). lia. }
    induction IH as [|x tl Hx Htl IHtl]; [congruence|]. intros _.
    apply andb_prop in Hser as [Sx Stl].
    destruct (serializable_serialized x Sx) as [tx Htx].
    specialize (Hx tx Sx Htx). cbn [map]. rewrite Htx.
    change (default "null" (Some tx)) with tx.
    destruct tl as [|y tl']; [simpl; lia|].
    specialize (IHtl Stl ltac:(discriminate)). cbn [map] in IHtl |- *.
    rewrite join_cons2, !length_app_s. simpl in IHtl |- *. lia.
  - injection Ht as <-. cbn [serializable] in Hser. apply andb_prop in Hser as [Hser _].
    cbn [parse_cost]. norm_app. cbn [String.length]. rewrite length_app_s. cbn [String.length].
    fold member_text.
    enough (sum_list (map (fun kv => S (parse_cost (snd kv))) props)
            <= String.length (join "," (omap member_text props)))%nat as H by lia.
    induction IH as [|[k x] tl Hx Htl IHtl]; [cbn; lia|].
    apply andb_prop in Hser as [Sx Stl]. cbn [snd] in Sx, Hx.
    destruct (serializable_serialized x Sx) as [tx Htx].
    specialize (Hx tx Sx Htx). specialize (IHtl Stl).
    assert (omap member_text ((k, x) :: tl)
            = (QuoteJSONString k +:+ ":" +:+ tx) :: omap member_text tl) as ->.
    { change (omap member_text ((k, x) :: tl))
        with (match member_text (k, x) with
              | Some y => y :: omap member_text tl
              | None => omap member_text tl
              end).
      unfold member_text at 1. cbn [fst snd]. rewrite Htx. reflexivity. }
    destruct (omap member_text tl) as [|m ms] eqn:E.
    + destruct tl as [|[k' y] tl']; [|exfalso].
      * cbn [join map]. unfold QuoteJSONString. norm_app.
        repeat (cbn [String.length]; rewrite ?length_app_s). simpl. lia.
      * apply andb_prop in Stl as [Sy _]. cbn [snd] in Sy.
        destruct (serializable_serialized y Sy) as [ty Hty].
        change (omap member_text ((k', y) :: tl'))
          with (match member_text (k', y) with
                | Some y => y :: omap member_text tl'
                | None => omap member_text tl'
                end) in E.
        unfold member_text at 1 in E. cbn [fst snd] in E. rewrite Hty in E. discriminate E.
    + rewrite join_cons2. unfold QuoteJSONString. norm_app.
      repeat (cbn [String.length]; rewrite ?length_app_s). simpl in IHtl |- *. lia.
Qed.

Lemma JSON_parse_stringify (v : value) (t : string) :
  serializable v = true -> JSON_stringify v = Some t -> JSON_parse t = Normal v.
Proof.
  intros Hser Ht. unfold JSON_parse, JSON_stringify in *.
  destruct (every_value_reads_back v Hser (S (2 * String.length t)) "" t) as [_ Hp];
    [pose proof (serialize_cost v t Hser Ht); lia | reflexivity | exact Ht |].
  rewrite app_empty_r in Hp. rewrite Hp. reflexivity.
Qed.

(** ** The fuel of [JSON.parse] is never used up *)

Lemma skip_ws_length (s : string) : (String.length (skip_ws s) <= String.length s)%nat.
Proof.
  induction s as [|c s IH]; [reflexivity|]. cbn [skip_ws].
  destruct (is_ws c); cbn [String.length]; lia.
Qed.

Lemma starts_with_length (c : ascii) (s r : string) :
  starts_with c s = Some r -> String.length s = S (String.length r).
Proof.
  destruct s as [|c' s]; [discriminate|]. cbn [starts_with].
  destruct (ascii_eqb c c'); [intros [= ->]; reflexivity | discriminate].
Qed.

Lemma starts_with_skip_ws_length (c : ascii) (s r : string) :
  starts_with c (skip_ws s) = Some r -> (String.length r < String.length s)%nat.
Proof.
  intros H%starts_with_length. pose proof (skip_ws_length s). lia.
Qed.

Lemma expect_length (word s r : string) :
  expect word s = Some r -> String.length s = (String.length word + String.length r)%nat.
Proof.
  revert s. induction word as [|w word IH]; intros s.
  - destruct s; intros [= <-]; reflexivity.
  - destruct s as [|c s]; [discriminate|]. cbn [expect String.length].
    destruct (ascii_eqb w c); [|discriminate]. intros H%IH. lia.
Qed.

Lemma parse_string_body_consumes (s str rest : string) :
  parse_string_body s = Normal (str, rest) -> (String.length rest < String.length s)%nat.
Proof.
  remember (String.length s) as n eqn:Hn. revert s str rest Hn.
  induction n as [n IH] using lt_wf_ind. intros s str rest ->.
  destruct s as [|c r]; [discriminate|]. cbn [parse_string_body String.length].
  destruct (ascii_eqb c quote); [intros [= _ <-]; lia|].
  destruct (ascii_eqb c backslash).
  - destruct r as [|e r']; [discriminate|]. cbn [String.length].
    destruct (unescape e) as [ch|].
    + destruct (parse_string_body r') as [[str' rest']|] eqn:E; [|discriminate].
      intros [= _ <-].
      specialize (IH (String.length r') ltac:(cbn [String.length]; lia) r' str' rest' eq_refl E).
      lia.
    + destruct (ascii_eqb e "u"); [|discriminate].
      destruct r' as [|h1 [|h2 [|h3 [|h4 r'']]]]; try discriminate.
      destruct (hex4 h1 h2 h3 h4) as [code|]; [|discriminate].
      destruct (code <? 256)%N; [|discriminate].
      destruct (parse_string_body r'') as [[str' rest']|] eqn:E; [|discriminate].
      intros [= _ <-]. cbn [String.length].
      specialize (IH (String.length r'') ltac:(cbn [String.length]; lia)
                    r'' str' rest' eq_refl E).
      lia.
  - destruct (N_of_ascii c <? 32)%N; [discriminate|].
    destruct (parse_string_body r) as [[str' rest']|] eqn:E; [|discriminate].
    intros [= _ <-].
    specialize (IH (String.length r) ltac:(cbn [String.length]; lia) r str' rest' eq_refl E).
    lia.
Qed.

Lemma parse_string_body_fuel (s : string) : parse_string_body s <> Throw out_of_fuel.
Proof.
  remember (String.length s) as n eqn:Hn. revert s Hn.
  induction n as [n IH] using lt_wf_ind. intros s ->.
  destruct s as [|c r]; [discriminate|]. cbn [parse_string_body].
  destruct (ascii_eqb c quote); [discriminate|].
  destruct (ascii_eqb c backslash).
  - destruct r as [|e r']; [discriminate|].
    destruct (unescape e) as [ch|].
    + specialize (IH (String.length r') ltac:(cbn [String.length]; lia) r' eq_refl).
      destruct (parse_string_body r') as [[str' rest']|x]; [discriminate | congruence].
    + destruct (ascii_eqb e "u"); [|discriminate].
      destruct r' as [|h1 [|h2 [|h3 [|h4 r'']]]]; try discriminate.
      destruct (hex4 h1 h2 h3 h4) as [code|]; [|discriminate].
      destruct (code <? 256)%N; [|discriminate].
      specialize (IH (String.length r'') ltac:(cbn [String.length]; lia) r'' eq_refl).
      destruct (parse_string_body r'') as [[str' rest']|x]; [discriminate | congruence].
  - destruct (N_of_ascii c <? 32)%N; [discriminate|].
    specialize (IH (String.length r) ltac:(cbn [String.length]; lia) r eq_refl).
    destruct (parse_string_body r) as [[str' rest']|x]; [discriminate | congruence].
Qed.

Lemma lex_digits_length (s : string) :
  (String.length (snd (lex_digits s)) <= String.length s)%nat.
Proof.
  induction s as [|c r IH]; [reflexivity|]. cbn [lex_digits].
  destruct (is_digit c); [|reflexivity].
  destruct (lex_digits r) as [u rest]. cbn [snd String.length] in *. lia.
Qed.

Lemma parse_digits_consumes (s : string) (n : N) (rest : string) :
  parse_digits s = Normal (n, rest) -> (String.length rest <= String.length s)%nat.
Proof.
  unfold parse_digits. pose proof (lex_digits_length s) as H.
  destruct (lex_digits s) as [u r]. cbn [snd] in H.
  destruct (Decimal.uint_eq_dec _ _); [|discriminate].
  destruct (continues_number r); [discriminate|]. intros [= _ <-]. exact H.
Qed.

Lemma parse_digits_fuel (s : string) : parse_digits s <> Throw out_of_fuel.
Proof.
  unfold parse_digits. destruct (lex_digits s) as [u r].
  destruct (Decimal.uint_eq_dec _ _); [|discriminate].
  destruct (continues_number r); discriminate.
Qed.

Lemma unexpected_not_fuel (s : string) : unexpected s <> out_of_fuel.
Proof. destruct s; discriminate. Qed.

(** Whatever is parsed takes at least one character. *)
Lemma parse_consumes (fuel : nat) :
  (forall s v r, parse_value fuel s = Normal (v, r) ->
                 (String.length r < String.length s)%nat) /\
  (forall s vs r, parse_elements fuel s = Normal (vs, r) ->
                  (String.length r < String.length s)%nat) /\
  (forall s ms r, parse_members fuel s = Normal (ms, r) ->
                  (String.length r < String.length s)%nat).
Proof.
  induction fuel as [|fuel (IHv & IHe & IHm)]; [repeat split; discriminate|].
  split; [|split].
  - intros s v r. cbn [parse_value]. pose proof (skip_ws_length s) as Hs.
    destruct (skip_ws s) as [|c r0]; [discriminate|]. cbn [String.length] in Hs.
    destruct (ascii_eqb c "{").
    { destruct (starts_with "}" (skip_ws r0)) as [r'|] eqn:E.
      - intros [= _ <-]. apply starts_with_skip_ws_length in E. lia.
      - destruct (parse_members fuel r0) as [[ms rest]|] eqn:Em; [|discriminate].
        intros [= _ <-]. apply IHm in Em. lia. }
    destruct (ascii_eqb c "[").
    { destruct (starts_with "]" (skip_ws r0)) as [r'|] eqn:E.
      - intros [= _ <-]. apply starts_with_skip_ws_length in E. lia.
      - destruct (parse_elements fuel r0) as [[vs rest]|] eqn:Ee; [|discriminate].
        intros [= _ <-]. apply IHe in Ee. lia. }
    destruct (ascii_eqb c quote).
    { destruct (parse_string_body r0) as [[str rest]|] eqn:E; [|discriminate].
      intros [= _ <-]. apply parse_string_body_consumes in E. lia. }
    destruct (ascii_eqb c "-").
    { destruct (parse_digits r0) as [[n rest]|] eqn:E; [|discriminate].
      intros [= _ <-]. apply parse_digits_consumes in E. lia. }
    destruct (is_digit c) eqn:Hd.
    { destruct (parse_digits (String c r0)) as [[n rest]|] eqn:E; [|discriminate].
      intros [= _ <-]. unfold parse_digits in E. cbn [lex_digits] in E. rewrite Hd in E.
      pose proof (lex_digits_length r0) as Hl.
      destruct (lex_digits r0) as [u rest0]. cbn [snd] in Hl.
      destruct (Decimal.uint_eq_dec _ _); [|discriminate].
      destruct (continues_number rest0); [discriminate|].
      injection E as _ <-. lia. }
    destruct (expect "true" (String c r0)) as [rest|] eqn:E1.
    { intros [= _ <-]. apply expect_length in E1. cbn [String.length] in E1. lia. }
    destruct (expect "false" (String c r0)) as [rest|] eqn:E2.
    { intros [= _ <-]. apply expect_length in E2. cbn [String.length] in E2. lia. }
    destruct (expect "null" (String c r0)) as [rest|] eqn:E3; [|discriminate].
    intros [= _ <-]. apply expect_length in E3. cbn [String.length] in E3. lia.
  - intros s vs r. cbn [parse_elements].
    destruct (parse_value fuel s) as [[v r1]|] eqn:Ev; [|discriminate].
    apply IHv in Ev. cbn [mbind completion_bind].
    destruct (starts_with "," (skip_ws r1)) as [r'|] eqn:E1.
    { apply starts_with_skip_ws_length in E1.
      destruct (parse_elements fuel r') as [[vs' rest]|] eqn:Ee; [|discriminate].
      intros [= _ <-]. apply IHe in Ee. lia. }
    destruct (starts_with "]" (skip_ws r1)) as [r'|] eqn:E2; [|discriminate].
    intros [= _ <-]. apply starts_with_skip_ws_length in E2. lia.
  - intros s ms r. cbn [parse_members].
    destruct (starts_with quote (skip_ws s)) as [r0|] eqn:E0; [|discriminate].
    apply starts_with_skip_ws_length in E0.
    destruct (parse_string_body r0) as [[k r1]|] eqn:Ek; [|discriminate].
    apply parse_string_body_consumes in Ek. cbn [mbind completion_bind].
    destruct (starts_with ":" (skip_ws r1)) as [r2|] eqn:E2; [|discriminate].
    apply starts_with_skip_ws_length in E2.
    destruct (parse_value fuel r2) as [[v r3]|] eqn:Ev; [|discriminate].
    apply IHv in Ev. cbn [mbind completion_bind].
    destruct (starts_with "," (skip_ws r3)) as [r4|] eqn:E4.
    { apply starts_with_skip_ws_length in E4.
      destruct (parse_members fuel r4) as [[ms' rest]|] eqn:Em; [|discriminate].
      intros [= _ <-]. apply IHm in Em. lia. }
    destruct (starts_with "}" (skip_ws r3)) as [r4|] eqn:E5; [|discriminate].
    intros [= _ <-]. apply starts_with_skip_ws_length in E5. lia.
Qed.

(** Twice the length of the text is fuel enough. *)
Lemma parse_fuel_enough (fuel : nat) :
  (forall s, (2 * String.length s + 1 <= fuel)%nat ->
             parse_value fuel s <> Throw out_of_fuel) /\
  (forall s, (2 * String.length s + 2 <= fuel)%nat ->
             parse_elements fuel s <> Throw out_of_fuel) /\
  (forall s, (2 * String.length s + 2 <= fuel)%nat ->
             parse_members fuel s <> Throw out_of_fuel).
Proof.
  induction fuel as [|fuel (IHv & IHe & IHm)]; [repeat split; intros s H; lia|].
  split; [|split].
  - intros s Hf. cbn [parse_value]. pose proof (skip_ws_length s) as Hs.
    destruct (skip_ws s) as [|c r0]; [discriminate|]. cbn [String.length] in Hs.
    destruct (ascii_eqb c "{").
    { destruct (starts_with "}" (skip_ws r0)) as [r'|]; [discriminate|].
      specialize (IHm r0 ltac:(lia)).
      destruct (parse_members fuel r0) as [[ms rest]|x]; [discriminate | cbn; congruence]. }
    destruct (ascii_eqb c "[").
    { destruct (starts_with "]" (skip_ws r0)) as [r'|]; [discriminate|].
      specialize (IHe r0 ltac:(lia)).
      destruct (parse_elements fuel r0) as [[vs rest]|x]; [discriminate | cbn; congruence]. }
    destruct (ascii_eqb c quote).
    { pose proof (parse_string_body_fuel r0).
      destruct (parse_string_body r0) as [[str rest]|x]; [discriminate | cbn; congruence]. }
    destruct (ascii_eqb c "-").
    { pose proof (parse_digits_fuel r0).
      destruct (parse_digits r0) as [[n rest]|x]; [discriminate | cbn; congruence]. }
    destruct (is_digit c).
    { pose proof (parse_digits_fuel (String c r0)).
      destruct (parse_digits (String c r0)) as [[n rest]|x]; [discriminate | cbn; congruence]. }
    destruct (expect "true" (String c r0)); [discriminate|].
    destruct (expect "false" (String c r0)); [discriminate|].
    destruct (expect "null" (String c r0)); discriminate.
  - intros s Hf. cbn [parse_elements]. specialize (IHv s ltac:(lia)).
    destruct (parse_value fuel s) as [[v r1]|x] eqn:Ev; [|cbn; congruence].
    apply (proj1 (parse_consumes fuel)) in Ev. cbn [mbind completion_bind].
    destruct (starts_with "," (skip_ws r1)) as [r'|] eqn:E1.
    { apply starts_with_skip_ws_length in E1. specialize (IHe r' ltac:(lia)).
      destruct (parse_elements fuel r') as [[vs' rest]|x]; [discriminate | cbn; congruence]. }
    destruct (starts_with "]" (skip_ws r1)) as [r'|]; [discriminate|].
    pose proof (unexpected_not_fuel (skip_ws r1)). congruence.
  - intros s Hf. cbn [parse_members].
    destruct (starts_with quote (skip_ws s)) as [r0|] eqn:E0;
      [|pose proof (unexpected_not_fuel (skip_ws s)); congruence].
    apply starts_with_skip_ws_length in E0.
    pose proof (parse_string_body_fuel r0).
    destruct (parse_string_body r0) as [[k r1]|x] eqn:Ek; [|cbn; congruence].
    apply parse_string_body_consumes in Ek. cbn [mbind completion_bind].
    destruct (starts_with ":" (skip_ws r1)) as [r2|] eqn:E2;
      [|pose proof (unexpected_not_fuel (skip_ws r1)); congruence].
    apply starts_with_skip_ws_length in E2. specialize (IHv r2 ltac:(lia)).
    destruct (parse_value fuel r2) as [[v r3]|x] eqn:Ev; [|cbn; congruence].
    apply (proj1 (parse_consumes fuel)) in Ev. cbn [mbind completion_bind].
    destruct (starts_with "," (skip_ws r3)) as [r4|] eqn:E4.
    { apply starts_with_skip_ws_length in E4. specialize (IHm r4 ltac:(lia)).
      destruct (parse_members fuel r4) as [[ms' rest]|x]; [discriminate | cbn; congruence]. }
    destruct (starts_with "}" (skip_ws r3)) as [r4|]; [discriminate|].
    pose proof (unexpected_not_fuel (skip_ws r3)). congruence.
Qed.

(** [JSON.parse] is total: it answers with a value or a JavaScript error (or
    reports a text outside the embedding), never for want of fuel. *)
Lemma JSON_parse_fuel (text : string) : JSON_parse text <> Throw out_of_fuel.
Proof.
  unfold JSON_parse.
  pose proof (proj1 (parse_fuel_enough (S (2 * String.length text))) text ltac:(lia)) as H.
  destruct (parse_value _ text) as [[v rest]|x]; [|cbn; congruence].
  cbn [mbind completion_bind]. destruct (skip_ws rest); discriminate.
Qed.

(** ** The placeholder pattern and the substitution *)

Example substitute_token :
  substitute (JObj [("Authorization", JStr "${stored.token}")])
             {[ "token" := JStr "abc123" ]}
  = Normal (JObj [("Authorization", JStr "abc123")]).
Proof. vm_compute. reflexivity. Qed.

Example substitute_inside_string :
  substitute (JObj [("h", JArr [JStr "Bearer ${stored.token}!"; JNum 7])])
             {[ "token" := JNum 42 ]}
  = Normal (JObj [("h", JArr [JStr "Bearer 42!"; JNum 7])]).
Proof. vm_compute. reflexivity. Qed.

Example substitute_missing :
  substitute (JObj [("a", JStr "${stored.token}"); ("b", JStr "${stored.missing}")])
             {[ "token" := JStr "abc123" ]}
  = Throw (Error "Stored value 'missing' not found").
Proof. vm_compute. reflexivity. Qed.

(** The pattern is matched on the serialized text, so a match can run past
    the end of a string value up to the next closing brace. *)
Example unterminated_reference_matches :
  placeholder_keys (default "" (JSON_stringify (JObj [("a", JStr "${stored.x")])))
  = [String "x" (String quote "")].
Proof. vm_compute. reflexivity. Qed.

Lemma lazy_until_brace_shorter (s key rest : string) :
  lazy_until_brace s = Some (key, rest) -> (String.length rest < String.length s)%nat.
Proof.
  revert key. induction s as [|c r IH]; intros key; [discriminate|].
  cbn [lazy_until_brace String.length].
  destruct (ascii_eqb c "}"); [intros [= _ <-]; lia|].
  destruct (line_terminator c); [discriminate|].
  destruct (lazy_until_brace r) as [[k rest']|]; [|discriminate].
  intros [= _ <-]. specialize (IH k eq_refl). lia.
Qed.

Lemma expect_shorter (word s r : string) :
  expect word s = Some r -> (String.length r <= String.length s)%nat.
Proof.
  revert s. induction word as [|w word IH]; intros s.
  - destruct s; intros [= <-]; lia.
  - destruct s as [|c s]; [discriminate|]. cbn [expect String.length].
    destruct (ascii_eqb w c); [|discriminate]. intros H%IH. lia.
Qed.

Lemma match_here_shorter (s key rest : string) :
  match_here s = Some (key, rest) -> (String.length rest < String.length s)%nat.
Proof.
  unfold match_here. destruct (expect "${stored." s) as [r|] eqn:E; [|discriminate].
  intros H%lazy_until_brace_shorter. apply expect_shorter in E. lia.
Qed.

(** The scan is over before its fuel is: more fuel changes nothing. *)
Lemma scan_fuel (fuel1 fuel2 : nat) (s : string) :
  (String.length s <= fuel1)%nat -> (String.length s <= fuel2)%nat ->
  scan fuel1 s = scan fuel2 s.
Proof.
  revert fuel2 s. induction fuel1 as [|fuel1 IH]; intros fuel2 s H1 H2.
  - destruct s; [destruct fuel2; reflexivity | cbn in H1; lia].
  - destruct fuel2 as [|fuel2]; [destruct s; [reflexivity | cbn in H2; lia]|].
    destruct s as [|c r]; [reflexivity|]. cbn [scan].
    cbn [String.length] in H1, H2.
    destruct (match_here (String c r)) as [[key rest]|] eqn:E.
    + apply match_here_shorter in E. cbn [String.length] in E.
      f_equal. apply IH; lia.
    + f_equal. apply IH; lia.
Qed.

Lemma scan_cons (c : ascii) (r : string) :
  segments (String c r) =
  match match_here (String c r) with
  | Some (key, rest) => Placeholder key :: segments rest
  | None => Lit c :: segments r
  end.
Proof.
  unfold segments. cbn [String.length scan].
  destruct (match_here (String c r)) as [[key rest]|] eqn:E.
  - apply match_here_shorter in E. cbn [String.length] in E.
    f_equal. apply scan_fuel; lia.
  - reflexivity.
Qed.

(** The scan cuts the text into pieces that spell it back: nothing is lost
    and a match is the prefix, a key without a closing brace or a line
    terminator, and the closing brace. *)
Lemma expect_spells (word s r : string) : expect word s = Some r -> s = word +:+ r.
Proof.
  revert s. induction word as [|w word IH]; intros s.
  - destruct s; intros [= <-]; reflexivity.
  - destruct s as [|c s]; [discriminate|]. cbn [expect].
    destruct (ascii_eqb w c) eqn:E; [|discriminate].
    apply Ascii.eqb_eq in E as ->. intros H%IH. rewrite app_cons, <- H. reflexivity.
Qed.

Lemma lazy_until_brace_spells (s key rest : string) :
  lazy_until_brace s = Some (key, rest) ->
  s = key +:+ String "}" rest /\ mentions "}" key = false /\
  mentions "010" key = false /\ mentions "013" key = false.
Proof.
  revert key. induction s as [|c r IH]; intros key; [discriminate|].
  cbn [lazy_until_brace].
  destruct (ascii_eqb c "}") eqn:Eb.
  { intros [= <- <-]. apply Ascii.eqb_eq in Eb as ->. repeat split. }
  destruct (line_terminator c) eqn:El; [discriminate|].
  destruct (lazy_until_brace r) as [[k rest']|]; [|discriminate].
  intros [= <- <-]. destruct (IH k eq_refl) as (-> & Hb & Hn & Hr).
  split; [reflexivity|]. cbn [mentions]. rewrite Hb, Hn, Hr.
  unfold ascii_eqb in *. rewrite (Ascii.eqb_sym "}" c), Eb.
  unfold line_terminator in El. apply orb_false_iff in El as [E10 E13].
  assert (Ascii.eqb "010" c = false) as ->.
  { apply Ascii.eqb_neq. intros <-. discriminate E10. }
  assert (Ascii.eqb "013" c = false) as ->.
  { apply Ascii.eqb_neq. intros <-. discriminate E13. }
  repeat split.
Qed.

Lemma match_here_spells (s key rest : string) :
  match_here s = Some (key, rest) ->
  s = "${stored." +:+ key +:+ String "}" rest /\ mentions "}" key = false.
Proof.
  unfold match_here. destruct (expect "${stored." s) as [r|] eqn:E; [|discriminate].
  intros (-> & Hb & _)%lazy_until_brace_spells. apply expect_spells in E. tauto.
Qed.

Lemma segments_spell (text : string) : spell (segments text) = text.
Proof.
  remember (String.length text) as n eqn:Hn. revert text Hn.
  induction n as [n IH] using lt_wf_ind. intros text ->.
  destruct text as [|c r]; [reflexivity|]. rewrite scan_cons.
  destruct (match_here (String c r)) as [[key rest]|] eqn:E.
  - pose proof (match_here_shorter _ _ _ E) as Hlen.
    apply match_here_spells in E as [-> _]. cbn [spell].
    rewrite (IH (String.length rest) Hlen rest eq_refl). reflexivity.
  - cbn [spell]. rewrite (IH (String.length r) ltac:(cbn [String.length]; lia) r eq_refl).
    reflexivity.
Qed.

Lemma replace_segments_lit replacer (c : ascii) (segs : list segment) :
  replace_segments replacer (Lit c :: segs)
  = match replace_segments replacer segs with
    | Normal out => Normal (String c out)
    | Throw e => Throw e
    end.
Proof. reflexivity. Qed.

Lemma replace_segments_placeholder replacer (key : string) (segs : list segment) :
  replace_segments replacer (Placeholder key :: segs)
  = match replacer key with
    | Normal r =>
        match replace_segments replacer segs with
        | Normal out => Normal (ToString r +:+ out)
        | Throw e => Throw e
        end
    | Throw e => Throw e
    end.
Proof. reflexivity. Qed.

(** Without a match the replacement leaves the text as it is. *)
Lemma replace_without_match (text : string) (replacer : string -> completion value) :
  placeholder_keys text = [] -> String_replace_stored text replacer = Normal text.
Proof.
  unfold String_replace_stored, placeholder_keys.
  induction text as [|c r IH]; [reflexivity|].
  rewrite scan_cons. destruct (match_here (String c r)) as [[key rest]|]; [discriminate|].
  intros H. rewrite replace_segments_lit, IH by exact H. reflexivity.
Qed.

(** A captured key that is not stored makes the replacement throw the
    missing-key error of the first such key; nothing is returned. *)
Lemma replace_missing_key (segs : list segment) (storedData : gmap string value)
    (key : string) :
  Placeholder key ∈ segs -> storedData !! key = None ->
  exists missing,
    Placeholder missing ∈ segs /\ storedData !! missing = None /\
    replace_segments (stored_replacer storedData) segs
    = Throw (Error ("Stored value '" +:+ missing +:+ "' not found")).
Proof.
  intros Hin Hkey. induction segs as [|seg segs IH]; [inversion Hin|].
  destruct seg as [c|k].
  - apply elem_of_cons in Hin as [Heq|Hin]; [discriminate|].
    destruct (IH Hin) as (m & Hm & Hnone & Hthrow). exists m.
    split; [right; exact Hm|]. split; [exact Hnone|].
    rewrite replace_segments_lit, Hthrow. reflexivity.
  - rewrite replace_segments_placeholder. unfold stored_replacer at 1.
    destruct (storedData !! k) as [v|] eqn:Ek.
    + apply elem_of_cons in Hin as [Heq|Hin]; [congruence|].
      destruct (IH Hin) as (m & Hm & Hnone & Hthrow). exists m.
      split; [right; exact Hm|]. split; [exact Hnone|].
      rewrite Hthrow. reflexivity.
    + exists k. split; [left|]. split; [exact Ek | reflexivity].
Qed.

Lemma placeholder_keys_segments (text key : string) :
  key ∈ placeholder_keys text <-> Placeholder key ∈ segments text.
Proof.
  unfold placeholder_keys. rewrite list_elem_of_omap. split.
  - intros ([c|k] & Hin & Heq); [discriminate|]. injection Heq as ->. exact Hin.
  - intros Hin. exists (Placeholder key). split; [exact Hin | reflexivity].
Qed.

(** ** Body preparation and its failure path *)

Lemma M_bind_unfold {A B} (m : M A) (k : A -> M B) (rt : Runtime) :
  (m ≫= k) rt
  = match m rt with
    | (Normal a, rt') => k a rt'
    | (Throw e, rt') => (Throw e, rt')
    end.
Proof. reflexivity. Qed.

Lemma try_catch_unfold {A} (m : M A) (handler : exn -> M A) (rt : Runtime) :
  try_catch m handler rt
  = match m rt with
    | (Throw e, rt') => handler e rt'
    | done => done
    end.
Proof. reflexivity. Qed.

Lemma prepareRequestBody_substitute_throws (host : Host) (b : BodyConfig)
    (stored : gmap string value) (rt : Runtime) (e : exn) :
  substitute (content b) stored = Throw e ->
  prepareRequestBody host (Some b) stored rt
  = (Throw e, with_effects rt [ConsoleError ("Error preparing request body: " +:+ message e)]).
Proof.
  intros H. unfold prepareRequestBody, try_catch, lift. rewrite H. reflexivity.
Qed.

(** A failed preparation has logged its error and changed nothing else. *)
Lemma prepareRequestBody_throw_inv (host : Host) (bodyConfig : option BodyConfig)
    (stored : gmap string value) (rt rt' : Runtime) (e : exn) :
  prepareRequestBody host bodyConfig stored rt = (Throw e, rt') ->
  rt' = with_effects rt [ConsoleError ("Error preparing request body: " +:+ message e)].
Proof.
  destruct bodyConfig as [b|]; [|discriminate].
  unfold prepareRequestBody, try_catch, lift.
  destruct (substitute _ _ ≫= _) as [a|e0]; [discriminate|].
  intros [= <- <-]. reflexivity.
Qed.

(** Lines 202-211: a failed preparation ends the invocation after the two log
    lines and the failed-request sample. *)
Lemma handleRequest_preparation_fails (host : Host) (endpoint : string)
    (endpointConfig : EndpointConfig) (b : BodyConfig) (rt rt' : Runtime) (e : exn) :
  body endpointConfig = Some b ->
  prepareRequestBody host (Some b) (storedData rt) rt = (Throw e, rt') ->
  handleRequest host endpoint endpointConfig rt
  = (Normal tt,
     with_effects rt
       [ConsoleError ("Error preparing request body: " +:+ message e);
        ConsoleError ("Failed to prepare request body for " +:+ endpoint +:+ ": "
                      +:+ message e);
        MetricAdd failureRate (JNum 1) []]).
Proof.
  intros Hbody Hprep.
  pose proof (prepareRequestBody_throw_inv _ _ _ _ _ _ Hprep) as ->.
  unfold handleRequest. rewrite Hbody.
  rewrite M_bind_unfold, try_catch_unfold, M_bind_unfold.
  unfold get_storedData at 1. rewrite M_bind_unfold, Hprep.
  unfold with_effects, metric_add, emit, mbind, M_bind, mret, M_ret; cbn.
  rewrite <- !app_assoc. reflexivity.
Qed.

(** ** Substitution without and with placeholders *)




(** ** Contents without a dollar sign *)

Lemma mentions_app (c : ascii) (a b : string) :
  mentions c (a +:+ b) = mentions c a || mentions c b.
Proof.
  induction a as [|x a IH]; [reflexivity|].
  rewrite app_cons. cbn [mentions]. rewrite IH, orb_assoc. reflexivity.
Qed.

Lemma quote_char_dollar (c : ascii) : mentions "$" (quote_char c) = ascii_eqb "$" c.
Proof. destruct c as [[] [] [] [] [] [] [] []]; reflexivity. Qed.

Lemma quote_body_dollar (s : string) : mentions "$" (quote_body s) = mentions "$" s.
Proof.
  induction s as [|c s IH]; [reflexivity|].
  cbn [quote_body mentions]. rewrite mentions_app, quote_char_dollar, IH. reflexivity.
Qed.

Lemma QuoteJSONString_dollar (s : string) :
  mentions "$" (QuoteJSONString s) = mentions "$" s.
Proof.
  unfold QuoteJSONString. cbn [mentions]. rewrite mentions_app, quote_body_dollar.
  cbn. rewrite orb_false_r. reflexivity.
Qed.

Lemma string_of_uint_dollar (u : Decimal.uint) :
  mentions "$" (NilEmpty.string_of_uint u) = false.
Proof. induction u; cbn [NilEmpty.string_of_uint mentions]; [reflexivity | exact IHu ..]. Qed.

Lemma Number_toString_dollar (z : Z) : mentions "$" (Number_toString z) = false.
Proof.
  unfold Number_toString, NilZero.string_of_int, NilZero.string_of_uint.
  destruct (Z.to_int z) as [u|u]; [|cbn [mentions]];
    (destruct u; [reflexivity | apply string_of_uint_dollar ..]).
Qed.

Lemma join_dollar (l : list string) :
  Forall (fun t => mentions "$" t = false) l -> mentions "$" (join "," l) = false.
Proof.
  induction 1 as [|t l Ht Hl IH]; [reflexivity|].
  destruct l as [|t' l']; [exact Ht|].
  rewrite join_cons2, !mentions_app, Ht, IH. reflexivity.
Qed.

Lemma JSON_serialize_dollar (v : value) (t : string) :
  dollar_free v = true -> JSON_serialize v = Some t -> mentions "$" t = false.
Proof.
  revert t.
  induction v as [| | b | z | | s | items IH | props IH] using value_rect';
    intros t Hfree Ht; cbn [JSON_serialize] in Ht; try discriminate Ht.
  - injection Ht as <-. reflexivity.
  - destruct b; injection Ht as <-; reflexivity.
  - injection Ht as <-. apply Number_toString_dollar.
  - injection Ht as <-. reflexivity.
  - injection Ht as <-. rewrite QuoteJSONString_dollar.
    cbn [dollar_free] in Hfree. apply negb_true_iff, Hfree.
  - injection Ht as <-. rewrite !mentions_app. cbn [dollar_free] in Hfree.
    rewrite join_dollar; [reflexivity|].
    induction IH as [|x tl Hx Htl IHtl]; [constructor|].
    apply andb_prop in Hfree as [Fx Ftl]. cbn [map]. constructor; [|exact (IHtl Ftl)].
    destruct (JSON_serialize x) as [tx|] eqn:Ex; [exact (Hx tx Fx eq_refl) | reflexivity].
  - injection Ht as <-. rewrite !mentions_app. cbn [dollar_free] in Hfree.
    rewrite join_dollar; [reflexivity|].
    induction IH as [|[k x] tl Hx Htl IHtl]; [constructor|].
    apply andb_prop in Hfree as [[Fk Fx]%andb_prop Ftl]. cbn [fst snd] in *.
    change (omap ?f ((k, x) :: tl))
      with (match f (k, x) with Some y => y :: omap f tl | None => omap f tl end).
    cbn [fst snd]. destruct (JSON_serialize x) as [tx|] eqn:Ex; [|exact (IHtl Ftl)].
    cbn [fmap option_fmap option_map]. constructor; [|exact (IHtl Ftl)].
    rewrite !mentions_app, QuoteJSONString_dollar, (Hx tx Fx eq_refl).
    apply negb_true_iff in Fk. rewrite Fk. reflexivity.
Qed.

Lemma match_here_dollar (c : ascii) (r : string) :
  ascii_eqb "$" c = false -> match_here (String c r) = None.
Proof. intros H. unfold match_here. cbn [expect]. rewrite H. reflexivity. Qed.

Lemma placeholder_keys_dollar (text : string) :
  mentions "$" text = false -> placeholder_keys text = [].
Proof.
  unfold placeholder_keys. induction text as [|c r IH]; [reflexivity|].
  cbn [mentions]. intros [Hc Hr]%orb_false_iff.
  rewrite scan_cons, (match_here_dollar c r Hc). exact (IH Hr).
Qed.

(** A content structure none of whose strings or keys has a dollar sign holds
    no placeholder. *)
Lemma dollar_free_no_placeholder (content : value) :
  dollar_free content = true -> content_placeholders content = [].
Proof.
  intros Hfree. unfold content_placeholders, JSON_stringify.
  destruct (JSON_serialize content) as [text|] eqn:E; [|reflexivity].
  apply placeholder_keys_dollar, (JSON_serialize_dollar content text Hfree E).
Qed.

(** Such a content structure, when serializable, comes back from the
    substitution as it went in. *)
Lemma substitute_dollar_free (content : value) (stored : gmap string value) :
  serializable content = true -> dollar_free content = true ->
  substitute content stored = Normal content.
Proof.
  intros Hser Hfree. pose proof (dollar_free_no_placeholder content Hfree) as Hnone.
  unfold substitute, content_placeholders in *.
  destruct (serializable_serialized content Hser) as [text Htext].
  unfold JSON_stringify in *. rewrite Htext in Hnone |- *.
  rewrite (replace_without_match text _ Hnone).
  exact (JSON_parse_stringify content text Hser Htext).
Qed.

(** C2: when the content of a body holds a placeholder whose key is not in the
    stored data, body preparation throws the missing-key error for the first
    such key and returns no body, and the invocation ends there: no call is
    sent and one failed-request sample is recorded. *)
Theorem C2_missing_stored_key_aborts (host : Host) (endpoint : string)
    (endpointConfig : EndpointConfig) (b : BodyConfig) (rt : Runtime) (key : string) :
  body endpointConfig = Some b ->
  key ∈ content_placeholders (content b) ->
  storedData rt !! key = None ->
  exists (missing : string) (rt1 final : Runtime),
    missing ∈ content_placeholders (content b) /\
    storedData rt !! missing = None /\
    prepareRequestBody host (Some b) (storedData rt) rt
    = (Throw (Error ("Stored value '" +:+ missing +:+ "' not found")), rt1) /\
    handleRequest host endpoint endpointConfig rt = (Normal tt, final) /\
    sent_calls final = sent_calls rt /\
    samples failureRate final = samples failureRate rt ++ [JNum 1].
Proof.
  intros Hbody Hkey Hnone. unfold content_placeholders in *.
  destruct (JSON_stringify (content b)) as [text|] eqn:Htext; [|inversion Hkey].
  apply placeholder_keys_segments in Hkey.
  destruct (replace_missing_key _ _ _ Hkey Hnone) as (missing & Hin & Hmiss & Hthrow).
  assert (substitute (content b) (storedData rt)
          = Throw (Error ("Stored value '" +:+ missing +:+ "' not found"))) as Hsub.
  { unfold substitute, String_replace_stored. rewrite Htext, Hthrow. reflexivity. }
  pose proof (prepareRequestBody_substitute_throws host b _ rt _ Hsub) as Hprep.
  eexists missing, _, _. split; [apply placeholder_keys_segments, Hin|].
  split; [exact Hmiss|]. split; [exact Hprep|].
  split; [exact (handleRequest_preparation_fails _ _ _ _ _ _ _ Hbody Hprep)|].
  unfold sent_calls, samples, with_effects. cbn [effects].
  rewrite !omap_app. cbn. rewrite app_nil_r. split; reflexivity.
Qed.

Lemma C2_witness :
  exists (missing : string) (rt1 final : Runtime),
    missing ∈ content_placeholders (content order_body) /\
    storedData fresh_run !! missing = None /\
    prepareRequestBody (scripted_host ok_response 5) (Some order_body)
      (storedData fresh_run) fresh_run
    = (Throw (Error ("Stored value '" +:+ missing +:+ "' not found")), rt1) /\
    handleRequest (scripted_host ok_response 5) "createOrder" order_endpoint fresh_run
    = (Normal tt, final) /\
    sent_calls final = sent_calls fresh_run /\
    samples failureRate final = samples failureRate fresh_run ++ [JNum 1].
Proof.
  apply (C2_missing_stored_key_aborts (scripted_host ok_response 5) "createOrder"
           order_endpoint order_body fresh_run "accessToken").
  - reflexivity.
  - vm_compute. left.
  - reflexivity.
Defined.

(** ** The shared state on the failure path *)

(** C9: when body preparation fails, whatever the reason, the invocation
    returns normally right after the failed-request sample, having sent
    nothing, and [storedData] and [slowRequests] are what they were. *)
Theorem C9_failed_preparation_keeps_shared_state (host : Host) (endpoint : string)
    (endpointConfig : EndpointConfig) (b : BodyConfig) (rt rt1 : Runtime) (e : exn) :
  body endpointConfig = Some b ->
  prepareRequestBody host (Some b) (storedData rt) rt = (Throw e, rt1) ->
  exists final : Runtime,
    handleRequest host endpoint endpointConfig rt = (Normal tt, final) /\
    storedData final = storedData rt /\
    slowRequests final = slowRequests rt /\
    sent_calls final = sent_calls rt /\
    samples failureRate final = samples failureRate rt ++ [JNum 1] /\
    last (effects final) = Some (MetricAdd failureRate (JNum 1) []).
Proof.
  intros Hbody Hprep. eexists.
  split; [exact (handleRequest_preparation_fails _ _ _ _ _ _ _ Hbody Hprep)|].
  unfold sent_calls, samples, with_effects. cbn [effects storedData slowRequests].
  rewrite !omap_app. cbn. rewrite app_nil_r.
  repeat split; try reflexivity.
  rewrite (last_app _ [_; _; _]). reflexivity.
Qed.

Lemma C9_witness :
  exists final : Runtime,
    handleRequest (scripted_host ok_response 5) "putFeed" xml_endpoint seeded_run
    = (Normal tt, final) /\
    storedData final = storedData seeded_run /\
    slowRequests final = slowRequests seeded_run /\
    sent_calls final = sent_calls seeded_run /\
    samples failureRate final = samples failureRate seeded_run ++ [JNum 1] /\
    last (effects final) = Some (MetricAdd failureRate (JNum 1) []).
Proof.
  apply (C9_failed_preparation_keeps_shared_state (scripted_host ok_response 5) "putFeed"
           xml_endpoint
           {| body_type := "xml"; content := JStr "<a/>"; contentType := None |}
           seeded_run
           (with_effects seeded_run
              [ConsoleError "Error preparing request body: Unsupported body type: xml"])
           (Error "Unsupported body type: xml")).
  - reflexivity.
  - vm_compute. reflexivity.
Defined.

Create HintDb appends.

(** ** Effects are only ever appended *)

Lemma appends_ret {A} (a : A) : appends (mret a).
Proof. intros rt. exists []. cbn. rewrite app_nil_r. reflexivity. Qed.

Lemma appends_throw {A} (e : exn) : appends (@throw A e).
Proof. intros rt. exists []. cbn. rewrite app_nil_r. reflexivity. Qed.

Lemma appends_lift {A} (c : completion A) : appends (lift c).
Proof. intros rt. exists []. cbn. rewrite app_nil_r. reflexivity. Qed.

Lemma appends_emit (e : effect) : appends (emit e).
Proof. intros rt. exists [e]. reflexivity. Qed.

Lemma appends_metric_add metric sample tags : appends (metric_add metric sample tags).
Proof. apply appends_emit. Qed.

Lemma appends_set_stored key v : appends (set_stored key v).
Proof. intros rt. exists []. cbn. rewrite app_nil_r. reflexivity. Qed.

Lemma appends_push_slowRequest r : appends (push_slowRequest r).
Proof. intros rt. exists []. cbn. rewrite app_nil_r. reflexivity. Qed.

Lemma appends_new_Date : appends new_Date.
Proof. intros rt. exists []. cbn. rewrite app_nil_r. reflexivity. Qed.

Lemma appends_get_storedData : appends get_storedData.
Proof. intros rt. exists []. cbn. rewrite app_nil_r. reflexivity. Qed.

Lemma appends_http host call : appends (http host call).
Proof.
  intros rt. exists [Http call]. unfold http.
  destruct (transport host (now rt) call). reflexivity.
Qed.

Lemma appends_bind {A B} (m : M A) (k : A -> M B) :
  appends m -> (forall a, appends (k a)) -> appends (m ≫= k).
Proof.
  intros Hm Hk rt. rewrite M_bind_unfold. destruct (Hm rt) as [more1 H1].
  destruct (m rt) as [[a|e] rt1]; cbn [snd] in *.
  - destruct (Hk a rt1) as [more2 H2]. exists (more1 ++ more2).
    rewrite H2, H1, app_assoc. reflexivity.
  - exists more1. exact H1.
Qed.

Lemma appends_try_catch {A} (m : M A) (handler : exn -> M A) :
  appends m -> (forall e, appends (handler e)) -> appends (try_catch m handler).
Proof.
  intros Hm Hh rt. rewrite try_catch_unfold. destruct (Hm rt) as [more1 H1].
  destruct (m rt) as [[a|e] rt1]; cbn [snd] in *.
  - exists more1. exact H1.
  - destruct (Hh e rt1) as [more2 H2]. exists (more1 ++ more2).
    rewrite H2, H1, app_assoc. reflexivity.
Qed.

#[local] Hint Resolve appends_ret appends_throw appends_lift appends_emit appends_metric_add
  appends_set_stored appends_push_slowRequest appends_new_Date appends_get_storedData
  appends_http : appends.

Ltac appends_step :=
  first
    [ apply appends_bind; [|intros ?]
    | apply appends_try_catch; [|intros ?]
    | solve [auto with appends]
    | match goal with
      | |- appends (if ?b then _ else _) => destruct b
      | |- appends (match ?x with _ => _ end) => destruct x
      end ].

Lemma appends_store_fields responseBody pairs : appends (store_fields responseBody pairs).
Proof.
  induction pairs as [|[key p] rest IH]; cbn [store_fields]; [auto with appends|].
  repeat appends_step.
Qed.

Lemma appends_parseResponse response endpointConfig :
  appends (parseResponse response endpointConfig).
Proof. unfold parseResponse. repeat appends_step. Qed.

Lemma appends_validate_fields host responseBody expected results :
  appends (validate_fields host responseBody expected results).
Proof.
  revert results. induction expected as [|[f validation] rest IH]; intros results;
    cbn [validate_fields]; [auto with appends|].
  repeat appends_step; apply IH.
Qed.

Lemma appends_validateResponseContent host response expected :
  appends (validateResponseContent host response expected).
Proof.
  unfold validateResponseContent. apply appends_bind; [apply appends_parseResponse|].
  intros responseBody. destruct (negb (truthy responseBody));
    [auto with appends | apply appends_validate_fields].
Qed.

#[local] Hint Resolve appends_store_fields appends_parseResponse appends_validate_fields
  appends_validateResponseContent : appends.

(** A successful preparation leaves the run-time state alone. *)
Lemma prepareRequestBody_normal_inv (host : Host) (bodyConfig : option BodyConfig)
    (stored : gmap string value) (rt rt' : Runtime) (prepared : RequestBody) :
  prepareRequestBody host bodyConfig stored rt = (Normal prepared, rt') -> rt' = rt.
Proof.
  destruct bodyConfig as [b|]; [|intros [= _ <-]; reflexivity].
  unfold prepareRequestBody, try_catch, lift.
  destruct (substitute _ _ ≫= _) as [a|e0]; [intros [= _ <-]; reflexivity|].
  cbn. discriminate.
Qed.

(** Lines 213-221: once the body is prepared, the call goes out with the
    headers and tags of [request_params], and the duration and the slow
    classification are recorded before anything else happens. *)
Lemma handleRequest_send_phase (host : Host) (endpoint : string)
    (endpointConfig : EndpointConfig) (prepared : RequestBody) (rt rt1 : Runtime) :
  prepareRequestBody host (body endpointConfig) (storedData rt) rt = (Normal prepared, rt1) ->
  exists more : list effect,
    effects (snd (handleRequest host endpoint endpointConfig rt))
    = effects rt ++
      [Http (request_call endpoint endpointConfig prepared);
       MetricAdd responseTime_trend
         (JNum (snd (transport host (now rt) (request_call endpoint endpointConfig prepared))))
         [("endpoint", JStr endpoint)];
       MetricAdd slowRequests_rate
         (JBool (isSlowRequest endpointConfig
                   (snd (transport host (now rt)
                           (request_call endpoint endpointConfig prepared))))) []]
      ++ more.
Proof.
  intros Hprep. pose proof (prepareRequestBody_normal_inv _ _ _ _ _ _ Hprep) as ->.
  unfold handleRequest. rewrite M_bind_unfold, try_catch_unfold.
  assert ((match body endpointConfig with
           | Some b =>
               stored ← get_storedData;
               prepared0 ← prepareRequestBody host (Some b) stored;
               mret (Some prepared0)
           | None => mret (Some BodyNull)
           end) rt = (Normal (Some prepared), rt)) as ->.
  { destruct (body endpointConfig) as [b|].
    - rewrite M_bind_unfold. unfold get_storedData at 1. rewrite M_bind_unfold, Hprep.
      reflexivity.
    - cbn in Hprep. injection Hprep as <-. reflexivity. }
  rewrite M_bind_unfold. unfold new_Date at 1.
  rewrite M_bind_unfold. unfold http at 1.
  destruct (transport host (now rt) (request_call endpoint endpointConfig prepared))
    as [response dt] eqn:Ht. cbn [snd].
  rewrite M_bind_unfold. unfold new_Date at 1. cbn [now].
  rewrite M_bind_unfold. unfold metric_add at 1, emit at 1.
  cbn [storedData slowRequests effects now].
  rewrite M_bind_unfold. unfold metric_add at 1, emit at 1.
  cbn [storedData slowRequests effects now].
  replace (now rt + dt - now rt) with dt by lia.
  match goal with
  | |- context [(?m ≫= ?k) ?r] =>
      assert (appends (m ≫= k)) as Happ by (repeat appends_step);
      destruct (Happ r) as [more Hmore]; exists more; rewrite Hmore
  end.
  cbn [effects]. rewrite <- !app_assoc. reflexivity.
Qed.

(** ** Response parsing inside the validation step *)

(** An empty body is reported as the single failed check. *)
Lemma validateResponseContent_empty_body (host : Host) (response : Response)
    (expected : list (string * FieldDescriptor)) (rt : Runtime) :
  truthy (r_body response) = false ->
  validateResponseContent host response expected rt
  = (Normal {[ "response parsing" := JBool false ]}, rt).
Proof.
  intros H. unfold validateResponseContent, parseResponse.
  rewrite M_bind_unfold, H. reflexivity.
Qed.

(** The call of line 245 passes the endpoint and its [catch] recovers. *)
Lemma parseResponse_with_endpoint_recovers (response : Response)
    (endpointConfig : EndpointConfig) (rt : Runtime) (e : exn) :
  truthy (r_body response) = true -> json response = Throw e ->
  parseResponse response (Some endpointConfig) rt
  = (Normal JNull,
     with_effects rt
       [ConsoleWarn ("Failed to parse response as JSON for endpoint "
                     +:+ path endpointConfig +:+ ": " +:+ message e)]).
Proof.
  intros Hb Hj. unfold parseResponse. rewrite Hb. cbn [negb].
  rewrite try_catch_unfold. unfold lift. rewrite Hj. reflexivity.
Qed.

(** The call of line 151 passes no endpoint: the [catch] block itself throws. *)
Lemma validateResponseContent_json_throws (host : Host) (response : Response)
    (expected : list (string * FieldDescriptor)) (rt : Runtime) (e : exn) :
  truthy (r_body response) = true -> json response = Throw e ->
  validateResponseContent host response expected rt
  = (Throw (TypeError "Cannot read property 'path' of undefined"), rt).
Proof.
  intros Hb Hj. unfold validateResponseContent, parseResponse.
  rewrite M_bind_unfold, Hb. cbn [negb].
  rewrite try_catch_unfold. unfold lift. rewrite Hj. reflexivity.
Qed.

(** C1, at a body that is not JSON: [validateResponseContent] does not return
    the single failed check, it raises a [TypeError] out of the validation
    step, because [parseResponse] is called without the endpoint and its
    [catch] block reads [endpointConfig.path]. *)
Theorem C1_non_json_body_raises (host : Host) (st : Z) (markup : string) (e : exn)
    (expected : list (string * FieldDescriptor)) (rt : Runtime) :
  validateResponseContent host
    {| status := st; r_body := JStr (String "<" markup); json := Throw e |} expected rt
  = (Throw (TypeError "Cannot read property 'path' of undefined"), rt).
Proof. apply (validateResponseContent_json_throws host _ expected rt e); reflexivity. Qed.

(** The error leaves [handleRequest] too: no check is reported and no
    failed-request sample is recorded for such a response. *)
Example non_json_response_escapes_handleRequest :
  let '(result, final) :=
    handleRequest (scripted_host html_response 20) "getToken" (getToken (JStr "secret"))
      fresh_run in
  result = Throw (TypeError "Cannot read property 'path' of undefined")
  /\ samples failureRate final = [].
Proof. vm_compute. split; reflexivity. Qed.

(** ** Headers *)

(** Headers declared by the endpoint are sent as they are written, whatever is
    stored; only [Content-Type] may be set from the body type. *)
Lemma request_headers_verbatim (endpointConfig : EndpointConfig) (name text : string) :
  (list_to_map (headers endpointConfig) : gmap string string) !! name = Some text ->
  name <> "Content-Type" ->
  request_headers endpointConfig !! name = Some text.
Proof.
  intros Hdeclared Hname. unfold request_headers.
  assert (((list_to_map (headers endpointConfig) : gmap string string)
           ∪ list_to_map (g_headers globalConfig)) !! name = Some text) as Hmerged.
  { apply lookup_union_Some_l, Hdeclared. }
  destruct (body endpointConfig) as [b|]; [|exact Hmerged].
  destruct (String.eqb (body_type b) "raw");
    [rewrite lookup_insert_ne by congruence; exact Hmerged|].
  destruct (String.eqb (body_type b) "x-www-form-urlencoded");
    [rewrite lookup_insert_ne by congruence; exact Hmerged | exact Hmerged].
Qed.

(** C3, at a header that holds a placeholder whose key is stored: the call is
    sent with the placeholder text itself in the header, not the stored
    value.  Substitution never reaches the headers: whatever is stored, every
    call carries each declared header as it is written. *)
Theorem C3_header_placeholder_sent_verbatim (host : Host) :
  (storedData seeded_run !! "accessToken" = Some (JStr "abc123") /\
   exists (call : HttpCall) (more : list effect),
     effects (snd (handleRequest host "getAccountConsents" getAccountConsents seeded_run))
     = effects seeded_run ++ Http call :: more /\
     p_headers (call_params call) !! "Authorization" = Some "${stored.accessToken}") /\
  (forall (endpoint : string) (endpointConfig : EndpointConfig) (prepared : RequestBody)
          (rt rt1 : Runtime) (name text : string),
      prepareRequestBody host (body endpointConfig) (storedData rt) rt
      = (Normal prepared, rt1) ->
      (list_to_map (headers endpointConfig) : gmap string string) !! name = Some text ->
      name <> "Content-Type" ->
      exists (call : HttpCall) (more : list effect),
        effects (snd (handleRequest host endpoint endpointConfig rt))
        = effects rt ++ Http call :: more /\
        p_headers (call_params call) !! name = Some text).
Proof.
  assert (forall endpoint endpointConfig prepared,
             p_headers (call_params (request_call endpoint endpointConfig prepared))
             = request_headers endpointConfig) as Hparams.
  { intros endpoint endpointConfig prepared. unfold request_call.
    destruct (String.eqb (method endpointConfig) "GET"); reflexivity. }
  split.
  - split; [reflexivity|].
    destruct (handleRequest_send_phase host "getAccountConsents" getAccountConsents
                BodyNull seeded_run seeded_run eq_refl) as [more Hmore].
    eexists _, _. split; [exact Hmore|]. vm_compute. reflexivity.
  - intros endpoint endpointConfig prepared rt rt1 name text Hprep Hdeclared Hname.
    destruct (handleRequest_send_phase host endpoint endpointConfig prepared rt rt1 Hprep)
      as [more Hmore].
    eexists _, _. split; [exact Hmore|].
    rewrite Hparams. apply request_headers_verbatim; assumption.
Qed.

(** ** Validator options *)

Lemma validate_fields_only_values (host : Host) (responseBody : value)
    (expected : list (string * FieldDescriptor)) (results : gmap string value)
    (rt : Runtime) :
  validate_fields host responseBody expected results rt
  = validate_fields host responseBody
      (map (fun fd => (fst fd, only_values (snd fd))) expected) results rt.
Proof.
  revert results rt. induction expected as [|[f d] rest IH]; intros results rt; [reflexivity|].
  cbn [map fst snd validate_fields]. rewrite !M_bind_unfold.
  destruct (lift (get_prop responseBody f) rt) as [[v|e] rt1]; [|reflexivity].
  change (type (only_values d)) with (type d).
  change (values (only_values d)) with (values d).
  destruct (validators host !! type d) as [validate|].
  - rewrite !M_bind_unfold.
    destruct (lift (validate v (values d)) rt1) as [[isValid|e] rt2]; [|reflexivity].
    rewrite !M_bind_unfold.
    destruct ((if truthy isValid then mret ()
               else metric_add validationFailures (JNum 1)
                      [("field", JStr f); ("type", JStr (type d))]) rt2) as [[[]|e] rt3];
      [apply IH | reflexivity].
  - rewrite !M_bind_unfold.
    destruct (emit (ConsoleError ("Unknown validator type: " +:+ type d)) rt1)
      as [[[]|e] rt2]; [apply IH | reflexivity].
Qed.

(** What validating one field records, for a response object that has the
    field: the selected validator applied to the field's value and the
    descriptor's [values]. *)
Lemma validate_fields_single (host : Host) (f : string) (d : FieldDescriptor) (v : value)
    (props : list (string * value)) (results : gmap string value) (rt : Runtime) :
  validate_fields host (JObj ((f, v) :: props)) [(f, d)] results rt
  = match validators host !! type d with
    | Some validate =>
        match validate v (values d) with
        | Normal isValid =>
            (Normal (<[f +:+ " is valid" := isValid]> results),
             if truthy isValid then rt
             else with_effects rt
                    [MetricAdd validationFailures (JNum 1)
                       [("field", JStr f); ("type", JStr (type d))]])
        | Throw e => (Throw e, rt)
        end
    | None =>
        (Normal (<[f +:+ " validation" := JBool false]> results),
         with_effects rt [ConsoleError ("Unknown validator type: " +:+ type d)])
    end.
Proof.
  cbn [validate_fields]. rewrite M_bind_unfold. unfold lift at 1, get_prop.
  cbn [find fst snd]. rewrite String.eqb_refl.
  cbn [fmap option_fmap option_map default from_option id snd].
  destruct (validators host !! type d) as [validate|]; [|reflexivity].
  rewrite M_bind_unfold. unfold lift at 1.
  destruct (validate v (values d)) as [isValid|e]; [|reflexivity].
  rewrite M_bind_unfold. destruct (truthy isValid); reflexivity.
Qed.

(** The [text] and [number] predicates look at the value only: whatever bounds
    a descriptor declares, every string passes [text] and every number passes
    [number]. *)
Lemma bounds_are_ignored (host : Host) (rt : Runtime) (s : string) (n : Z)
    (shortest longest lowest highest : jsarg) :
  validateResponseContent host
    {| status := 200; r_body := JStr "{...}";
       json := Normal (JObj [("name", JStr s); ("age", JNum n)]) |}
    [("name", {| type := "text"; values := absent; pattern := absent; validator := absent;
                 minLength := shortest; maxLength := longest;
                 fmin := absent; fmax := absent |});
     ("age", {| type := "number"; values := absent; pattern := absent; validator := absent;
                minLength := absent; maxLength := absent;
                fmin := lowest; fmax := highest |})]
    rt
  = (Normal {[ "name is valid" := JBool true; "age is valid" := JBool true ]}, rt).
Proof. vm_compute. reflexivity. Qed.

(** C5, at the documented descriptors with bounds: a one-letter name passes a
    [text] field declared with [minLength: 2] and the number 5 passes a
    [number] field declared with [min: 18]; the bounds are never read. *)
Theorem C5_bounds_are_not_enforced (host : Host) (rt : Runtime) :
  validateResponseContent host
    {| status := 200; r_body := JStr "{...}";
       json := Normal (JObj [("name", JStr "a"); ("age", JNum 5)]) |}
    [("name", {| type := "text"; values := absent; pattern := absent; validator := absent;
                 minLength := Val (JNum 2); maxLength := Val (JNum 50);
                 fmin := absent; fmax := absent |});
     ("age", {| type := "number"; values := absent; pattern := absent; validator := absent;
                minLength := absent; maxLength := absent;
                fmin := Val (JNum 18); fmax := Val (JNum 120) |})]
    rt
  = (Normal {[ "name is valid" := JBool true; "age is valid" := JBool true ]}, rt).
Proof. vm_compute. reflexivity. Qed.

(** C10: the [enum] validator called without its allowed values does not
    return a boolean, it raises a [TypeError], whatever the value. *)
Theorem C10_enum_without_values_raises (host : Host) (v : value) :
  validators host !! "enum" = Some validators_enum /\
  validators_enum v (Val JUndefined)
  = Throw (TypeError "Cannot read property 'includes' of undefined").
Proof. split; reflexivity. Qed.

(** ** Slow-request classification *)

(** C6 as first stated fails where the declared response time is zero:
    [0 || 1000] is the global threshold, so a request of one millisecond, one
    above the declared threshold, is not classified as slow. *)
Lemma C6_counterexample :
  declared_threshold impatient_endpoint = 0 /\
  isSlowRequest impatient_endpoint (declared_threshold impatient_endpoint + 1) = false /\
  samples slowRequests_rate
    (snd (handleRequest (scripted_host ok_response 1) "ping" impatient_endpoint fresh_run))
  = [JBool false].
Proof. vm_compute. repeat split; reflexivity. Qed.

(** C6, amended: the threshold is the endpoint's response time when it
    declares a non-zero one and the global slow-request threshold when it
    declares none or zero; a request is slow exactly when its duration is
    strictly above that threshold, so a duration equal to it is not slow and
    one millisecond more is; and every request that is sent records this
    classification of its measured duration. *)
Theorem C6_slow_is_strictly_above_threshold (endpointConfig : EndpointConfig) :
  slow_threshold endpointConfig
  = match c ← config endpointConfig; responseTime c with
    | Some t => if t =? 0 then slowRequestThreshold globalConfig else t
    | None => slowRequestThreshold globalConfig
    end /\
  (forall duration : Z,
      isSlowRequest endpointConfig duration = true
      <-> slow_threshold endpointConfig < duration) /\
  isSlowRequest endpointConfig (slow_threshold endpointConfig) = false /\
  isSlowRequest endpointConfig (slow_threshold endpointConfig + 1) = true /\
  (forall (host : Host) (endpoint : string) (prepared : RequestBody) (rt rt1 : Runtime),
      prepareRequestBody host (body endpointConfig) (storedData rt) rt
      = (Normal prepared, rt1) ->
      exists more : list effect,
        effects (snd (handleRequest host endpoint endpointConfig rt))
        = effects rt ++
          [Http (request_call endpoint endpointConfig prepared);
           MetricAdd responseTime_trend
             (JNum (snd (transport host (now rt)
                           (request_call endpoint endpointConfig prepared))))
             [("endpoint", JStr endpoint)];
           MetricAdd slowRequests_rate
             (JBool (isSlowRequest endpointConfig
                       (snd (transport host (now rt)
                               (request_call endpoint endpointConfig prepared))))) []]
          ++ more).
Proof.
  unfold isSlowRequest. split; [reflexivity|]. split; [|split; [|split]].
  - intros duration. apply Z.ltb_lt.
  - apply Z.ltb_irrefl.
  - apply Z.ltb_lt. lia.
  - intros host endpoint prepared rt rt1 Hprep.
    exact (handleRequest_send_phase host endpoint endpointConfig prepared rt rt1 Hprep).
Qed.

(** At the global threshold of one second. *)
Example slow_boundary_run :
  samples slowRequests_rate
    (snd (handleRequest (scripted_host ok_response 1000) "consents" getAccountConsents
            fresh_run)) = [JBool false] /\
  samples slowRequests_rate
    (snd (handleRequest (scripted_host ok_response 1001) "consents" getAccountConsents
            fresh_run)) = [JBool true] /\
  length (slowRequests
    (snd (handleRequest (scripted_host ok_response 1001) "consents" getAccountConsents
            fresh_run))) = 1%nat.
Proof. vm_compute. repeat split; reflexivity. Qed.

(** ** Scenarios *)

Lemma add_endpoint_scenarios (acc : Options) (entry : string * EndpointConfig) :
  dom (scenarios (add_endpoint acc entry)) = {[ fst entry ]} ∪ dom (scenarios acc).
Proof. destruct entry as [endpoint endpointConfig]. cbn. apply dom_insert_L. Qed.

Lemma fold_add_endpoint_scenarios (entries : list (string * EndpointConfig)) (acc : Options) :
  dom (scenarios (fold_left add_endpoint entries acc))
  = dom (scenarios acc) ∪ list_to_set (map fst entries).
Proof.
  revert acc. induction entries as [|entry entries IH]; intros acc.
  - cbn. set_solver.
  - cbn [fold_left map list_to_set]. rewrite IH, add_endpoint_scenarios. set_solver.
Qed.

(** A scenario added by the loop runs the default function with a constant
    number of virtual users and routes back to the endpoint it is keyed by. *)
Lemma fold_add_endpoint_scenario (entries : list (string * EndpointConfig)) (acc : Options)
    (k : string) (s : Scenario) :
  scenarios (fold_left add_endpoint entries acc) !! k = Some s ->
  scenarios acc !! k = Some s \/
  (env_SCENARIO s = k /\ executor s = "constant-vus" /\ exec s = "default").
Proof.
  revert acc. induction entries as [|[endpoint endpointConfig] entries IH]; intros acc;
    [left; assumption|].
  cbn [fold_left]. intros [Hacc|Hnew]%IH; [|right; exact Hnew].
  cbn [add_endpoint scenarios] in Hacc.
  destruct (decide (endpoint = k)) as [->|Hne].
  - rewrite lookup_insert_eq in Hacc. injection Hacc as <-. right. repeat split.
  - rewrite lookup_insert_ne in Hacc by exact Hne. left. exact Hacc.
Qed.

(** C7: with a filter list the keys of the scenario map are exactly the
    registry endpoints that the list names, and without a filter they are
    exactly the registry endpoints, one scenario each, every scenario routing
    back to the endpoint it is keyed by. *)
Theorem C7_scenarios_are_the_selected_endpoints (registry : list (string * EndpointConfig)) :
  (forall targets : list string,
      dom (scenarios (buildOptions registry (Some targets)))
      = list_to_set (map fst registry) ∩ list_to_set targets) /\
  dom (scenarios (buildOptions registry None)) = list_to_set (map fst registry) /\
  (forall (targetEndpoints : option (list string)) (k : string) (s : Scenario),
      scenarios (buildOptions registry targetEndpoints) !! k = Some s ->
      env_SCENARIO s = k /\ executor s = "constant-vus" /\ exec s = "default").
Proof.
  split; [|split].
  - intros targets. unfold buildOptions. rewrite fold_add_endpoint_scenarios.
    cbn [scenarios initial_options]. apply set_eq. intros k.
    rewrite dom_empty_L, elem_of_union, elem_of_intersection, !elem_of_list_to_set,
      !list_elem_of_fmap.
    split.
    + intros [Hk|(entry & -> & [Ht Hin]%list_elem_of_filter)]; [set_solver|].
      split; [exists entry; split; [reflexivity | exact Hin] | exact Ht].
    + intros [(entry & -> & Hin) Ht]. right. exists entry. split; [reflexivity|].
      apply list_elem_of_filter. split; assumption.
  - unfold buildOptions. rewrite fold_add_endpoint_scenarios.
    cbn [scenarios initial_options]. set_solver.
  - intros targetEndpoints k s Hs. unfold buildOptions in Hs.
    apply fold_add_endpoint_scenario in Hs as [Hinit|Hnew]; [|exact Hnew].
    cbn [scenarios initial_options] in Hinit. rewrite lookup_empty in Hinit.
    discriminate Hinit.
Qed.

Example filter_B_of_ABC :
  dom (scenarios (buildOptions [("A", blank_endpoint "/a"); ("B", blank_endpoint "/b");
                                ("C", blank_endpoint "/c")] (Some ["B"])))
  = ({[ "B" ]} : gset string).
Proof. vm_compute. reflexivity. Qed.

(** ** End-to-end runs *)

(** Store, then substitute: the token captured from one response is spliced
    into the body of a later request. *)
Example store_then_substitute :
  let after_token :=
    snd (handleRequest (scripted_host token_response 120) "getToken"
           (getToken (JStr "secret")) fresh_run) in
  storedData after_token !! "accessToken" = Some (JStr "abc123") /\
  samples failureRate after_token = [JBool false] /\
  sent_calls (snd (handleRequest (scripted_host ok_response 80) "createOrder" order_endpoint
                     after_token))
  = sent_calls after_token ++
    [HttpRequest "POST" "https://uat.openfinance.adcb.com/orders"
       (BodyText (default "" (JSON_stringify
          (JObj [("token", JStr "abc123"); ("amount", JNum 10)]))))
       (request_params "createOrder" order_endpoint)].
Proof. vm_compute. repeat split; reflexivity. Qed.

(** An unexpected status fails its check and the request counts as failed. *)
Example unexpected_status_fails :
  let final :=
    snd (handleRequest (scripted_host not_found_response 120) "getToken"
           (getToken (JStr "secret")) fresh_run) in
  (exists checks, last (omap (fun e => match e with Check c => Some c | _ => None end)
                             (effects final)) = Some checks /\
                  checks !! "status is as expected" = Some (JBool false) /\
                  checks !! "response time is within limits" = Some (JBool true)) /\
  last (samples failureRate final) = Some (JBool true).
Proof. vm_compute. split; [eexists; repeat split; reflexivity | reflexivity]. Qed.

(** ** The validators on small cases *)

Example enum_cases :
  validators_enum (JStr "active") (Val (JArr [JStr "active"; JStr "inactive"]))
  = Normal (JBool true) /\
  validators_enum (JStr "archived") (Val (JArr [JStr "active"; JStr "inactive"]))
  = Normal (JBool false) /\
  validators_enum (JStr "act") (Val (JStr "active,inactive")) = Normal (JBool true).
Proof. repeat split; reflexivity. Qed.

Example number_cases :
  validators_number JNaN absent = Normal (JBool false) /\
  validators_number (JStr "42") absent = Normal (JBool false) /\
  validators_number (JNum 42) absent = Normal (JBool true).
Proof. repeat split; reflexivity. Qed.

Example object_cases :
  validators_object JNull absent = Normal (JBool false) /\
  validators_object (JArr []) absent = Normal (JBool false) /\
  validators_object (JObj []) absent = Normal (JBool true) /\
  validators_array (JArr []) absent = Normal (JBool true).
Proof. repeat split; reflexivity. Qed.

(** A field whose type is not registered is recorded as failed and the fields
    after it are still validated. *)
Example unknown_type_is_recorded (host : Host) (rt : Runtime) :
  validateResponseContent host
    {| status := 200; r_body := JStr "{...}";
       json := Normal (JObj [("id", JNum 7); ("ok", JBool true)]) |}
    [("id", field "integer"); ("ok", field "boolean")] rt
  = (Normal {[ "id validation" := JBool false; "ok is valid" := JBool true ]},
     with_effects rt [ConsoleError "Unknown validator type: integer"]).
Proof. vm_compute. reflexivity. Qed.

(** * Further properties *)

(** ** The type validators *)

(** X1: Whatever options are passed, every value passes exactly one of the
    validators text, number, boolean, array and object, except undefined, null
    and NaN, which pass none of them; so a field missing from the response
    fails each of the five. *)
Theorem type_validators_partition (v : value) (o1 o2 o3 o4 o5 : jsarg) :
  (Nat.b2n (passes (validators_text v o1))
   + Nat.b2n (passes (validators_number v o2))
   + Nat.b2n (passes (validators_boolean v o3))
   + Nat.b2n (passes (validators_array v o4))
   + Nat.b2n (passes (validators_object v o5)))%nat
  = match v with
    | JUndefined | JNull | JNaN => 0%nat
    | _ => 1%nat
    end.
Proof. by destruct v. Qed.

Lemma existsb_same_value_zero_str (s : string) (l : list string) :
  existsb (same_value_zero (JStr s)) (map JStr l) = bool_decide (s ∈ l).
Proof.
  induction l as [|x l IH]; cbn [existsb map same_value_zero].
  - symmetry. apply bool_decide_eq_false. by intros ?%elem_of_nil.
  - rewrite IH. destruct (String.eqb_spec s x) as [->|Hne]; cbn [orb].
    + symmetry. apply bool_decide_eq_true. left.
    + apply bool_decide_ext. rewrite elem_of_cons. naive_solver.
Qed.

(** X2: The enum validator over an array of strings is list membership for a
    string value; undefined is never a member of such an array, and an object
    or an array read from the response is never a member of any array of
    allowed values, since includes compares them by identity. *)
Theorem enum_is_membership (s : string) (allowed : list string)
    (items : list value) (props : list (string * value)) (others : list value) :
  validators_enum (JStr s) (Val (JArr (map JStr allowed)))
    = Normal (JBool (bool_decide (s ∈ allowed)))
  /\ validators_enum JUndefined (Val (JArr (map JStr allowed))) = Normal (JBool false)
  /\ validators_enum (JObj props) (Val (JArr items)) = Normal (JBool false)
  /\ validators_enum (JArr others) (Val (JArr items)) = Normal (JBool false).
Proof.
  unfold validators_enum. rewrite existsb_same_value_zero_str.
  repeat split; do 2 f_equal.
  - induction allowed as [|x l IH]; [done|]. by cbn.
  - induction items as [|x l IH]; [done|]. by destruct x.
  - induction items as [|x l IH]; [done|]. by destruct x.
Qed.

(** ** What a substitution reads and what it writes *)

Lemma replace_segments_agree (stored stored' : gmap string value) (segs : list segment) :
  (forall key, Placeholder key ∈ segs -> stored !! key = stored' !! key) ->
  replace_segments (stored_replacer stored) segs
  = replace_segments (stored_replacer stored') segs.
Proof.
  induction segs as [|[c|key] segs IH]; intros Hagree; [reflexivity| |].
  - rewrite !replace_segments_lit, IH; [reflexivity|].
    intros key Hin. apply Hagree. by right.
  - rewrite !replace_segments_placeholder, IH.
    + unfold stored_replacer. rewrite (Hagree key); [reflexivity | by left].
    + intros key' Hin. apply Hagree. by right.
Qed.

(** X3: Template substitution reads the stored data only at the keys that the
    pattern captures in the serialized content: two stores that agree on those
    keys give the same result, value or exception. *)
Theorem substitute_reads_referenced_keys (content : value)
    (stored stored' : gmap string value) :
  (forall key, key ∈ content_placeholders content -> stored !! key = stored' !! key) ->
  substitute content stored = substitute content stored'.
Proof.
  unfold substitute, content_placeholders, String_replace_stored.
  destruct (JSON_stringify content) as [text|]; [|reflexivity].
  intros Hagree. rewrite (replace_segments_agree stored stored'); [reflexivity|].
  intros key Hin. apply Hagree. by apply placeholder_keys_segments.
Qed.

Lemma substitute_reads_referenced_keys_witness :
  substitute (content order_body) {[ "accessToken" := JStr "abc123"; "cursor" := JNum 7 ]}
  = substitute (content order_body) {[ "accessToken" := JStr "abc123" ]}.
Proof.
  apply (substitute_reads_referenced_keys (content order_body)
           {[ "accessToken" := JStr "abc123"; "cursor" := JNum 7 ]}
           {[ "accessToken" := JStr "abc123" ]}).
  intros key Hin. vm_compute in Hin.
  inversion Hin as [|? ? ? Hnil]; [reflexivity | inversion Hnil].
Defined.

Lemma quote_body_app (a b : string) : quote_body (a +:+ b) = quote_body a +:+ quote_body b.
Proof.
  induction a as [|c a IH]; [reflexivity|].
  rewrite app_cons. cbn [quote_body]. rewrite IH, app_assoc_s. reflexivity.
Qed.

Lemma plain_char_quote (c : ascii) : plain_char c = true -> quote_char c = String c "".
Proof.
  destruct c as [[] [] [] [] [] [] [] []]; vm_compute; intros H; try reflexivity; discriminate H.
Qed.

Lemma plain_quote_body (s : string) : plain s = true -> quote_body s = s.
Proof.
  induction s as [|c s IH]; [reflexivity|]. cbn [plain quote_body].
  intros [Hc Hs]%andb_prop. rewrite (plain_char_quote c Hc), (IH Hs). reflexivity.
Qed.

Lemma plain_char_line (c : ascii) : plain_char c = true -> line_terminator c = false.
Proof.
  destruct c as [[] [] [] [] [] [] [] []]; vm_compute; intros H; try reflexivity; discriminate H.
Qed.

Lemma lazy_until_brace_key (key rest : string) :
  plain key = true -> mentions "}" key = false ->
  lazy_until_brace (key +:+ String "}" rest) = Some (key, rest).
Proof.
  induction key as [|c key IH]; [reflexivity|].
  cbn [plain mentions]. intros [Hc Hk]%andb_prop [Hb Hm]%orb_false_elim.
  rewrite app_cons. cbn [lazy_until_brace].
  assert (ascii_eqb c "}" = false) as ->.
  { destruct (ascii_eqb c "}") eqn:E; [|reflexivity].
    unfold ascii_eqb in *. apply Ascii.eqb_eq in E as ->. discriminate Hb. }
  rewrite (plain_char_line c Hc), (IH Hk Hm). reflexivity.
Qed.

Lemma match_here_key (key rest : string) :
  plain key = true -> mentions "}" key = false ->
  match_here ("${stored." +:+ key +:+ String "}" rest) = Some (key, rest).
Proof.
  intros Hk Hm. unfold match_here.
  change (expect "${stored." ("${stored." +:+ key +:+ String "}" rest))
    with (Some (key +:+ String "}" rest)).
  by apply lazy_until_brace_key.
Qed.

Lemma segments_lit_prefix (a b : string) :
  mentions "$" a = false ->
  segments (a +:+ b) = map Lit (list_ascii_of_string a) ++ segments b.
Proof.
  induction a as [|c a IH]; [reflexivity|].
  cbn [mentions]. intros [Hc Ha]%orb_false_elim.
  rewrite app_cons, scan_cons, (match_here_dollar c _ Hc), (IH Ha). reflexivity.
Qed.

Lemma replace_segments_lits replacer (a : string) (segs : list segment) :
  replace_segments replacer (map Lit (list_ascii_of_string a) ++ segs)
  = match replace_segments replacer segs with
    | Normal out => Normal (a +:+ out)
    | Throw e => Throw e
    end.
Proof.
  induction a as [|c a IH]; cbn [list_ascii_of_string map app].
  - by destruct (replace_segments replacer segs).
  - rewrite replace_segments_lit, IH. by destruct (replace_segments replacer segs).
Qed.

Lemma segments_placeholder (key rest : string) :
  plain key = true -> mentions "}" key = false ->
  segments ("${stored." +:+ key +:+ String "}" rest) = Placeholder key :: segments rest.
Proof.
  intros Hk Hbrace.
  change ("${stored." +:+ key +:+ String "}" rest)
    with (String "$" ("{stored." +:+ key +:+ String "}" rest)).
  rewrite scan_cons.
  change (String "$" ("{stored." +:+ key +:+ String "}" rest))
    with ("${stored." +:+ key +:+ String "}" rest).
  by rewrite match_here_key.
Qed.

(** One placeholder inside one string literal of a text that has no other
    dollar sign. *)
Lemma splice_text (stored : gmap string value) (left right before key after : string)
    (v : value) :
  mentions "$" left = false -> mentions "$" right = false ->
  mentions "$" before = false -> mentions "$" after = false ->
  plain key = true -> mentions "}" key = false ->
  stored !! key = Some v -> plain (ToString v) = true ->
  String_replace_stored
    (left +:+ QuoteJSONString (before +:+ "${stored." +:+ key +:+ "}" +:+ after) +:+ right)
    (stored_replacer stored)
  = Normal (left +:+ QuoteJSONString (before +:+ ToString v +:+ after) +:+ right).
Proof.
  intros Hl Hr Hb Ha Hk Hbrace Hv Hplain.
  unfold String_replace_stored, QuoteJSONString.
  rewrite !quote_body_app, (plain_quote_body key Hk), (plain_quote_body _ Hplain).
  change (quote_body "${stored.") with "${stored.". change (quote_body "}") with "}".
  rewrite (segments_lit_prefix left) by exact Hl.
  rewrite app_cons, scan_cons.
  change (match_here (String quote _)) with (@None (string * string)). cbv iota.
  rewrite !app_assoc_s.
  rewrite (segments_lit_prefix (quote_body before)) by (by rewrite quote_body_dollar).
  change ("}" +:+ ?x) with (String "}" x).
  rewrite (segments_placeholder key _ Hk Hbrace).
  pose proof (segments_lit_prefix (quote_body after +:+ String quote right) "") as Hrest.
  rewrite app_empty_r, app_nil_r in Hrest.
  rewrite !app_cons, app_empty_l, Hrest.
  2:{ rewrite mentions_app, quote_body_dollar, Ha. cbn [mentions]. exact Hr. }
  rewrite replace_segments_lits, replace_segments_lit, replace_segments_lits,
    replace_segments_placeholder.
  unfold stored_replacer at 1. rewrite Hv.
  pose proof (replace_segments_lits (stored_replacer stored)
                (quote_body after +:+ String quote right) []) as Hl'.
  rewrite app_nil_r in Hl'. rewrite Hl'. cbn [replace_segments].
  rewrite app_empty_r.
  rewrite (app_assoc_s (quote_body before)), (app_assoc_s (ToString v)),
    (app_assoc_s (quote_body after)).
  reflexivity.
Qed.

Lemma join_around (before after : list string) :
  exists left right : string,
    forall member, join "," (before ++ member :: after) = left +:+ member +:+ right.
Proof.
  induction before as [|x before (left & right & IH)].
  - exists "". destruct after as [|y after].
    + exists "". intros member. cbn. by rewrite app_empty_r.
    + exists ("," +:+ join "," (y :: after)). intros member. reflexivity.
  - exists (x +:+ "," +:+ left), right. intros member.
    rewrite !app_assoc_s, <- IH. by destruct before.
Qed.

Lemma serialize_around_field (pre post : list (string * value)) (name : string) :
  exists left right : string,
    forall s, JSON_serialize (JObj (pre ++ (name, JStr s) :: post))
              = Some (left +:+ QuoteJSONString s +:+ right).
Proof.
  destruct (join_around
              (omap (fun kv => (fun t => QuoteJSONString (fst kv) +:+ ":" +:+ t)
                                 <$> JSON_serialize (snd kv)) pre)
              (omap (fun kv => (fun t => QuoteJSONString (fst kv) +:+ ":" +:+ t)
                                 <$> JSON_serialize (snd kv)) post))
    as (left & right & Hjoin).
  exists ("{" +:+ left +:+ QuoteJSONString name +:+ ":"), (right +:+ "}").
  intros s. cbn [JSON_serialize]. rewrite omap_app.
  cbn [omap list_omap fst snd JSON_serialize fmap option_fmap option_map].
  rewrite Hjoin, !app_assoc_s. reflexivity.
Qed.

(** X4: In an object whose other fields are serializable and hold no dollar
    sign, a string field written before + [${stored.key}] + after (no other
    dollar sign, key without closing brace or character that JSON escapes)
    comes back as before + String(stored value) + after when the key is stored
    and the string form of its value needs no JSON escape; every other field
    comes back unchanged. A stored number is spliced in as text. *)
Theorem substitute_splices_stored_value (pre post : list (string * value))
    (name before key after : string) (v : value) (stored : gmap string value) :
  serializable (JObj (pre ++ (name, JStr "") :: post)) = true ->
  dollar_free (JObj (pre ++ (name, JStr "") :: post)) = true ->
  mentions "$" before = false ->
  mentions "$" after = false ->
  plain key = true ->
  mentions "}" key = false ->
  stored !! key = Some v ->
  plain (ToString v) = true ->
  substitute
    (JObj (pre ++ (name, JStr (before +:+ "${stored." +:+ key +:+ "}" +:+ after)) :: post))
    stored
  = Normal (JObj (pre ++ (name, JStr (before +:+ ToString v +:+ after)) :: post)).
Proof.
  intros Hser Hfree Hb Ha Hk Hbrace Hv Hplain.
  destruct (serialize_around_field pre post name) as (left & right & Htext).
  pose proof (JSON_serialize_dollar _ _ Hfree (Htext "")) as Hdollar.
  rewrite !mentions_app in Hdollar.
  apply orb_false_elim in Hdollar as [Hl [_ Hr]%orb_false_elim].
  unfold substitute, JSON_stringify. rewrite Htext.
  rewrite (splice_text stored left right before key after v) by assumption.
  cbn [mbind completion_bind]. apply JSON_parse_stringify; [|apply Htext].
  cbn [serializable] in *. rewrite !forallb_app, !map_app in *. exact Hser.
Qed.

Lemma substitute_splices_stored_value_witness :
  substitute
    (JObj ([("grant_type", JStr "refresh")]
           ++ ("auth", JStr ("Bearer " +:+ "${stored." +:+ "token" +:+ "}" +:+ "!"))
              :: [("retries", JNum 3)]))
    {[ "token" := JNum 42 ]}
  = Normal (JObj ([("grant_type", JStr "refresh")]
                  ++ ("auth", JStr ("Bearer " +:+ ToString (JNum 42) +:+ "!"))
                     :: [("retries", JNum 3)])).
Proof.
  apply (substitute_splices_stored_value [("grant_type", JStr "refresh")]
           [("retries", JNum 3)] "auth" "Bearer " "token" "!" (JNum 42)
           {[ "token" := JNum 42 ]}); vm_compute; reflexivity.
Defined.

(** ** The body by type *)

Lemma substitute_identity (content : value) (stored : gmap string value) :
  serializable content = true -> content_placeholders content = [] ->
  substitute content stored = Normal content.
Proof.
  intros Hser Hnone. unfold substitute, content_placeholders in *.
  destruct (serializable_serialized content Hser) as [text Htext].
  unfold JSON_stringify in *. rewrite Htext in Hnone |- *.
  rewrite (replace_without_match text _ Hnone). cbn [mbind completion_bind].
  apply JSON_parse_stringify; assumption.
Qed.

Lemma prepareRequestBody_unsupported (host : Host) (b : BodyConfig)
    (stored : gmap string value) (rt : Runtime) (processed : value) :
  body_type b <> "form-data" -> body_type b <> "x-www-form-urlencoded" ->
  body_type b <> "raw" ->
  substitute (content b) stored = Normal processed ->
  prepareRequestBody host (Some b) stored rt
  = (Throw (Error ("Unsupported body type: " +:+ body_type b)),
     with_effects rt [ConsoleError ("Error preparing request body: Unsupported body type: "
                                    +:+ body_type b)]).
Proof.
  intros H1%String.eqb_neq H2%String.eqb_neq H3%String.eqb_neq Hsub.
  unfold prepareRequestBody. rewrite try_catch_unfold. unfold lift.
  rewrite Hsub. cbn [mbind completion_bind]. rewrite H1, H2, H3.
  reflexivity.
Qed.

(** X5: A body whose type is none of form-data, x-www-form-urlencoded and raw
    always makes prepareRequestBody throw (Unsupported body type: <type> when
    the substitution itself succeeded), and handleRequest then returns
    normally having logged the two errors and added one failed_requests sample
    of 1, and nothing else: no call is sent. *)
Theorem unsupported_body_type_is_never_sent (host : Host) (endpoint : string)
    (endpointConfig : EndpointConfig) (b : BodyConfig) (rt : Runtime) :
  body endpointConfig = Some b ->
  body_type b <> "form-data" ->
  body_type b <> "x-www-form-urlencoded" ->
  body_type b <> "raw" ->
  exists e : exn,
    (forall processed, substitute (content b) (storedData rt) = Normal processed ->
                       e = Error ("Unsupported body type: " +:+ body_type b)) /\
    fst (prepareRequestBody host (Some b) (storedData rt) rt) = Throw e /\
    handleRequest host endpoint endpointConfig rt
    = (Normal tt,
       with_effects rt
         [ConsoleError ("Error preparing request body: " +:+ message e);
          ConsoleError ("Failed to prepare request body for " +:+ endpoint +:+ ": "
                        +:+ message e);
          MetricAdd failureRate (JNum 1) []]).
Proof.
  intros Hbody H1 H2 H3.
  destruct (substitute (content b) (storedData rt)) as [processed|e] eqn:Hsub.
  - exists (Error ("Unsupported body type: " +:+ body_type b)).
    pose proof (prepareRequestBody_unsupported host b (storedData rt) rt processed
                  H1 H2 H3 Hsub) as Hprep.
    split; [reflexivity|]. split; [by rewrite Hprep|].
    by apply (handleRequest_preparation_fails host endpoint endpointConfig b rt _ _ Hbody Hprep).
  - exists e.
    pose proof (prepareRequestBody_substitute_throws host b (storedData rt) rt e Hsub) as Hprep.
    split; [discriminate|]. split; [by rewrite Hprep|].
    by apply (handleRequest_preparation_fails host endpoint endpointConfig b rt _ _ Hbody Hprep).
Qed.

Lemma unsupported_body_type_is_never_sent_witness :
  exists e : exn,
    (forall processed,
        substitute (JStr "<a/>") (storedData seeded_run) = Normal processed ->
        e = Error "Unsupported body type: xml") /\
    fst (prepareRequestBody (scripted_host ok_response 5) (body xml_endpoint)
           (storedData seeded_run) seeded_run) = Throw e /\
    handleRequest (scripted_host ok_response 5) "putFeed" xml_endpoint seeded_run
    = (Normal tt,
       with_effects seeded_run
         [ConsoleError ("Error preparing request body: " +:+ message e);
          ConsoleError ("Failed to prepare request body for putFeed: " +:+ message e);
          MetricAdd failureRate (JNum 1) []]).
Proof.
  apply (unsupported_body_type_is_never_sent (scripted_host ok_response 5) "putFeed"
           xml_endpoint {| body_type := "xml"; content := JStr "<a/>"; contentType := None |}
           seeded_run); [reflexivity | discriminate | discriminate | discriminate].
Defined.

(** X6: For a raw body whose content is serializable and in whose serialized
    text the placeholder pattern has no match, prepareRequestBody returns
    exactly JSON.stringify(content) and leaves the run-time state as it was,
    whatever is stored. *)
Theorem raw_body_is_the_serialized_content (host : Host) (b : BodyConfig)
    (stored : gmap string value) (rt : Runtime) :
  body_type b = "raw" ->
  serializable (content b) = true ->
  content_placeholders (content b) = [] ->
  exists text : string,
    JSON_stringify (content b) = Some text /\
    prepareRequestBody host (Some b) stored rt = (Normal (BodyText text), rt).
Proof.
  intros Htype Hser Hnone.
  destruct (serializable_serialized _ Hser) as [text Htext].
  exists text. split; [exact Htext|].
  unfold prepareRequestBody. rewrite try_catch_unfold. unfold lift.
  rewrite (substitute_identity _ stored Hser Hnone). cbn [mbind completion_bind].
  rewrite Htype. cbn [String.eqb Ascii.eqb Bool.eqb]. cbv iota.
  unfold JSON_stringify. rewrite Htext. reflexivity.
Qed.

Lemma raw_body_is_the_serialized_content_witness :
  exists text : string,
    JSON_stringify plain_content = Some text /\
    prepareRequestBody (scripted_host ok_response 5)
      (Some {| body_type := "raw"; content := plain_content; contentType := None |})
      (storedData seeded_run) seeded_run
    = (Normal (BodyText text), seeded_run).
Proof.
  apply (raw_body_is_the_serialized_content (scripted_host ok_response 5)
           {| body_type := "raw"; content := plain_content; contentType := None |}
           (storedData seeded_run) seeded_run); vm_compute; reflexivity.
Defined.

(** X7: For an x-www-form-urlencoded body whose content is a serializable
    object without a pattern match, prepareRequestBody returns the entries in
    their order as key=encodeURIComponent(String(value)) joined by &: values
    are encoded, keys are not. *)
Theorem urlencoded_body_joins_the_entries (host : Host) (b : BodyConfig)
    (props : list (string * value)) (stored : gmap string value) (rt : Runtime) :
  body_type b = "x-www-form-urlencoded" ->
  content b = JObj props ->
  serializable (content b) = true ->
  content_placeholders (content b) = [] ->
  prepareRequestBody host (Some b) stored rt
  = (Normal (BodyText
       (join "&" (map (fun kv => fst kv +:+ "=" +:+
                         encodeURIComponent host (ToString (snd kv))) props))), rt).
Proof.
  intros Htype Hcontent Hser Hnone.
  unfold prepareRequestBody. rewrite try_catch_unfold. unfold lift.
  rewrite (substitute_identity _ stored Hser Hnone), Hcontent. cbn [mbind completion_bind].
  rewrite Htype. reflexivity.
Qed.

Lemma urlencoded_body_joins_the_entries_witness :
  prepareRequestBody (scripted_host ok_response 5) (body (getToken (JStr "c2VjcmV0")))
    (storedData fresh_run) fresh_run
  = (Normal (BodyText "grant_type=client_credentials"), fresh_run).
Proof.
  apply (urlencoded_body_joins_the_entries (scripted_host ok_response 5)
           {| body_type := "x-www-form-urlencoded";
              content := JObj [("grant_type", JStr "client_credentials")];
              contentType := None |}
           [("grant_type", JStr "client_credentials")] (storedData fresh_run) fresh_run);
    vm_compute; reflexivity.
Defined.

(** ** The steps of [handleRequest] *)

(** A request whose body was prepared runs the call, then the store step,
    then the checks. *)
Lemma handleRequest_phases (host : Host) (endpoint : string)
    (endpointConfig : EndpointConfig) (prepared : RequestBody) (rt rt1 : Runtime) :
  prepareRequestBody host (body endpointConfig) (storedData rt) rt = (Normal prepared, rt1) ->
  let call := request_call endpoint endpointConfig prepared in
  let response := fst (transport host (now rt) call) in
  let slow := isSlowRequest endpointConfig (snd (transport host (now rt) call)) in
  handleRequest host endpoint endpointConfig rt
  = (store_response endpoint endpointConfig response;;
     check_response host endpointConfig response slow)
      (after_call host endpoint endpointConfig prepared rt).
Proof.
  intros Hprep. pose proof (prepareRequestBody_normal_inv _ _ _ _ _ _ Hprep) as ->.
  unfold handleRequest. rewrite M_bind_unfold, try_catch_unfold.
  assert ((match body endpointConfig with
           | Some b =>
               stored ← get_storedData;
               prepared0 ← prepareRequestBody host (Some b) stored;
               mret (Some prepared0)
           | None => mret (Some BodyNull)
           end) rt = (Normal (Some prepared), rt)) as ->.
  { destruct (body endpointConfig) as [b|].
    - rewrite M_bind_unfold. unfold get_storedData at 1. rewrite M_bind_unfold, Hprep.
      reflexivity.
    - cbn in Hprep. injection Hprep as <-. reflexivity. }
  rewrite M_bind_unfold. unfold new_Date at 1.
  rewrite M_bind_unfold. unfold http at 1.
  unfold after_call.
  destruct (transport host (now rt) (request_call endpoint endpointConfig prepared))
    as [response dt] eqn:Ht. cbn [fst snd].
  rewrite M_bind_unfold. unfold new_Date at 1. cbn [now].
  rewrite M_bind_unfold. unfold metric_add at 1, emit at 1.
  cbn [storedData slowRequests effects now].
  rewrite M_bind_unfold. unfold metric_add at 1, emit at 1.
  cbn [storedData slowRequests effects now].
  replace (now rt + dt - now rt) with dt by lia.
  rewrite M_bind_unfold.
  destruct (isSlowRequest endpointConfig dt).
  - rewrite M_bind_unfold. unfold metric_add at 1, emit at 1, push_slowRequest at 1.
    cbn [storedData slowRequests effects now].
    rewrite <- ?app_assoc, ?app_nil_r. reflexivity.
  - unfold mret at 1, M_ret at 1. rewrite <- ?app_assoc, ?app_nil_r. reflexivity.
Qed.

(** ** Relations that every step keeps *)

Section Respects.
Variable R : Runtime -> Runtime -> Prop.
Variable Q : effect -> Prop.
Variable P : string -> Prop.
Hypothesis R_refl : forall rt, R rt rt.
Hypothesis R_trans : forall a b c, R a b -> R b c -> R a c.
Hypothesis R_emit : forall e, Q e -> respects R (emit e).
Hypothesis R_set : forall key v, P key -> respects R (set_stored key v).
Hypothesis Q_warn : forall text, Q (ConsoleWarn text).
Hypothesis Q_error : forall text, Q (ConsoleError text).
Hypothesis Q_validation : forall sample tags, Q (MetricAdd validationFailures sample tags).
Hypothesis Q_check : forall checks, Q (Check checks).
Hypothesis Q_failure : forall sample tags, Q (MetricAdd failureRate sample tags).
Hypothesis Q_sleep : forall seconds, Q (Sleep seconds).

Lemma respects_ret {A} (a : A) : respects R (mret a).
Proof. intros rt. apply R_refl. Qed.

Lemma respects_throw {A} (e : exn) : respects R (@throw A e).
Proof. intros rt. apply R_refl. Qed.

Lemma respects_lift {A} (c : completion A) : respects R (lift c).
Proof. intros rt. apply R_refl. Qed.

Lemma respects_bind {A B} (m : M A) (k : A -> M B) :
  respects R m -> (forall a, respects R (k a)) -> respects R (m ≫= k).
Proof.
  intros Hm Hk rt. rewrite M_bind_unfold. specialize (Hm rt).
  destruct (m rt) as [[a|e] rt']; cbn [snd] in *; [|exact Hm].
  eapply R_trans; [exact Hm | apply Hk].
Qed.

Lemma respects_try_catch {A} (m : M A) (handler : exn -> M A) :
  respects R m -> (forall e, respects R (handler e)) -> respects R (try_catch m handler).
Proof.
  intros Hm Hh rt. rewrite try_catch_unfold. specialize (Hm rt).
  destruct (m rt) as [[a|e] rt']; cbn [snd] in *; [exact Hm|].
  eapply R_trans; [exact Hm | apply Hh].
Qed.

Lemma respects_parseResponse (response : Response) (endpointConfig : option EndpointConfig) :
  respects R (parseResponse response endpointConfig).
Proof.
  unfold parseResponse. destruct (negb (truthy (r_body response))); [apply respects_ret|].
  apply respects_try_catch; [apply respects_lift|].
  intros e. destruct endpointConfig as [c|]; [|apply respects_throw].
  apply respects_bind; [apply R_emit, Q_warn | intros _; apply respects_ret].
Qed.

Lemma respects_validate_fields (host : Host) (responseBody : value)
    (expected : list (string * FieldDescriptor)) (results : gmap string value) :
  respects R (validate_fields host responseBody expected results).
Proof.
  revert results. induction expected as [|[field validation] rest IH]; intros results.
  - apply respects_ret.
  - cbn [validate_fields]. apply respects_bind; [apply respects_lift|]. intros v.
    destruct (validators host !! type validation) as [validator|].
    + apply respects_bind; [apply respects_lift|]. intros isValid.
      apply respects_bind; [|intros _; apply IH].
      destruct (truthy isValid); [apply respects_ret | apply R_emit, Q_validation].
    + apply respects_bind; [apply R_emit, Q_error | intros _; apply IH].
Qed.

Lemma respects_validateResponseContent (host : Host) (response : Response)
    (expected : list (string * FieldDescriptor)) :
  respects R (validateResponseContent host response expected).
Proof.
  unfold validateResponseContent. apply respects_bind; [apply respects_parseResponse|].
  intros responseBody. destruct (negb (truthy responseBody));
    [apply respects_ret | apply respects_validate_fields].
Qed.

Lemma respects_store_fields (responseBody : value) (pairs : list (string * string)) :
  Forall (fun pair => P (fst pair)) pairs -> respects R (store_fields responseBody pairs).
Proof.
  induction 1 as [|[key path] rest Hkey Hrest IH]; [apply respects_ret|].
  cbn [store_fields]. apply respects_bind; [apply respects_lift|]. intros v.
  apply respects_bind; [apply R_set, Hkey | intros _; exact IH].
Qed.

Lemma respects_store_response (endpoint : string) (endpointConfig : EndpointConfig)
    (response : Response) :
  (forall pairs, storeResponse endpointConfig = Some pairs ->
                 Forall (fun pair => P (fst pair)) pairs) ->
  respects R (store_response endpoint endpointConfig response).
Proof.
  intros Hkeys. unfold store_response.
  destruct (storeResponse endpointConfig) as [pairs|]; [|apply respects_ret].
  apply respects_try_catch; [|intros e; apply R_emit, Q_error].
  apply respects_bind; [apply respects_parseResponse|]. intros responseBody.
  destruct (truthy responseBody); [|apply respects_ret].
  apply respects_store_fields, Hkeys. reflexivity.
Qed.

Lemma respects_check_response (host : Host) (endpointConfig : EndpointConfig)
    (response : Response) (slow : bool) :
  respects R (check_response host endpointConfig response slow).
Proof.
  unfold check_response. apply respects_bind.
  - destruct (expectedContent endpointConfig) as [expected|]; [|apply respects_ret].
    apply respects_bind; [apply respects_validateResponseContent|].
    intros results. apply respects_ret.
  - intros checks. apply respects_bind; [apply R_emit, Q_check|]. intros _.
    apply respects_bind; [apply R_emit, Q_failure|]. intros _. apply R_emit, Q_sleep.
Qed.
End Respects.

Lemma respects_steps (R : Runtime -> Runtime -> Prop) (host : Host) (endpoint : string)
    (endpointConfig : EndpointConfig) (response : Response) (slow : bool) :
  (forall rt, R rt rt) -> (forall a b c, R a b -> R b c -> R a c) ->
  respects R (store_response endpoint endpointConfig response) ->
  respects R (check_response host endpointConfig response slow) ->
  respects R (store_response endpoint endpointConfig response;;
              check_response host endpointConfig response slow).
Proof.
  intros Hrefl Htrans Hstore Hcheck.
  apply (respects_bind R Htrans); [exact Hstore | intros _; exact Hcheck].
Qed.

(** ** What a request leaves in the shared state *)

(** X8: A call of handleRequest changes storedData at most at the keys of the
    endpoint's storeResponse: every other key holds after the call what it
    held before, whether the body preparation failed, the response was
    unreadable or a validator threw. *)
Theorem handleRequest_writes_only_declared_keys (host : Host) (endpoint : string)
    (endpointConfig : EndpointConfig) (rt : Runtime) (key : string) :
  (forall pairs, storeResponse endpointConfig = Some pairs -> key ∉ pairs.*1) ->
  storedData (snd (handleRequest host endpoint endpointConfig rt)) !! key
  = storedData rt !! key.
Proof.
  intros Hkey.
  destruct (prepareRequestBody host (body endpointConfig) (storedData rt) rt)
    as [[prepared|e] rt1] eqn:Hprep.
  - rewrite (handleRequest_phases host endpoint endpointConfig prepared rt rt1 Hprep).
    set (R := fun a b : Runtime => storedData b !! key = storedData a !! key).
    assert (Hrefl : forall a, R a a) by reflexivity.
    assert (Htrans : forall a b c, R a b -> R b c -> R a c).
    { unfold R. intros a b c Hab Hbc. by rewrite Hbc. }
    assert (Hemit : forall e, True -> respects R (emit e)) by (intros e _ a; reflexivity).
    assert (Hset : forall key' v, key' <> key -> respects R (set_stored key' v)).
    { intros key' v Hne a. unfold R. cbn. by apply lookup_insert_ne. }
    match goal with
    | |- storedData (snd (?m ?r)) !! key = _ =>
        assert (Hm : respects R m); [|exact (Hm r)]
    end.
    apply respects_steps; [exact Hrefl | exact Htrans | |].
    + apply (respects_store_response R (fun _ => True) (fun key' => key' <> key));
        try done.
      intros pairs Hpairs. specialize (Hkey pairs Hpairs).
      apply Forall_forall. intros [key' path'] Hin Heq. cbn [fst] in Heq. subst key'.
      apply Hkey. apply list_elem_of_fmap. by exists (key, path').
    + apply (respects_check_response R (fun _ => True)); done.
  - destruct (body endpointConfig) as [b|] eqn:Hbody; [|discriminate Hprep].
    by rewrite (handleRequest_preparation_fails host endpoint endpointConfig b rt rt1 e
                  Hbody Hprep).
Qed.

Lemma handleRequest_writes_only_declared_keys_witness :
  storedData (snd (handleRequest (scripted_host token_response 5) "getToken"
                     (getToken (JStr "c2VjcmV0")) seeded_run)) !! "refreshToken"
  = storedData seeded_run !! "refreshToken".
Proof.
  apply (handleRequest_writes_only_declared_keys (scripted_host token_response 5) "getToken"
           (getToken (JStr "c2VjcmV0")) seeded_run "refreshToken").
  intros pairs [= <-] Hin. cbn in Hin.
  inversion Hin as [|? ? ? Hnil]; inversion Hnil.
Defined.

Lemma sent_calls_app (rt : Runtime) (more : list effect) :
  sent_calls (with_effects rt more)
  = sent_calls rt ++ omap (fun e => match e with Http call => Some call | _ => None end) more.
Proof. unfold sent_calls, with_effects. cbn [effects]. apply omap_app. Qed.

Lemma respects_sent_steps (host : Host) (endpoint : string)
    (endpointConfig : EndpointConfig) (response : Response) (slow : bool) :
  respects (fun a b => sent_calls b = sent_calls a)
    (store_response endpoint endpointConfig response;;
     check_response host endpointConfig response slow).
Proof.
  set (R := fun a b : Runtime => sent_calls b = sent_calls a).
  set (Q := fun e : effect => forall call, e <> Http call).
  assert (Hrefl : forall a, R a a) by reflexivity.
  assert (Htrans : forall a b c, R a b -> R b c -> R a c).
  { unfold R. intros a b c Hab Hbc. by rewrite Hbc. }
  assert (Hemit : forall e, Q e -> respects R (emit e)).
  { intros e He a. unfold R, emit, sent_calls. cbn [snd effects]. rewrite omap_app.
    destruct e; cbn [omap list_omap]; try apply app_nil_r. by destruct (He call). }
  assert (Hset : forall key v, True -> respects R (set_stored key v)) by (intros ? ? _ a; reflexivity).
  apply respects_steps; [exact Hrefl | exact Htrans | |].
  - apply (respects_store_response R Q (fun _ => True)); try done.
    intros pairs _. by apply Forall_forall.
  - apply (respects_check_response R Q); done.
Qed.

(** X9: When the body preparation succeeds handleRequest sends exactly one
    HTTP call, the one built from the method, URL, prepared body, headers and
    tags: nothing is retried or sent again, whatever the response and also
    when a later step throws. *)
Theorem handleRequest_sends_exactly_one_call (host : Host) (endpoint : string)
    (endpointConfig : EndpointConfig) (prepared : RequestBody) (rt rt1 : Runtime) :
  prepareRequestBody host (body endpointConfig) (storedData rt) rt = (Normal prepared, rt1) ->
  sent_calls (snd (handleRequest host endpoint endpointConfig rt))
  = sent_calls rt ++ [request_call endpoint endpointConfig prepared].
Proof.
  intros Hprep.
  rewrite (handleRequest_phases host endpoint endpointConfig prepared rt rt1 Hprep).
  rewrite (respects_sent_steps host endpoint endpointConfig _ _ _).
  unfold sent_calls, after_call. cbn [effects]. rewrite !omap_app. cbn [omap list_omap].
  destruct (isSlowRequest _ _); cbn [omap list_omap]; by rewrite app_nil_r.
Qed.

Lemma handleRequest_sends_exactly_one_call_witness :
  sent_calls (snd (handleRequest (scripted_host not_found_response 5) "getToken"
                     (getToken (JStr "c2VjcmV0")) fresh_run))
  = sent_calls fresh_run
    ++ [request_call "getToken" (getToken (JStr "c2VjcmV0"))
          (BodyText "grant_type=client_credentials")].
Proof.
  apply (handleRequest_sends_exactly_one_call (scripted_host not_found_response 5) "getToken"
           (getToken (JStr "c2VjcmV0")) (BodyText "grant_type=client_credentials")
           fresh_run fresh_run).
  vm_compute. reflexivity.
Defined.

Lemma respects_slow_steps (host : Host) (endpoint : string)
    (endpointConfig : EndpointConfig) (response : Response) (slow : bool) :
  respects (fun a b => slowRequests b = slowRequests a)
    (store_response endpoint endpointConfig response;;
     check_response host endpointConfig response slow).
Proof.
  set (R := fun a b : Runtime => slowRequests b = slowRequests a).
  assert (Hrefl : forall a, R a a) by reflexivity.
  assert (Htrans : forall a b c, R a b -> R b c -> R a c).
  { unfold R. intros a b c Hab Hbc. by rewrite Hbc. }
  assert (Hemit : forall e, True -> respects R (emit e)) by (intros ? _ a; reflexivity).
  assert (Hset : forall key v, True -> respects R (set_stored key v)) by (intros ? ? _ a; reflexivity).
  apply respects_steps; [exact Hrefl | exact Htrans | |].
  - apply (respects_store_response R (fun _ => True) (fun _ => True)); try done.
    intros pairs _. by apply Forall_forall.
  - apply (respects_check_response R (fun _ => True)); done.
Qed.

(** X10: After a sent request slowRequests is the list it was, followed by one
    record when the measured duration is strictly above the slow threshold and
    by nothing otherwise; the record holds the endpoint, duration, start time,
    method, URL, response status and that threshold. *)
Theorem slow_request_is_recorded_once (host : Host) (endpoint : string)
    (endpointConfig : EndpointConfig) (prepared : RequestBody) (rt rt1 : Runtime)
    (response : Response) (elapsed : Z) :
  prepareRequestBody host (body endpointConfig) (storedData rt) rt = (Normal prepared, rt1) ->
  transport host (now rt) (request_call endpoint endpointConfig prepared)
  = (response, elapsed) ->
  slowRequests (snd (handleRequest host endpoint endpointConfig rt))
  = slowRequests rt ++
    (if slow_threshold endpointConfig <? elapsed
     then [{| sr_endpoint := endpoint; sr_duration := elapsed;
              sr_timestamp := Date_toISOString host (now rt);
              sr_method := method endpointConfig;
              sr_url := request_url endpointConfig;
              sr_status := status response;
              sr_threshold := slow_threshold endpointConfig |}]
     else []).
Proof.
  intros Hprep Ht.
  rewrite (handleRequest_phases host endpoint endpointConfig prepared rt rt1 Hprep).
  rewrite (respects_slow_steps host endpoint endpointConfig _ _ _).
  unfold after_call. cbn [slowRequests]. rewrite Ht. reflexivity.
Qed.

Lemma slow_request_is_recorded_once_witness :
  slowRequests (snd (handleRequest (scripted_host ok_response 1001) "orders"
                       impatient_endpoint fresh_run))
  = slowRequests fresh_run ++
    (if slow_threshold impatient_endpoint <? 1001
     then [{| sr_endpoint := "orders"; sr_duration := 1001;
              sr_timestamp := Date_toISOString (scripted_host ok_response 1001) (now fresh_run);
              sr_method := method impatient_endpoint;
              sr_url := request_url impatient_endpoint;
              sr_status := status ok_response;
              sr_threshold := slow_threshold impatient_endpoint |}]
     else []).
Proof.
  apply (slow_request_is_recorded_once (scripted_host ok_response 1001) "orders"
           impatient_endpoint BodyNull fresh_run fresh_run ok_response 1001);
    reflexivity.
Defined.

(** ** The store step *)

Lemma parseResponse_parsed (response : Response) (endpointConfig : option EndpointConfig)
    (v : value) (rt : Runtime) :
  truthy (r_body response) = true -> json response = Normal v ->
  parseResponse response endpointConfig rt = (Normal v, rt).
Proof.
  intros Hbody Hjson. unfold parseResponse. rewrite Hbody. cbn [negb].
  rewrite try_catch_unfold. unfold lift. rewrite Hjson. reflexivity.
Qed.

Lemma get_prop_truthy (o : value) (k : string) :
  truthy o = true -> exists v, get_prop o k = Normal v.
Proof.
  destruct o; cbn [truthy get_prop]; try discriminate; intros _;
    try (destruct (String.eqb k "length")); eexists; reflexivity.
Qed.

Lemma store_fields_returns (responseBody : value) (pairs : list (string * string))
    (rt : Runtime) :
  truthy responseBody = true -> fst (store_fields responseBody pairs rt) = Normal tt.
Proof.
  intros Htruthy. revert rt. induction pairs as [|[key path] rest IH]; intros rt;
    [reflexivity|].
  cbn [store_fields]. destruct (get_prop_truthy responseBody path Htruthy) as [v Hv].
  rewrite M_bind_unfold. unfold lift at 1. rewrite Hv.
  rewrite M_bind_unfold. unfold set_stored at 1. apply IH.
Qed.

Lemma store_fields_frame (responseBody : value) (pairs : list (string * string))
    (rt : Runtime) (key : string) :
  key ∉ pairs.*1 ->
  storedData (snd (store_fields responseBody pairs rt)) !! key = storedData rt !! key.
Proof.
  intros Hkey.
  set (R := fun a b : Runtime => storedData b !! key = storedData a !! key).
  assert (Hm : respects R (store_fields responseBody pairs)); [|exact (Hm rt)].
  apply (respects_store_fields R (fun key' => key' <> key)).
  - reflexivity.
  - unfold R. intros a b c Hab Hbc. by rewrite Hbc.
  - intros key' v Hne a. unfold R. cbn. by apply lookup_insert_ne.
  - apply Forall_forall. intros [key' path'] Hin Heq. cbn [fst] in Heq. subst key'.
    apply Hkey. apply list_elem_of_fmap. by exists (key, path').
Qed.

Lemma store_fields_lookup (responseBody : value) (pairs : list (string * string))
    (rt : Runtime) (key path : string) (v : value) :
  truthy responseBody = true ->
  NoDup pairs.*1 -> (key, path) ∈ pairs -> get_prop responseBody path = Normal v ->
  storedData (snd (store_fields responseBody pairs rt)) !! key = Some v.
Proof.
  intros Htruthy Hnodup Hin Hv. revert rt.
  induction pairs as [|[key' path'] rest IH]; intros rt; [by inversion Hin|].
  cbn [fmap list_fmap fst] in Hnodup. apply NoDup_cons in Hnodup as [Hfresh Hnodup].
  cbn [store_fields].
  apply elem_of_cons in Hin as [[= <- <-]|Hin].
  - rewrite M_bind_unfold. unfold lift at 1. rewrite Hv.
    rewrite M_bind_unfold. unfold set_stored at 1.
    rewrite (store_fields_frame _ _ _ key Hfresh). cbn [storedData].
    apply lookup_insert_eq.
  - rewrite M_bind_unfold. unfold lift at 1.
    destruct (get_prop_truthy responseBody path' Htruthy) as [v' ->].
    rewrite M_bind_unfold. unfold set_stored at 1. by apply IH.
Qed.

Lemma check_response_keeps_stored (host : Host) (endpointConfig : EndpointConfig)
    (response : Response) (slow : bool) (rt : Runtime) :
  storedData (snd (check_response host endpointConfig response slow rt)) = storedData rt.
Proof.
  set (R := fun a b : Runtime => storedData b = storedData a).
  assert (Hm : respects R (check_response host endpointConfig response slow));
    [|exact (Hm rt)].
  apply (respects_check_response R (fun _ => True)); try done.
  unfold R. intros a b c Hab Hbc. by rewrite Hbc.
Qed.

(** X11: When the response has a non-empty body that parses to a truthy value
    and storeResponse has distinct keys, then after handleRequest each
    declared key holds the value of its response field (undefined when the
    field is missing), whatever the checks after the store step do. *)
Theorem stored_value_is_the_response_field (host : Host) (endpoint : string)
    (endpointConfig : EndpointConfig) (prepared : RequestBody) (rt rt1 : Runtime)
    (response : Response) (elapsed : Z) (pairs : list (string * string))
    (responseBody v : value) (key path : string) :
  prepareRequestBody host (body endpointConfig) (storedData rt) rt = (Normal prepared, rt1) ->
  transport host (now rt) (request_call endpoint endpointConfig prepared)
  = (response, elapsed) ->
  storeResponse endpointConfig = Some pairs ->
  NoDup pairs.*1 ->
  (key, path) ∈ pairs ->
  truthy (r_body response) = true ->
  json response = Normal responseBody ->
  truthy responseBody = true ->
  get_prop responseBody path = Normal v ->
  storedData (snd (handleRequest host endpoint endpointConfig rt)) !! key = Some v.
Proof.
  intros Hprep Ht Hpairs Hnodup Hin Hbody Hjson Htruthy Hv.
  rewrite (handleRequest_phases host endpoint endpointConfig prepared rt rt1 Hprep).
  rewrite Ht. cbn [fst snd]. rewrite M_bind_unfold.
  unfold store_response at 1. rewrite Hpairs, try_catch_unfold, M_bind_unfold.
  rewrite (parseResponse_parsed response _ responseBody _ Hbody Hjson), Htruthy.
  pose proof (store_fields_returns responseBody pairs
                (after_call host endpoint endpointConfig prepared rt) Htruthy) as Hret.
  pose proof (store_fields_lookup responseBody pairs
                (after_call host endpoint endpointConfig prepared rt) key path v
                Htruthy Hnodup Hin Hv) as Hlook.
  destruct (store_fields responseBody pairs _) as [[[]|e] rt2]; [|discriminate Hret].
  cbn [snd] in Hlook. rewrite check_response_keeps_stored. exact Hlook.
Qed.

Lemma stored_value_is_the_response_field_witness :
  storedData (snd (handleRequest (scripted_host token_response 5) "getToken"
                     (getToken (JStr "c2VjcmV0")) fresh_run)) !! "accessToken"
  = Some (JStr "abc123").
Proof.
  apply (stored_value_is_the_response_field (scripted_host token_response 5) "getToken"
           (getToken (JStr "c2VjcmV0")) (BodyText "grant_type=client_credentials")
           fresh_run fresh_run token_response 5 [("accessToken", "access_token")]
           (JObj [("access_token", JStr "abc123"); ("expires_in", JNum 3600);
                  ("token_type", JStr "Bearer")])
           (JStr "abc123") "accessToken" "access_token");
    try (vm_compute; reflexivity).
  - apply NoDup_cons. split; [intros Hin; inversion Hin | apply NoDup_nil_2].
  - left.
Defined.

Lemma store_response_returns (endpoint : string) (endpointConfig : EndpointConfig)
    (response : Response) (rt : Runtime) :
  fst (store_response endpoint endpointConfig response rt) = Normal tt.
Proof.
  unfold store_response. destruct (storeResponse endpointConfig) as [pairs|]; [|reflexivity].
  rewrite try_catch_unfold.
  match goal with
  | |- context [match ?run with _ => _ end] => destruct run as [[[]|e] rt']
  end; reflexivity.
Qed.

(** X12: When the response body is empty, is not JSON, or parses to a falsy
    value, handleRequest leaves storedData exactly as it was: the store step
    is skipped and its exception, if any, does not escape the step. *)
Theorem unreadable_response_stores_nothing (host : Host) (endpoint : string)
    (endpointConfig : EndpointConfig) (prepared : RequestBody) (rt rt1 : Runtime)
    (response : Response) (elapsed : Z) :
  prepareRequestBody host (body endpointConfig) (storedData rt) rt = (Normal prepared, rt1) ->
  transport host (now rt) (request_call endpoint endpointConfig prepared)
  = (response, elapsed) ->
  truthy (r_body response) = false
  \/ (exists e, json response = Throw e)
  \/ (exists v, json response = Normal v /\ truthy v = false) ->
  storedData (snd (handleRequest host endpoint endpointConfig rt)) = storedData rt.
Proof.
  intros Hprep Ht Hbad.
  rewrite (handleRequest_phases host endpoint endpointConfig prepared rt rt1 Hprep).
  rewrite Ht. cbn [fst snd]. rewrite M_bind_unfold.
  pose proof (store_response_returns endpoint endpointConfig response
                (after_call host endpoint endpointConfig prepared rt)) as Hret.
  assert (storedData (snd (store_response endpoint endpointConfig response
                             (after_call host endpoint endpointConfig prepared rt)))
          = storedData rt) as Hkeep.
  { unfold store_response. destruct (storeResponse endpointConfig) as [pairs|];
      [|reflexivity].
    rewrite try_catch_unfold, M_bind_unfold. unfold parseResponse.
    destruct (truthy (r_body response)) eqn:Hbody; cbn [negb]; [|reflexivity].
    rewrite try_catch_unfold. unfold lift at 1.
    destruct Hbad as [Hb|[[e He]|(v & Hv & Hfalsy)]]; [discriminate Hb| |].
    - rewrite He. reflexivity.
    - rewrite Hv, Hfalsy. reflexivity. }
  destruct (store_response endpoint endpointConfig response _) as [[[]|e] rt2];
    [|discriminate Hret].
  cbn [snd] in Hkeep. rewrite check_response_keeps_stored. exact Hkeep.
Qed.

Lemma unreadable_response_stores_nothing_witness :
  storedData (snd (handleRequest (scripted_host html_response 5) "getToken"
                     (getToken (JStr "c2VjcmV0")) seeded_run))
  = storedData seeded_run.
Proof.
  apply (unreadable_response_stores_nothing (scripted_host html_response 5) "getToken"
           (getToken (JStr "c2VjcmV0")) (BodyText "grant_type=client_credentials")
           seeded_run seeded_run html_response 5); [reflexivity | reflexivity |].
  right. left. eexists. reflexivity.
Defined.

(** ** The checks *)

Lemma base_checks_all_pass (a b : bool) :
  forallb truthy
    (map snd (map_to_list ({[ "status is as expected" := JBool a;
                              "response time is within limits" := JBool b ]}
                           : gmap string value)))
  = a && b.
Proof. destruct a, b; vm_compute; reflexivity. Qed.

Lemma check_response_without_content (host : Host) (endpointConfig : EndpointConfig)
    (response : Response) (slow : bool) (rt : Runtime) :
  expectedContent endpointConfig = None ->
  check_response host endpointConfig response slow rt
  = (Normal tt,
     with_effects rt
       [Check {[ "status is as expected" :=
                   JBool (status response =? or_number (expectedStatus endpointConfig) 200);
                 "response time is within limits" := JBool (negb slow) ]};
        MetricAdd failureRate
          (JBool (negb ((status response =? or_number (expectedStatus endpointConfig) 200)
                        && negb slow))) [];
        Sleep 1]).
Proof.
  intros Hnone. unfold check_response. rewrite Hnone.
  rewrite M_bind_unfold. unfold mret at 1, M_ret at 1.
  rewrite base_checks_all_pass.
  unfold metric_add, emit, mbind, M_bind, with_effects. cbn [effects storedData slowRequests now].
  rewrite <- !app_assoc. reflexivity.
Qed.

Lemma samples_app (metric : string) (rt : Runtime) (more : list effect) :
  samples metric (with_effects rt more)
  = samples metric rt ++ samples metric (with_effects fresh_run more).
Proof. unfold samples, with_effects. cbn [effects]. by rewrite omap_app. Qed.

Lemma store_response_keeps_samples (metric endpoint : string)
    (endpointConfig : EndpointConfig) (response : Response) (rt : Runtime) :
  samples metric (snd (store_response endpoint endpointConfig response rt))
  = samples metric rt.
Proof.
  set (R := fun a b : Runtime => samples metric b = samples metric a).
  set (Q := fun e : effect => match e with MetricAdd _ _ _ => False | _ => True end).
  assert (Hm : respects R (store_response endpoint endpointConfig response));
    [|exact (Hm rt)].
  apply (respects_store_response R Q (fun _ => True)); try done.
  - unfold R. intros a b c Hab Hbc. by rewrite Hbc.
  - intros e He a. unfold R, emit, samples. cbn [snd effects]. rewrite omap_app.
    destruct e; cbn [omap list_omap]; try apply app_nil_r. destruct He.
  - intros pairs _. by apply Forall_forall.
Qed.

Lemma after_call_samples (metric : string) (host : Host) (endpoint : string)
    (endpointConfig : EndpointConfig) (prepared : RequestBody) (rt : Runtime) :
  metric = failureRate \/ metric = validationFailures ->
  samples metric (after_call host endpoint endpointConfig prepared rt) = samples metric rt.
Proof.
  intros Hmetric. unfold samples, after_call. cbn [effects]. rewrite !omap_app.
  destruct (isSlowRequest _ _); destruct Hmetric as [-> | ->]; cbn; by rewrite !app_nil_r.
Qed.

(** X13: For an endpoint without expectedContent a sent request always returns
    normally and adds exactly one failed_requests sample: true unless the
    status equals the expected status (200 by default) and the request is not
    slow. *)
Theorem request_without_content_checks_counts_once (host : Host) (endpoint : string)
    (endpointConfig : EndpointConfig) (prepared : RequestBody) (rt rt1 : Runtime)
    (response : Response) (elapsed : Z) :
  prepareRequestBody host (body endpointConfig) (storedData rt) rt = (Normal prepared, rt1) ->
  transport host (now rt) (request_call endpoint endpointConfig prepared)
  = (response, elapsed) ->
  expectedContent endpointConfig = None ->
  fst (handleRequest host endpoint endpointConfig rt) = Normal tt /\
  samples failureRate (snd (handleRequest host endpoint endpointConfig rt))
  = samples failureRate rt ++
    [JBool (negb ((status response =? or_number (expectedStatus endpointConfig) 200)
                  && negb (slow_threshold endpointConfig <? elapsed)))].
Proof.
  intros Hprep Ht Hnone.
  rewrite (handleRequest_phases host endpoint endpointConfig prepared rt rt1 Hprep).
  rewrite Ht. cbn [fst snd]. rewrite M_bind_unfold.
  pose proof (store_response_returns endpoint endpointConfig response
                (after_call host endpoint endpointConfig prepared rt)) as Hret.
  pose proof (store_response_keeps_samples failureRate endpoint endpointConfig response
                (after_call host endpoint endpointConfig prepared rt)) as Hkeep.
  destruct (store_response endpoint endpointConfig response _) as [[[]|e] rt2];
    [|discriminate Hret].
  cbn [snd] in Hkeep.
  rewrite (check_response_without_content host endpointConfig response _ rt2 Hnone).
  split; [reflexivity|]. cbn [snd]. rewrite samples_app, Hkeep.
  f_equal. apply after_call_samples. by left.
Qed.

Lemma request_without_content_checks_counts_once_witness :
  fst (handleRequest (scripted_host not_found_response 5) "ping" (blank_endpoint "/ping")
         fresh_run) = Normal tt /\
  samples failureRate (snd (handleRequest (scripted_host not_found_response 5) "ping"
                              (blank_endpoint "/ping") fresh_run))
  = samples failureRate fresh_run ++
    [JBool (negb ((status not_found_response
                   =? or_number (expectedStatus (blank_endpoint "/ping")) 200)
                  && negb (slow_threshold (blank_endpoint "/ping") <? 5)))].
Proof.
  apply (request_without_content_checks_counts_once (scripted_host not_found_response 5)
           "ping" (blank_endpoint "/ping") BodyNull fresh_run fresh_run
           not_found_response 5); reflexivity.
Defined.

(** ** Thresholds and scenario parameters *)

Lemma add_endpoint_keeps_plain_keys (acc : Options) (entry : string * EndpointConfig)
    (k : string) :
  mentions "{" k = false ->
  opt_thresholds (add_endpoint acc entry) !! k = opt_thresholds acc !! k.
Proof.
  intros Hk. destruct entry as [endpoint endpointConfig].
  assert (Hne : forall a b, a +:+ "{endpoint:" +:+ b <> k).
  { intros a b <-. rewrite mentions_app in Hk. cbn in Hk.
    by rewrite orb_true_r in Hk. }
  unfold add_endpoint. cbn [opt_thresholds].
  set (th1 := match _ ≫= responseTime with Some _ => _ | None => _ end).
  assert (Hth1 : th1 !! k = opt_thresholds acc !! k).
  { subst th1. destruct (_ ≫= responseTime) as [t|]; [|reflexivity].
    destruct (t =? 0); [reflexivity|]. apply lookup_insert_ne.
    apply (Hne "http_req_duration" (endpoint +:+ "}")). }
  destruct (_ ≫= thresholds) as [custom|]; [|exact Hth1].
  clearbody th1. revert th1 Hth1.
  induction custom as [|[metric conditions] custom IH]; intros th1 Hth1; [exact Hth1|].
  cbn [fold_left]. apply IH. rewrite lookup_insert_ne; [exact Hth1|].
  cbn [fst]. apply (Hne metric (endpoint +:+ "}")).
Qed.

Lemma fold_add_endpoint_keeps_plain_keys (entries : list (string * EndpointConfig))
    (acc : Options) (k : string) :
  mentions "{" k = false ->
  opt_thresholds (fold_left add_endpoint entries acc) !! k = opt_thresholds acc !! k.
Proof.
  intros Hk. revert acc. induction entries as [|entry entries IH]; intros acc; [reflexivity|].
  cbn [fold_left]. rewrite IH. by apply add_endpoint_keeps_plain_keys.
Qed.

(** X14: Whatever the registry and the filter, buildOptions keeps the global
    thresholds http_req_failed: rate<0.01 and http_req_duration: p(95)<1000:
    every threshold an endpoint adds is keyed with an {endpoint:...} selector,
    so no key without a brace is ever changed. *)
Theorem default_thresholds_survive (registry : list (string * EndpointConfig))
    (targetEndpoints : option (list string)) :
  opt_thresholds (buildOptions registry targetEndpoints) !! "http_req_failed"
  = Some ["rate<0.01"] /\
  opt_thresholds (buildOptions registry targetEndpoints) !! "http_req_duration"
  = Some ["p(95)<1000"] /\
  forall k : string,
    mentions "{" k = false ->
    opt_thresholds (buildOptions registry targetEndpoints) !! k
    = (list_to_map (d_thresholds (defaultTestConfig globalConfig))
       : gmap string (list string)) !! k.
Proof.
  unfold buildOptions. repeat split; intros; by rewrite fold_add_endpoint_keeps_plain_keys.
Qed.

Lemma fold_add_endpoint_scenarios_frame (entries : list (string * EndpointConfig))
    (acc : Options) (name : string) :
  name ∉ entries.*1 ->
  scenarios (fold_left add_endpoint entries acc) !! name = scenarios acc !! name.
Proof.
  revert acc. induction entries as [|[endpoint endpointConfig] entries IH]; intros acc Hname;
    [reflexivity|].
  cbn [fmap list_fmap fst] in Hname. apply not_elem_of_cons in Hname as [Hne Hname].
  cbn [fold_left]. rewrite IH by exact Hname.
  cbn [add_endpoint scenarios]. by apply lookup_insert_ne.
Qed.

Lemma selected_entries (registry : list (string * EndpointConfig))
    (targetEndpoints : option (list string)) (name : string)
    (endpointConfig : EndpointConfig) :
  NoDup registry.*1 -> (name, endpointConfig) ∈ registry ->
  (forall targets, targetEndpoints = Some targets -> name ∈ targets) ->
  exists entries,
    buildOptions registry targetEndpoints = fold_left add_endpoint entries initial_options /\
    NoDup entries.*1 /\ (name, endpointConfig) ∈ entries /\
    (forall entry, entry ∈ entries -> entry ∈ registry).
Proof.
  intros Hnodup Hin Hsel. unfold buildOptions. destruct targetEndpoints as [targets|].
  - eexists. split; [reflexivity|]. split; [|split].
    + eapply sublist_NoDup; [exact Hnodup|]. apply fmap_sublist, sublist_filter.
    + apply list_elem_of_filter. split; [|exact Hin]. cbn [fst]. by apply Hsel.
    + intros entry [_ He]%list_elem_of_filter. exact He.
  - exists registry. by repeat split.
Qed.

(** X15: For a registry with distinct keys, the scenario of a selected
    endpoint is constant-vus with exec default, env SCENARIO the endpoint key,
    vus the endpoint's config.vus or 1 when it is absent or 0, and duration
    the endpoint's config.duration or 30s when it is absent or empty. *)
Theorem scenario_load_is_declared_or_default (registry : list (string * EndpointConfig))
    (targetEndpoints : option (list string)) (name : string)
    (endpointConfig : EndpointConfig) :
  NoDup registry.*1 ->
  (name, endpointConfig) ∈ registry ->
  (forall targets, targetEndpoints = Some targets -> name ∈ targets) ->
  scenarios (buildOptions registry targetEndpoints) !! name
  = Some {| executor := "constant-vus";
            sc_vus := or_number (c ← config endpointConfig; vus c) 1;
            sc_duration := or_string (c ← config endpointConfig; duration c) "30s";
            exec := "default";
            env_SCENARIO := name |}.
Proof.
  intros Hnodup Hin Hsel.
  destruct (selected_entries registry targetEndpoints name endpointConfig Hnodup Hin Hsel)
    as (entries & -> & Hnd & He & _).
  generalize initial_options. induction entries as [|[endpoint c] entries IH]; intros acc;
    [by inversion He|].
  cbn [fmap list_fmap fst] in Hnd. apply NoDup_cons in Hnd as [Hfresh Hnd].
  cbn [fold_left]. apply elem_of_cons in He as [[= <- <-]|He].
  - rewrite fold_add_endpoint_scenarios_frame by exact Hfresh.
    cbn [add_endpoint scenarios]. by rewrite lookup_insert_eq.
  - by apply IH.
Qed.

Lemma scenario_load_is_declared_or_default_witness :
  scenarios (buildOptions (endpoints (JStr "c2VjcmV0")) (Some ["getToken"; "getAccounts"]))
    !! "getToken"
  = Some {| executor := "constant-vus"; sc_vus := 2; sc_duration := "1m";
            exec := "default"; env_SCENARIO := "getToken" |}.
Proof.
  apply (scenario_load_is_declared_or_default (endpoints (JStr "c2VjcmV0"))
           (Some ["getToken"; "getAccounts"]) "getToken" (getToken (JStr "c2VjcmV0"))).
  - apply NoDup_cons. split; [intros Hin; inversion Hin | apply NoDup_nil_2].
  - left.
  - intros targets [= <-]. left.
Defined.

Lemma string_app_inv_tail (a b c : string) : a +:+ c = b +:+ c -> a = b.
Proof.
  revert b. induction a as [|x a IH]; intros [|y b] H; [reflexivity| | |].
  - apply (f_equal String.length) in H. rewrite app_empty_l, length_app_s in H.
    cbn in H. lia.
  - apply (f_equal String.length) in H. rewrite app_empty_l, length_app_s in H.
    cbn in H. lia.
  - rewrite !app_cons in H. injection H as -> H. f_equal. by apply IH.
Qed.

Lemma endpoint_key_inj (metric a b : string) :
  metric +:+ "{endpoint:" +:+ a +:+ "}" = metric +:+ "{endpoint:" +:+ b +:+ "}" -> a = b.
Proof.
  intros H. apply String.app_inj in H. apply (String.app_inj "{endpoint:") in H.
  by apply string_app_inv_tail in H.
Qed.

Lemma add_endpoint_threshold_other (acc : Options) (endpoint name : string)
    (endpointConfig : EndpointConfig) :
  endpoint <> name -> (c ← config endpointConfig; thresholds c) = None ->
  opt_thresholds (add_endpoint acc (endpoint, endpointConfig))
    !! ("http_req_duration{endpoint:" +:+ name +:+ "}")
  = opt_thresholds acc !! ("http_req_duration{endpoint:" +:+ name +:+ "}").
Proof.
  intros Hne Hcustom. unfold add_endpoint. cbn [opt_thresholds]. rewrite Hcustom.
  destruct (_ ≫= responseTime) as [t|]; [|reflexivity].
  destruct (t =? 0); [reflexivity|]. apply lookup_insert_ne.
  intros H. apply (endpoint_key_inj "http_req_duration") in H. by apply Hne.
Qed.

Lemma fold_add_endpoint_threshold_other (entries : list (string * EndpointConfig))
    (acc : Options) (name : string) :
  name ∉ entries.*1 ->
  Forall (fun entry => (c ← config (snd entry); thresholds c) = None) entries ->
  opt_thresholds (fold_left add_endpoint entries acc)
    !! ("http_req_duration{endpoint:" +:+ name +:+ "}")
  = opt_thresholds acc !! ("http_req_duration{endpoint:" +:+ name +:+ "}").
Proof.
  revert acc. induction entries as [|[endpoint c] entries IH]; intros acc Hname Hplain;
    [reflexivity|].
  cbn [fmap list_fmap fst] in Hname. apply not_elem_of_cons in Hname as [Hne Hname].
  apply Forall_cons in Hplain as [Hc Hplain].
  cbn [fold_left]. rewrite IH by assumption.
  apply add_endpoint_threshold_other; [congruence | exact Hc].
Qed.

(** X16: For a registry with distinct keys whose endpoints declare no
    thresholds of their own, the threshold http_req_duration{endpoint:NAME} of
    a selected endpoint is [p(95)<T] when the endpoint declares a non-zero
    response time T, and is absent when it declares none or zero. *)
Theorem response_time_becomes_the_endpoint_threshold
    (registry : list (string * EndpointConfig)) (targetEndpoints : option (list string))
    (name : string) (endpointConfig : EndpointConfig) :
  NoDup registry.*1 ->
  Forall (fun entry => (c ← config (snd entry); thresholds c) = None) registry ->
  (name, endpointConfig) ∈ registry ->
  (forall targets, targetEndpoints = Some targets -> name ∈ targets) ->
  opt_thresholds (buildOptions registry targetEndpoints)
    !! ("http_req_duration{endpoint:" +:+ name +:+ "}")
  = match c ← config endpointConfig; responseTime c with
    | Some t => if t =? 0 then None else Some ["p(95)<" +:+ Number_toString t]
    | None => None
    end.
Proof.
  intros Hnodup Hplain Hin Hsel.
  destruct (selected_entries registry targetEndpoints name endpointConfig Hnodup Hin Hsel)
    as (entries & -> & Hnd & He & Hsub).
  assert (Hplain' : Forall (fun entry => (c ← config (snd entry); thresholds c) = None)
                      entries).
  { apply Forall_forall. intros entry Hentry.
    by apply (proj1 (Forall_forall _ _) Hplain), Hsub. }
  clear Hplain Hsub Hnodup Hin Hsel.
  assert (Hinit : opt_thresholds initial_options
                    !! ("http_req_duration{endpoint:" +:+ name +:+ "}") = None).
  { cbn [opt_thresholds initial_options globalConfig defaultTestConfig d_thresholds
           list_to_map foldr].
    cbn [fst snd curry]. rewrite !lookup_insert_ne by discriminate. apply lookup_empty. }
  revert Hinit. generalize initial_options.
  induction entries as [|[endpoint c] entries IH]; intros acc Hinit; [by inversion He|].
  cbn [fmap list_fmap fst] in Hnd. apply NoDup_cons in Hnd as [Hfresh Hnd].
  apply Forall_cons in Hplain' as [Hc Hplain'].
  cbn [fold_left]. apply elem_of_cons in He as [[= <- <-]|He].
  - rewrite fold_add_endpoint_threshold_other by assumption.
    unfold add_endpoint. cbn [opt_thresholds]. cbn [snd] in Hc. rewrite Hc.
    destruct (_ ≫= responseTime) as [t|]; [|exact Hinit].
    destruct (t =? 0); [exact Hinit|]. apply lookup_insert_eq.
  - apply IH; try assumption.
    rewrite add_endpoint_threshold_other; [exact Hinit | | exact Hc].
    intros ->. apply Hfresh. apply list_elem_of_fmap. by exists (name, endpointConfig).
Qed.

(** ** Responses that cannot be read *)

(** X17: Called with the endpoint, parseResponse never throws and changes
    nothing but the console: it returns the parsed value for a non-empty JSON
    body, null without a log for an empty body, and null after one warning
    naming the endpoint path and the parser's message for a body that is not
    JSON. *)
Theorem parseResponse_with_endpoint_never_raises (response : Response)
    (endpointConfig : EndpointConfig) (rt : Runtime) :
  exists (v : value) (more : list effect),
    parseResponse response (Some endpointConfig) rt = (Normal v, with_effects rt more) /\
    (json response = Normal v /\ truthy (r_body response) = true /\ more = []
     \/ v = JNull /\ truthy (r_body response) = false /\ more = []
     \/ v = JNull /\ exists e,
          json response = Throw e /\
          more = [ConsoleWarn ("Failed to parse response as JSON for endpoint "
                               +:+ path endpointConfig +:+ ": " +:+ message e)]).
Proof.
  assert (Hsame : with_effects rt [] = rt).
  { destruct rt. unfold with_effects. cbn. by rewrite app_nil_r. }
  unfold parseResponse. destruct (truthy (r_body response)) eqn:Hbody; cbn [negb].
  - rewrite try_catch_unfold. unfold lift. destruct (json response) as [v|e] eqn:Hjson.
    + exists v, []. rewrite Hsame. split; [reflexivity|]. left. by repeat split.
    + eexists JNull, _. split; [reflexivity|]. right. right.
      split; [reflexivity|]. by exists e.
  - exists JNull, []. rewrite Hsame. split; [reflexivity|]. right. left. by repeat split.
Qed.

Lemma validateResponseContent_unparsed (host : Host) (response : Response)
    (expected : list (string * FieldDescriptor)) (rt : Runtime) :
  truthy (r_body response) = false
  \/ (exists v, json response = Normal v /\ truthy v = false) ->
  validateResponseContent host response expected rt
  = (Normal {[ "response parsing" := JBool false ]}, rt).
Proof.
  intros Hbad. unfold validateResponseContent, parseResponse. rewrite M_bind_unfold.
  destruct (truthy (r_body response)) eqn:Hbody; cbn [negb]; [|reflexivity].
  destruct Hbad as [Hb|(v & Hv & Hfalsy)]; [discriminate Hb|].
  rewrite try_catch_unfold. unfold lift at 1. rewrite Hv, Hfalsy. reflexivity.
Qed.

Lemma failed_parsing_check_fails (a b : bool) :
  forallb truthy
    (map snd (map_to_list (({[ "response parsing" := JBool false ]} : gmap string value)
                           ∪ {[ "status is as expected" := JBool a;
                                "response time is within limits" := JBool b ]})))
  = false.
Proof. destruct a, b; vm_compute; reflexivity. Qed.

Lemma check_response_unparsed (host : Host) (endpointConfig : EndpointConfig)
    (response : Response) (slow : bool) (expected : list (string * FieldDescriptor))
    (rt : Runtime) :
  expectedContent endpointConfig = Some expected ->
  truthy (r_body response) = false
  \/ (exists v, json response = Normal v /\ truthy v = false) ->
  check_response host endpointConfig response slow rt
  = (Normal tt,
     with_effects rt
       [Check ({[ "response parsing" := JBool false ]}
               ∪ {[ "status is as expected" :=
                      JBool (status response
                             =? or_number (expectedStatus endpointConfig) 200);
                    "response time is within limits" := JBool (negb slow) ]});
        MetricAdd failureRate (JBool true) [];
        Sleep 1]).
Proof.
  intros Hexpected Hbad. unfold check_response. rewrite Hexpected.
  rewrite M_bind_unfold. rewrite M_bind_unfold.
  rewrite (validateResponseContent_unparsed host response expected rt Hbad).
  unfold mret at 1, M_ret at 1. rewrite failed_parsing_check_fails.
  unfold metric_add, emit, mbind, M_bind, with_effects.
  cbn [effects storedData slowRequests now negb].
  rewrite <- !app_assoc. reflexivity.
Qed.

(** X18: For an endpoint with expectedContent, a response whose body is empty
    or parses to a falsy value (0, false, null, the empty string) makes the
    request count as failed: handleRequest returns normally, adds the
    failed_requests sample true and no validation_failures sample, since no
    field validator runs. *)
Theorem unparsed_body_fails_the_content_check (host : Host) (endpoint : string)
    (endpointConfig : EndpointConfig) (prepared : RequestBody) (rt rt1 : Runtime)
    (response : Response) (elapsed : Z) (expected : list (string * FieldDescriptor)) :
  prepareRequestBody host (body endpointConfig) (storedData rt) rt = (Normal prepared, rt1) ->
  transport host (now rt) (request_call endpoint endpointConfig prepared)
  = (response, elapsed) ->
  expectedContent endpointConfig = Some expected ->
  truthy (r_body response) = false
  \/ (exists v, json response = Normal v /\ truthy v = false) ->
  fst (handleRequest host endpoint endpointConfig rt) = Normal tt /\
  samples failureRate (snd (handleRequest host endpoint endpointConfig rt))
  = samples failureRate rt ++ [JBool true] /\
  samples validationFailures (snd (handleRequest host endpoint endpointConfig rt))
  = samples validationFailures rt.
Proof.
  intros Hprep Ht Hexpected Hbad.
  rewrite (handleRequest_phases host endpoint endpointConfig prepared rt rt1 Hprep).
  rewrite Ht. cbn [fst snd]. rewrite M_bind_unfold.
  pose proof (store_response_returns endpoint endpointConfig response
                (after_call host endpoint endpointConfig prepared rt)) as Hret.
  pose proof (store_response_keeps_samples failureRate endpoint endpointConfig response
                (after_call host endpoint endpointConfig prepared rt)) as Hfail.
  pose proof (store_response_keeps_samples validationFailures endpoint endpointConfig
                response (after_call host endpoint endpointConfig prepared rt)) as Hval.
  rewrite after_call_samples in Hfail by (by left).
  rewrite after_call_samples in Hval by (by right).
  destruct (store_response endpoint endpointConfig response _) as [[[]|e] rt2];
    [|discriminate Hret].
  cbn [snd] in Hfail, Hval.
  rewrite (check_response_unparsed host endpointConfig response _ expected rt2
             Hexpected Hbad).
  cbn [fst snd]. rewrite (samples_app failureRate), (samples_app validationFailures), Hfail, Hval.
  split; [reflexivity|]. split; [reflexivity|]. apply app_nil_r.
Qed.

Lemma unparsed_body_fails_the_content_check_witness :
  fst (handleRequest (scripted_host falsy_response 5) "getToken"
         (getToken (JStr "c2VjcmV0")) fresh_run) = Normal tt /\
  samples failureRate (snd (handleRequest (scripted_host falsy_response 5) "getToken"
                              (getToken (JStr "c2VjcmV0")) fresh_run))
  = samples failureRate fresh_run ++ [JBool true] /\
  samples validationFailures (snd (handleRequest (scripted_host falsy_response 5) "getToken"
                                     (getToken (JStr "c2VjcmV0")) fresh_run))
  = samples validationFailures fresh_run.
Proof.
  apply (unparsed_body_fails_the_content_check (scripted_host falsy_response 5) "getToken"
           (getToken (JStr "c2VjcmV0")) (BodyText "grant_type=client_credentials")
           fresh_run fresh_run falsy_response 5
           (default [] (expectedContent (getToken (JStr "c2VjcmV0")))));
    [reflexivity | reflexivity | reflexivity |].
  right. exists (JNum 0). split; reflexivity.
Defined.

(** ** The default function *)



Lemma response_time_becomes_the_endpoint_threshold_witness :
  opt_thresholds (buildOptions [("ping", impatient_endpoint); ("accounts", budget_endpoint)]
                    None)
    !! "http_req_duration{endpoint:accounts}"
  = Some ["p(95)<500"].
Proof.
  apply (response_time_becomes_the_endpoint_threshold
           [("ping", impatient_endpoint); ("accounts", budget_endpoint)] None
           "accounts" budget_endpoint).
  - apply (bool_decide_unpack _). vm_compute. exact I.
  - repeat constructor.
  - right. left.
  - intros targets Hsome. discriminate Hsome.
Defined.

(** X20: An endpoint's own thresholds (distinct metric names) are written
    after its response-time threshold: for each declared metric the key
    METRIC{endpoint:NAME} holds the declared conditions, so a declared
    http_req_duration replaces the p(95) threshold derived from responseTime. *)
Theorem custom_threshold_is_set_last (acc : Options) (endpoint : string)
    (endpointConfig : EndpointConfig) (custom : list (string * list string))
    (metric : string) (conditions : list string) :
  (c ← config endpointConfig; thresholds c) = Some custom ->
  NoDup custom.*1 ->
  (metric, conditions) ∈ custom ->
  opt_thresholds (add_endpoint acc (endpoint, endpointConfig))
    !! (metric +:+ "{endpoint:" +:+ endpoint +:+ "}")
  = Some conditions.
Proof.
  intros Hcustom Hnodup Hin. unfold add_endpoint. cbn [opt_thresholds]. rewrite Hcustom.
  generalize (match c ← config endpointConfig; responseTime c with
              | Some t =>
                  if t =? 0 then opt_thresholds acc
                  else <["http_req_duration{endpoint:" +:+ endpoint +:+ "}"
                         := ["p(95)<" +:+ Number_toString t]]> (opt_thresholds acc)
              | None => opt_thresholds acc
              end).
  assert (Hframe : forall (rest : list (string * list string))
                          (th : gmap string (list string)),
             metric ∉ rest.*1 ->
             fold_left (fun th mc => <[fst mc +:+ "{endpoint:" +:+ endpoint +:+ "}" := snd mc]> th)
                       rest th !! (metric +:+ "{endpoint:" +:+ endpoint +:+ "}")
             = th !! (metric +:+ "{endpoint:" +:+ endpoint +:+ "}")).
  { induction rest as [|[m cs] rest IH]; intros th Hm; [reflexivity|].
    cbn [fmap list_fmap fst] in Hm. apply not_elem_of_cons in Hm as [Hne Hm].
    cbn [fold_left]. rewrite IH by exact Hm. apply lookup_insert_ne.
    cbn [fst]. intros H. apply string_app_inv_tail in H. congruence. }
  clear Hcustom.
  induction custom as [|[m cs] custom IH]; intros th; [by inversion Hin|].
  cbn [fmap list_fmap fst] in Hnodup. apply NoDup_cons in Hnodup as [Hfresh Hnodup].
  cbn [fold_left]. apply elem_of_cons in Hin as [[= <- <-]|Hin].
  - rewrite Hframe by exact Hfresh. apply lookup_insert_eq.
  - apply IH; assumption.
Qed.

(** ** Field validation *)



(** X22: A declared field of type text, number, boolean, array or object that
    the response does not hold is recorded as FIELD is valid: false, one
    validation_failures sample tagged with the field and the type is added,
    and validation goes on with the remaining fields. *)
Theorem missing_field_fails_its_type_check (host : Host) (responseBody : value)
    (field : string) (d : FieldDescriptor) (rest : list (string * FieldDescriptor))
    (results : gmap string value) (rt : Runtime) :
  get_prop responseBody field = Normal JUndefined ->
  type d ∈ ["text"; "number"; "boolean"; "array"; "object"] ->
  validate_fields host responseBody ((field, d) :: rest) results rt
  = validate_fields host responseBody rest
      (<[field +:+ " is valid" := JBool false]> results)
      (with_effects rt
         [MetricAdd validationFailures (JNum 1)
            [("field", JStr field); ("type", JStr (type d))]]).
Proof.
  intros Hmissing Htype. cbn [validate_fields].
  rewrite M_bind_unfold. unfold lift at 1. rewrite Hmissing.
  assert (Hcase : exists validator,
             validators host !! type d = Some validator /\
             validator JUndefined (values d) = Normal (JBool false)).
  { repeat (apply elem_of_cons in Htype as [->|Htype]); [..|by inversion Htype].
    - by exists validators_text.
    - by exists validators_number.
    - by exists validators_boolean.
    - by exists validators_array.
    - by exists validators_object. }
  destruct Hcase as (validator & -> & Hfalse).
  rewrite M_bind_unfold. unfold lift at 1. rewrite Hfalse.
  rewrite M_bind_unfold. reflexivity.
Qed.

Lemma custom_threshold_is_set_last_witness :
  opt_thresholds (add_endpoint initial_options ("payments", tuned_endpoint))
    !! "http_req_duration{endpoint:payments}"
  = Some ["p(99)<800"].
Proof.
  apply (custom_threshold_is_set_last initial_options "payments" tuned_endpoint
           [("http_req_duration", ["p(99)<800"]); ("http_req_failed", ["rate<0.05"])]
           "http_req_duration" ["p(99)<800"]).
  - reflexivity.
  - apply (bool_decide_unpack _). vm_compute. exact I.
  - left.
Defined.


Lemma missing_field_fails_its_type_check_witness :
  validate_fields (scripted_host not_found_response 5)
    (JObj [("error", JStr "not found")])
    [("access_token", field "text"); ("expires_in", field "number")] ∅ fresh_run
  = validate_fields (scripted_host not_found_response 5)
      (JObj [("error", JStr "not found")]) [("expires_in", field "number")]
      (<["access_token" +:+ " is valid" := JBool false]> ∅)
      (with_effects fresh_run
         [MetricAdd validationFailures (JNum 1)
            [("field", JStr "access_token"); ("type", JStr (type (field "text")))]]).
Proof.
  apply (missing_field_fails_its_type_check (scripted_host not_found_response 5)
           (JObj [("error", JStr "not found")]) "access_token" (field "text")
           [("expires_in", field "number")] ∅ fresh_run).
  - reflexivity.
  - left.
Defined.

(** ** Tags *)

Lemma string_of_uint_no_e (u : Decimal.uint) :
  mentions "e" (NilEmpty.string_of_uint u) = false.
Proof. induction u; cbn [NilEmpty.string_of_uint mentions]; [reflexivity | exact IHu ..]. Qed.

Lemma Number_toString_no_e (z : Z) : mentions "e" (Number_toString z) = false.
Proof.
  unfold Number_toString, NilZero.string_of_int, NilZero.string_of_uint.
  destruct (Z.to_int z) as [u|u]; [|cbn [mentions]];
    (destruct u; [reflexivity | apply string_of_uint_no_e ..]).
Qed.

Lemma Number_toString_inj (a b : Z) : Number_toString a = Number_toString b -> a = b.
Proof.
  unfold Number_toString. intros H.
  assert (Hinj : Z.to_int a = Z.to_int b -> a = b).
  { destruct a as [|p|p], b as [|q|q]; cbn [Z.to_int]; intros Heq; try reflexivity;
      try discriminate Heq; injection Heq as Hpq;
      try (by apply DecimalPos.Unsigned.to_uint_nonzero in Hpq);
      try (symmetry in Hpq; by apply DecimalPos.Unsigned.to_uint_nonzero in Hpq);
      by apply DecimalPos.Unsigned.to_uint_inj in Hpq as ->. }
  apply Hinj.
  assert (Hgood : forall z, NilZero.int_of_string (NilZero.string_of_int (Z.to_int z))
                            = Some (Z.to_int z)).
  { intros z. apply NilZero.isi; destruct z as [|p|p]; cbn [Z.to_int]; try discriminate;
      intros [= Hnil]; by apply DecimalPos.Unsigned.to_uint_nonnil in Hnil. }
  pose proof (Hgood a) as Ha. rewrite H, Hgood in Ha. by injection Ha.
Qed.

Lemma lookup_indexed (g : nat -> string) (l : list string) :
  (forall i j, g i = g j -> i = j) ->
  forall i, (list_to_map (imap (fun j t => (g j, t)) l) : gmap string string) !! g i = l !! i.
Proof.
  revert g. induction l as [|x l IH]; intros g Hinj i; [by rewrite lookup_nil|].
  cbn [imap list_to_map foldr]. destruct i as [|i].
  - cbn. by rewrite lookup_insert_eq.
  - cbn [lookup list_lookup]. rewrite lookup_insert_ne by (intros H; by apply Hinj in H).
    apply (IH (g ∘ S)). intros a b H. apply Hinj in H. by injection H.
Qed.

Lemma lookup_indexed_other (g : nat -> string) (l : list string) (k : string) :
  (forall i, g i <> k) ->
  (list_to_map (imap (fun j t => (g j, t)) l) : gmap string string) !! k = None.
Proof.
  revert g. induction l as [|x l IH]; intros g Hk; [reflexivity|].
  cbn [imap list_to_map foldr]. cbn. rewrite lookup_insert_ne by apply Hk.
  apply (IH (g ∘ S)). intros i. apply Hk.
Qed.

(** X23: Every call carries the tag endpoint with the endpoint's key: the
    declared tags are an array, so spreading them adds them under the keys 0,
    1, 2, ... in order and can never replace the endpoint tag. *)
Theorem endpoint_tag_is_never_overridden (endpoint : string)
    (endpointConfig : EndpointConfig) (prepared : RequestBody) :
  p_tags (call_params (request_call endpoint endpointConfig prepared)) !! "endpoint"
  = Some endpoint /\
  forall i : nat,
    p_tags (call_params (request_call endpoint endpointConfig prepared))
      !! Number_toString (Z.of_nat i)
    = tags endpointConfig !! i.
Proof.
  assert (p_tags (call_params (request_call endpoint endpointConfig prepared))
          = p_tags (request_params endpoint endpointConfig)) as ->.
  { unfold request_call. by destruct (String.eqb (method endpointConfig) "GET"). }
  assert (Hne : forall i : nat, Number_toString (Z.of_nat i) <> "endpoint").
  { intros i H. pose proof (Number_toString_no_e (Z.of_nat i)) as He.
    rewrite H in He. discriminate He. }
  cbn [p_tags request_params]. split.
  - rewrite lookup_union_r; [apply lookup_singleton_eq|].
    by apply (lookup_indexed_other (fun j => Number_toString (Z.of_nat j))).
  - intros i. rewrite lookup_union_l.
    + apply (lookup_indexed (fun j => Number_toString (Z.of_nat j))).
      intros a b H. apply Number_toString_inj in H. lia.
    + apply lookup_singleton_ne. intros H. by apply (Hne i).
Qed.

(** ** The endpoint selection from the environment *)

Lemma split_on_plain (x : string) : mentions "," x = false -> split_on "," x = [x].
Proof.
  induction x as [|c x IH]; [reflexivity|]. cbn [mentions split_on].
  intros [Hc Hx]%orb_false_elim.
  assert (ascii_eqb c "," = false) as ->.
  { unfold ascii_eqb in *. destruct (Ascii.eqb_spec c ",") as [->|]; [discriminate Hc|done]. }
  by rewrite (IH Hx).
Qed.

Lemma split_on_first (x rest : string) :
  mentions "," x = false ->
  split_on "," (x +:+ "," +:+ rest) = x :: split_on "," rest.
Proof.
  induction x as [|c x IH]; [reflexivity|]. cbn [mentions].
  intros [Hc Hx]%orb_false_elim. rewrite app_cons. cbn [split_on].
  assert (ascii_eqb c "," = false) as ->.
  { unfold ascii_eqb in *. destruct (Ascii.eqb_spec c ",") as [->|]; [discriminate Hc|done]. }
  by rewrite (IH Hx).
Qed.

Lemma split_on_join (names : list string) :
  names <> [] -> Forall (fun name => mentions "," name = false) names ->
  split_on "," (join "," names) = names.
Proof.
  intros Hne Hplain. induction Hplain as [|x rest Hx Hrest IH]; [done|].
  destruct rest as [|y rest]; [by apply split_on_plain|].
  change (join "," (x :: y :: rest)) with (x +:+ "," +:+ join "," (y :: rest)).
  rewrite (split_on_first _ _ Hx), IH; done.
Qed.

Lemma join_not_empty (names : list string) :
  names <> [] -> names <> [""] -> join "," names <> "".
Proof.
  intros Hne Hblank. destruct names as [|x [|y rest]]; [done| |].
  - cbn [join]. congruence.
  - change (join "," (x :: y :: rest)) with (x +:+ "," +:+ join "," (y :: rest)).
    intros H. apply (f_equal String.length) in H. rewrite !length_app_s in H.
    cbn in H. lia.
Qed.

(** X24: TARGET_ENDPOINTS set to comma-free names joined by commas selects
    exactly those names, split at the commas without trimming, and the
    exported options have a scenario for exactly the registry endpoints among
    them; when the variable is unset or empty every registry endpoint gets a
    scenario. *)
Theorem target_endpoints_variable_selects_scenarios
    (registry : list (string * EndpointConfig)) (names : list string) :
  names <> [] ->
  names <> [""] ->
  Forall (fun name => mentions "," name = false) names ->
  targetEndpoints (Some (join "," names)) = Some names /\
  dom (o_scenarios (options registry (Some (join "," names))))
  = list_to_set (map fst registry) ∩ list_to_set names /\
  dom (o_scenarios (options registry None)) = list_to_set (map fst registry) /\
  dom (o_scenarios (options registry (Some ""))) = list_to_set (map fst registry).
Proof.
  intros Hne Hblank Hplain.
  assert (Hsel : targetEndpoints (Some (join "," names)) = Some names).
  { unfold targetEndpoints. apply join_not_empty in Hblank; [|exact Hne].
    apply String.eqb_neq in Hblank. by rewrite Hblank, split_on_join. }
  split; [exact Hsel|]. unfold options. cbn [o_scenarios]. rewrite Hsel. split; [|split].
  - unfold buildOptions. rewrite fold_add_endpoint_scenarios.
    cbn [scenarios initial_options]. apply set_eq. intros k.
    rewrite dom_empty_L, elem_of_union, elem_of_intersection, !elem_of_list_to_set,
      !list_elem_of_fmap.
    split.
    + intros [Hk|(entry & -> & [Ht Hin]%list_elem_of_filter)]; [set_solver|].
      split; [exists entry; split; [reflexivity | exact Hin] | exact Ht].
    + intros [(entry & -> & Hin) Ht]. right. exists entry. split; [reflexivity|].
      apply list_elem_of_filter. split; assumption.
  - cbn [targetEndpoints]. unfold buildOptions. rewrite fold_add_endpoint_scenarios.
    cbn [scenarios initial_options]. set_solver.
  - cbn [targetEndpoints String.eqb]. unfold buildOptions.
    rewrite fold_add_endpoint_scenarios. cbn [scenarios initial_options]. set_solver.
Qed.

Lemma target_endpoints_variable_selects_scenarios_witness :
  targetEndpoints (Some "getToken,getAccountConsents")
  = Some ["getToken"; "getAccountConsents"] /\
  dom (o_scenarios (options (endpoints (JStr "c2VjcmV0"))
                      (Some "getToken,getAccountConsents")))
  = list_to_set (map fst (endpoints (JStr "c2VjcmV0")))
    ∩ list_to_set ["getToken"; "getAccountConsents"] /\
  dom (o_scenarios (options (endpoints (JStr "c2VjcmV0")) None))
  = list_to_set (map fst (endpoints (JStr "c2VjcmV0"))) /\
  dom (o_scenarios (options (endpoints (JStr "c2VjcmV0")) (Some "")))
  = list_to_set (map fst (endpoints (JStr "c2VjcmV0"))).
Proof.
  apply (target_endpoints_variable_selects_scenarios (endpoints (JStr "c2VjcmV0"))
           ["getToken"; "getAccountConsents"]).
  - discriminate.
  - discriminate.
  - repeat constructor.
Defined.

(** ** The names of the checks *)

Lemma validate_fields_other_keys (host : Host) (responseBody : value)
    (expected : list (string * FieldDescriptor)) (results final : gmap string value)
    (rt rt' : Runtime) (k : string) :
  (forall field, k <> field +:+ " is valid") ->
  (forall field, k <> field +:+ " validation") ->
  validate_fields host responseBody expected results rt = (Normal final, rt') ->
  final !! k = results !! k.
Proof.
  intros Hvalid Hvalidation. revert results rt.
  induction expected as [|[field d] rest IH]; intros results rt.
  - cbn. by intros [= <- _].
  - cbn [validate_fields]. rewrite M_bind_unfold. unfold lift at 1.
    destruct (get_prop responseBody field) as [v|e]; [|discriminate].
    destruct (validators host !! type d) as [validator|].
    + rewrite M_bind_unfold. unfold lift at 1.
      destruct (validator v (values d)) as [isValid|e]; [|discriminate].
      rewrite M_bind_unfold.
      destruct (truthy isValid).
      * unfold mret at 1, M_ret at 1. intros Hrun%IH. rewrite Hrun.
        apply lookup_insert_ne. intros H. by apply (Hvalid field).
      * unfold metric_add at 1, emit at 1. intros Hrun%IH. rewrite Hrun.
        apply lookup_insert_ne. intros H. by apply (Hvalid field).
    + rewrite M_bind_unfold. unfold emit at 1. intros Hrun%IH. rewrite Hrun.
      apply lookup_insert_ne. intros H. by apply (Hvalidation field).
Qed.

Lemma base_check_names_are_reserved (field : string) :
  "status is as expected" <> field +:+ " is valid" /\
  "status is as expected" <> field +:+ " validation" /\
  "response time is within limits" <> field +:+ " is valid" /\
  "response time is within limits" <> field +:+ " validation".
Proof.
  repeat split; intros H;
    repeat (destruct field as [|? field]; [discriminate H|];
            cbn in H; injection H as _ H);
    destruct field; discriminate H.
Qed.

(** X25: Whatever validateResponseContent returns, it holds no entry named
    status is as expected or response time is within limits, so merging it
    into the checks never replaces the status check or the response-time
    check, even when a declared field has one of these names. *)
Theorem content_results_never_shadow_base_checks (host : Host) (response : Response)
    (expected : list (string * FieldDescriptor)) (rt rt' : Runtime)
    (results : gmap string value) (base : gmap string value) :
  validateResponseContent host response expected rt = (Normal results, rt') ->
  (results ∪ base) !! "status is as expected" = base !! "status is as expected" /\
  (results ∪ base) !! "response time is within limits"
  = base !! "response time is within limits".
Proof.
  intros Hrun.
  assert (results !! "status is as expected" = None /\
          results !! "response time is within limits" = None) as [H1 H2].
  { unfold validateResponseContent in Hrun. rewrite M_bind_unfold in Hrun.
    destruct (parseResponse response None rt) as [[responseBody|e] rt1];
      [|discriminate Hrun].
    destruct (negb (truthy responseBody)).
    - injection Hrun as <- _. split; by apply lookup_singleton_ne.
    - split.
      + rewrite (validate_fields_other_keys host responseBody expected ∅ results rt1 rt'
                   "status is as expected"); [apply lookup_empty | | | exact Hrun];
          intros field; apply (base_check_names_are_reserved field).
      + rewrite (validate_fields_other_keys host responseBody expected ∅ results rt1 rt'
                   "response time is within limits");
          [apply lookup_empty | | | exact Hrun];
          intros field; apply (base_check_names_are_reserved field). }
  split; by apply lookup_union_r.
Qed.

Lemma content_results_never_shadow_base_checks_witness :
  exists results rt',
    validateResponseContent (scripted_host token_response 5) token_response
      [("status is as expected", field "text"); ("access_token", field "text")]
      fresh_run = (Normal results, rt') /\
    (results ∪ {[ "status is as expected" := JBool true ]}) !! "status is as expected"
    = ({[ "status is as expected" := JBool true ]} : gmap string value)
        !! "status is as expected" /\
    (results ∪ {[ "status is as expected" := JBool true ]})
      !! "response time is within limits"
    = ({[ "status is as expected" := JBool true ]} : gmap string value)
        !! "response time is within limits".
Proof.
  eexists _, _. split; [vm_compute; reflexivity|].
  eapply (content_results_never_shadow_base_checks (scripted_host token_response 5)
            token_response
            [("status is as expected", field "text"); ("access_token", field "text")]
            fresh_run).
  vm_compute. reflexivity.
Defined.

(** ** Every declared field reaches its validator *)

Lemma last_char_differs (a b : string) (x y : ascii) :
  x <> y -> a +:+ String x "" <> b +:+ String y "".
Proof.
  intros Hxy. revert b. induction a as [|c a IH]; intros [|c' b] H.
  - injection H as H. by apply Hxy.
  - rewrite app_empty_l, app_cons in H. injection H as _ H. by destruct b.
  - rewrite app_empty_l, app_cons in H. injection H as _ H. by destruct a.
  - rewrite !app_cons in H. injection H as _ H. by apply (IH b).
Qed.

Lemma check_names_differ (a b : string) : a +:+ " is valid" <> b +:+ " validation".
Proof.
  change " is valid" with (" is vali" +:+ "d"). change " validation" with (" validatio" +:+ "n").
  rewrite <- !app_assoc_s. by apply last_char_differs.
Qed.

Lemma check_name_inj (host : Host) (entry entry' : string * FieldDescriptor) :
  check_name host entry = check_name host entry' -> fst entry = fst entry'.
Proof.
  unfold check_name.
  destruct (validators host !! type (snd entry)), (validators host !! type (snd entry'));
    intros H.
  - by apply string_app_inv_tail in H.
  - by apply check_names_differ in H.
  - symmetry in H. by apply check_names_differ in H.
  - by apply string_app_inv_tail in H.
Qed.

(** The loop writes under the names of the declared fields only. *)
Lemma validate_fields_frame (host : Host) (responseBody : value)
    (expected : list (string * FieldDescriptor)) (results final : gmap string value)
    (rt rt' : Runtime) (k : string) :
  (forall entry, entry ∈ expected -> k <> check_name host entry) ->
  validate_fields host responseBody expected results rt = (Normal final, rt') ->
  final !! k = results !! k.
Proof.
  revert results rt. induction expected as [|[field d] rest IH]; intros results rt Hk.
  - cbn. by intros [= <- _].
  - assert (Hrest : forall entry, entry ∈ rest -> k <> check_name host entry).
    { intros entry Hin. apply Hk. by right. }
    assert (Hhead : k <> check_name host (field, d)) by (apply Hk; left).
    unfold check_name in Hhead. cbn [fst snd] in Hhead.
    cbn [validate_fields]. rewrite M_bind_unfold. unfold lift at 1.
    destruct (get_prop responseBody field) as [v|e]; [|discriminate].
    destruct (validators host !! type d) as [validator|].
    + rewrite M_bind_unfold. unfold lift at 1.
      destruct (validator v (values d)) as [isValid|e]; [|discriminate].
      rewrite M_bind_unfold.
      destruct (truthy isValid).
      * unfold mret at 1, M_ret at 1. intros Hrun. rewrite (IH _ _ Hrest Hrun).
        by apply lookup_insert_ne.
      * unfold metric_add at 1, emit at 1. intros Hrun. rewrite (IH _ _ Hrest Hrun).
        by apply lookup_insert_ne.
    + rewrite M_bind_unfold. unfold emit at 1. intros Hrun. rewrite (IH _ _ Hrest Hrun).
      by apply lookup_insert_ne.
Qed.

(** When no selected validator raises, the loop returns, and the result of
    each declared field is what its validator made of the field's value and
    the descriptor's [values]. *)
Lemma validate_fields_each (host : Host) (responseBody : value)
    (expected : list (string * FieldDescriptor)) (results : gmap string value)
    (rt : Runtime) :
  truthy responseBody = true ->
  NoDup expected.*1 ->
  (forall field d validate v,
      (field, d) ∈ expected -> validators host !! type d = Some validate ->
      get_prop responseBody field = Normal v ->
      exists isValid, validate v (values d) = Normal isValid) ->
  exists (final : gmap string value) (rt' : Runtime),
    validate_fields host responseBody expected results rt = (Normal final, rt') /\
    forall field d validate,
      (field, d) ∈ expected -> validators host !! type d = Some validate ->
      exists v isValid,
        get_prop responseBody field = Normal v /\
        validate v (values d) = Normal isValid /\
        final !! (field +:+ " is valid") = Some isValid.
Proof.
  intros Htruthy. revert results rt.
  induction expected as [|[field d] rest IH]; intros results rt Hnodup Htotal.
  - exists results, rt. split; [reflexivity|]. intros field d validate Hin. by inversion Hin.
  - cbn [fmap list_fmap fst] in Hnodup. apply NoDup_cons in Hnodup as [Hfresh Hnodup].
    assert (Htotal' : forall field' d' validate v,
               (field', d') ∈ rest -> validators host !! type d' = Some validate ->
               get_prop responseBody field' = Normal v ->
               exists isValid, validate v (values d') = Normal isValid).
    { intros field' d' validate v Hin. apply Htotal. by right. }
    assert (Hother : forall entry, entry ∈ rest ->
                                   check_name host (field, d) <> check_name host entry).
    { intros entry Hin Heq%check_name_inj. cbn [fst] in Heq. apply Hfresh.
      apply list_elem_of_fmap. exists entry. by split. }
    destruct (get_prop_truthy responseBody field Htruthy) as [v Hv].
    cbn [validate_fields]. rewrite M_bind_unfold. unfold lift at 1. rewrite Hv.
    unfold check_name in Hother. cbn [fst snd] in Hother.
    destruct (validators host !! type d) as [validator|] eqn:Hselected.
    + destruct (Htotal field d validator v) as [isValid HisValid];
        [by left | exact Hselected | exact Hv |].
      rewrite M_bind_unfold. unfold lift at 1. rewrite HisValid. rewrite M_bind_unfold.
      assert (Hnext : forall st,
                 exists final rt',
                   validate_fields host responseBody rest
                     (<[field +:+ " is valid" := isValid]> results) st = (Normal final, rt') /\
                   forall field' d' validate,
                     (field', d') ∈ (field, d) :: rest ->
                     validators host !! type d' = Some validate ->
                     exists v' isValid',
                       get_prop responseBody field' = Normal v' /\
                       validate v' (values d') = Normal isValid' /\
                       final !! (field' +:+ " is valid") = Some isValid').
      { intros st.
        destruct (IH (<[field +:+ " is valid" := isValid]> results) st Hnodup Htotal')
          as (final & rt' & Hrun & Heach).
        exists final, rt'. split; [exact Hrun|].
        intros field' d' validate [[= -> ->]|Hin]%elem_of_cons Hsel.
        - pose proof (eq_trans (eq_sym Hsel) Hselected) as [= ->].
          exists v, isValid. split; [exact Hv|]. split; [exact HisValid|].
          rewrite (validate_fields_frame host responseBody rest _ final st rt'
                     (field +:+ " is valid") Hother Hrun).
          apply lookup_insert_eq.
        - by apply Heach. }
      destruct (truthy isValid).
      * unfold mret at 1, M_ret at 1. apply Hnext.
      * unfold metric_add at 1, emit at 1. apply Hnext.
    + rewrite M_bind_unfold. unfold emit at 1.
      match goal with
      | |- context [validate_fields _ _ _ ?acc ?st] =>
          destruct (IH acc st Hnodup Htotal') as (final & rt' & Hrun & Heach)
      end.
      exists final, rt'. split; [exact Hrun|].
      intros field' d' validate [[= -> ->]|Hin]%elem_of_cons Hsel.
      * pose proof (eq_trans (eq_sym Hsel) Hselected) as Habsurd. discriminate Habsurd.
      * by apply Heach.
Qed.

(** The first validator that raises ends the loop with its exception. *)
Lemma validate_fields_throws (host : Host) (responseBody : value)
    (before after : list (string * FieldDescriptor)) (field : string) (d : FieldDescriptor)
    (validate : Validator) (v : value) (e : exn) (results : gmap string value)
    (rt : Runtime) :
  truthy responseBody = true ->
  (forall field' d' validate' v',
      (field', d') ∈ before -> validators host !! type d' = Some validate' ->
      get_prop responseBody field' = Normal v' ->
      exists isValid, validate' v' (values d') = Normal isValid) ->
  validators host !! type d = Some validate ->
  get_prop responseBody field = Normal v ->
  validate v (values d) = Throw e ->
  fst (validate_fields host responseBody (before ++ (field, d) :: after) results rt)
  = Throw e.
Proof.
  intros Htruthy Hbefore Hselected Hv Hthrows. revert results rt.
  induction before as [|[field' d'] before IH]; intros results rt.
  - cbn [app validate_fields]. rewrite M_bind_unfold. unfold lift at 1.
    rewrite Hv.
    destruct (validators host !! type d) as [validator|];
      [injection Hselected as -> | discriminate Hselected].
    rewrite M_bind_unfold. unfold lift at 1. rewrite Hthrows. reflexivity.
  - assert (Hrest : forall field'' d'' validate' v',
               (field'', d'') ∈ before -> validators host !! type d'' = Some validate' ->
               get_prop responseBody field'' = Normal v' ->
               exists isValid, validate' v' (values d'') = Normal isValid).
    { intros field'' d'' validate' v' Hin. apply Hbefore. by right. }
    specialize (IH Hrest).
    destruct (get_prop_truthy responseBody field' Htruthy) as [v' Hv'].
    cbn [app validate_fields]. rewrite M_bind_unfold. unfold lift at 1. rewrite Hv'.
    destruct (validators host !! type d') as [validator|] eqn:Hsel.
    + destruct (Hbefore field' d' validator v') as [isValid HisValid];
        [by left | exact Hsel | exact Hv' |].
      rewrite M_bind_unfold. unfold lift at 1. rewrite HisValid. rewrite M_bind_unfold.
      destruct (truthy isValid).
      * unfold mret at 1, M_ret at 1. apply IH.
      * unfold metric_add at 1, emit at 1. apply IH.
    + rewrite M_bind_unfold. unfold emit at 1. apply IH.
Qed.

(** C4: for every declared field, [validateResponseContent] calls the
    validator that the field's type selects with the field's value and the
    descriptor's [values], and with nothing else of the descriptor.  On a
    response that parses to a truthy value, when no selected validator raises,
    the check recorded for each declared field is the result of that call;
    when the validator of some field raises after the fields before it were
    validated, its exception leaves [validateResponseContent]; and validation
    runs the same when every option but [type] and [values] is removed.  So a
    [regex] field declared with [pattern] is tested against the empty pattern
    and a [custom] field declared with [validator] has no function to call. *)
Theorem C4_validator_receives_values_only (host : Host) :
  (forall (response : Response) (responseBody : value)
          (expected : list (string * FieldDescriptor)) (rt : Runtime),
      truthy (r_body response) = true ->
      json response = Normal responseBody ->
      truthy responseBody = true ->
      NoDup expected.*1 ->
      (forall field d validate v,
          (field, d) ∈ expected -> validators host !! type d = Some validate ->
          get_prop responseBody field = Normal v ->
          exists isValid, validate v (values d) = Normal isValid) ->
      exists (results : gmap string value) (rt' : Runtime),
        validateResponseContent host response expected rt = (Normal results, rt') /\
        forall field d validate,
          (field, d) ∈ expected -> validators host !! type d = Some validate ->
          exists v isValid,
            get_prop responseBody field = Normal v /\
            validate v (values d) = Normal isValid /\
            results !! (field +:+ " is valid") = Some isValid) /\
  (forall (response : Response) (responseBody : value)
          (before after : list (string * FieldDescriptor)) (field : string)
          (d : FieldDescriptor) (validate : Validator) (v : value) (e : exn) (rt : Runtime),
      truthy (r_body response) = true ->
      json response = Normal responseBody ->
      truthy responseBody = true ->
      (forall field' d' validate' v',
          (field', d') ∈ before -> validators host !! type d' = Some validate' ->
          get_prop responseBody field' = Normal v' ->
          exists isValid, validate' v' (values d') = Normal isValid) ->
      validators host !! type d = Some validate ->
      get_prop responseBody field = Normal v ->
      validate v (values d) = Throw e ->
      fst (validateResponseContent host response (before ++ (field, d) :: after) rt)
      = Throw e) /\
  (forall (response : Response) (expected : list (string * FieldDescriptor)) (rt : Runtime),
      validateResponseContent host response expected rt
      = validateResponseContent host response
          (map (fun fd => (fst fd, only_values (snd fd))) expected) rt) /\
  (forall (p : string) (v : value),
      validators host !! type (regex_field p) = Some (validators_regex host) /\
      validators_regex host v (values (regex_field p)) = regexp_test host "(?:)" "" v) /\
  (forall (source : string) (f : value -> completion value) (v : value),
      validators host !! type (custom_field source f) = Some validators_custom /\
      validators_custom v (values (custom_field source f))
      = Throw (TypeError "validatorFn is not a function")).
Proof.
  split; [|split; [|split; [|split]]].
  - intros response responseBody expected rt Hbody Hjson Htruthy Hnodup Htotal.
    unfold validateResponseContent.
    rewrite M_bind_unfold, (parseResponse_parsed response None responseBody rt Hbody Hjson).
    rewrite Htruthy. cbn [negb].
    apply validate_fields_each; assumption.
  - intros response responseBody before after field d validate v e rt
      Hbody Hjson Htruthy Hbefore Hselected Hv Hthrows.
    unfold validateResponseContent.
    rewrite M_bind_unfold, (parseResponse_parsed response None responseBody rt Hbody Hjson).
    rewrite Htruthy. cbn [negb].
    by apply (validate_fields_throws host responseBody before after field d validate v e).
  - intros response expected rt. unfold validateResponseContent.
    rewrite !M_bind_unfold.
    destruct (parseResponse response None rt) as [[responseBody|e] rt1]; [|reflexivity].
    destruct (negb (truthy responseBody)); [reflexivity|].
    apply validate_fields_only_values.
  - intros p v. split; reflexivity.
  - intros source f v. split; reflexivity.
Qed.

(** On the schema of [getToken] widened by the two documented forms: the
    three fields before the [custom] one are validated, then the [custom]
    validator is called with no function and its [TypeError] ends the
    validation. *)
Example documented_custom_field_raises :
  fst (validateResponseContent (scripted_host token_response 5) token_response
         [("access_token", field "text"); ("expires_in", field "number");
          ("token_type", regex_field "^Bearer$");
          ("scope", custom_field "(value) => value.startsWith('PREFIX_')"
                      (fun _ => Normal (JBool true)))]
         fresh_run)
  = Throw (TypeError "validatorFn is not a function").
Proof. vm_compute. reflexivity. Qed.
